(** * Restaurant booking system: availability checking and booking lifecycle

    A shallow embedding of [backend.py], [models/booking.py],
    [models/tables.py] and the parts of [postgres_driver.py] they call,
    followed by the properties of the availability checker
    ([check_table_availability]) and of the booking operations
    ([create_booking], [update_booking], [delete_booking]).

    Python values are dynamically typed, so model fields hold [pyval]s and
    every [isinstance] test, truthiness test and [TypeError] of the source is
    written out.  Effects (driver calls, [print], the clock, exceptions and
    [try]/[except]) live in a small state-and-exception monad. *)

From Stdlib Require Import ZArith String List Bool Lia Permutation.
Import ListNotations.
Open Scope string_scope.
Open Scope Z_scope.

(** ** Dates and times of the [datetime] module *)

(** A [datetime.date] is its proleptic Gregorian ordinal, a naive
    [datetime.time] is its number of microseconds since midnight.  Both are
    ordered like the Python objects they stand for. *)
Definition date := Z.
Definition time := Z.

Definition MAXORDINAL : Z := 3652059.          (* date.max.toordinal() *)
Definition MICROS_PER_HOUR : Z := 3600000000.
Definition MICROS_PER_DAY : Z := 24 * MICROS_PER_HOUR.

Definition time_ok (t : time) : Prop := 0 <= t < MICROS_PER_DAY.

(** [time(h, m)] *)
Definition hm (h m : Z) : time := (h * 3600 + m * 60) * 1000000.

Record datetime := mk_datetime { dt_date : date; dt_time : time }.

(** Exceptions that the modelled code can meet. *)
Inductive exn :=
| TypeError
| ValueError
| OverflowError
| OperationalError        (* psycopg2: the connection is lost *)
| IntegrityError          (* psycopg2: a constraint of the schema is violated *)
| ProgrammingError.       (* psycopg2: the statement cannot be run *)

(** [dt <= dt'] and [dt >= dt'] on naive datetimes: lexicographic on the
    date and the time of day. *)
Definition dt_le (a b : datetime) : bool :=
  (dt_date a <? dt_date b) || ((dt_date a =? dt_date b) && (dt_time a <=? dt_time b)).

Definition dt_ge (a b : datetime) : bool :=
  (dt_date a >? dt_date b) || ((dt_date a =? dt_date b) && (dt_time a >=? dt_time b)).

(** [dt + timedelta(hours=h)] for [h >= 0]: the day carries, and a date past
    [date.max] raises [OverflowError]. *)
Definition dt_add_hours (a : datetime) (h : Z) : exn + datetime :=
  let total := dt_time a + h * MICROS_PER_HOUR in
  let d := dt_date a + total / MICROS_PER_DAY in
  if d >? MAXORDINAL then inl OverflowError
  else inr (mk_datetime d (total mod MICROS_PER_DAY)).

(** ** Python values *)

Inductive pyval :=
| VNone
| VBool (b : bool)
| VInt (z : Z)
| VStr (s : string)
| VDate (d : date)
| VTime (t : time)
| VDateTime (dt : datetime).

(** [bool(v)].  Since Python 3.5 every [time] is true, midnight included. *)
Definition truthy (v : pyval) : bool :=
  match v with
  | VNone => false
  | VBool b => b
  | VInt z => negb (z =? 0)
  | VStr s => negb (String.eqb s "")
  | VDate _ | VTime _ | VDateTime _ => true
  end.

Definition is_none (v : pyval) : bool :=
  match v with VNone => true | _ => false end.

(** [v == v'].  [bool] is a subclass of [int]; a [date] never equals a
    [datetime]. *)
Definition py_eq (a b : pyval) : bool :=
  match a, b with
  | VNone, VNone => true
  | VBool x, VBool y => Bool.eqb x y
  | VInt x, VInt y => x =? y
  | VBool x, VInt y | VInt y, VBool x => (if x then 1 else 0) =? y
  | VStr x, VStr y => String.eqb x y
  | VDate x, VDate y => x =? y
  | VTime x, VTime y => x =? y
  | VDateTime x, VDateTime y =>
      (dt_date x =? dt_date y) && (dt_time x =? dt_time y)
  | _, _ => false
  end.

(** [v in vs] *)
Definition py_in (v : pyval) (vs : list pyval) : bool := existsb (py_eq v) vs.

(** [v.date() if isinstance(v, datetime) else v]; only a [VDateTime] is an
    instance of [datetime]. *)
Definition date_part (v : pyval) : pyval :=
  match v with VDateTime dt => VDate (dt_date dt) | _ => v end.

(** [v.time() if isinstance(v, datetime) else v] *)
Definition time_part (v : pyval) : pyval :=
  match v with VDateTime dt => VTime (dt_time dt) | _ => v end.

(** [datetime.combine(d, t)]: [d] must be a [date] (a [datetime] is one and
    gives its date), [t] must be a [time]; anything else is a [TypeError]. *)
Definition combine (d t : pyval) : exn + datetime :=
  match d, t with
  | VDate d', VTime t' => inr (mk_datetime d' t')
  | VDateTime dt, VTime t' => inr (mk_datetime (dt_date dt) t')
  | _, _ => inl TypeError
  end.

(** ** Dictionaries with string keys

    Rows and filter maps.  A Python [dict] keeps insertion order, and the
    driver builds its column lists from that order, so a dictionary is an
    association list with at most one entry per key. *)
Definition dict := list (string * pyval).

Fixpoint dict_lookup (d : dict) (k : string) : option pyval :=
  match d with
  | [] => None
  | (k', v) :: d' => if String.eqb k' k then Some v else dict_lookup d' k
  end.

(** [d.get(k, default)] *)
Definition dict_get_default (d : dict) (k : string) (default : pyval) : pyval :=
  match dict_lookup d k with Some v => v | None => default end.

(** [d.get(k)] *)
Definition dict_get (d : dict) (k : string) : pyval := dict_get_default d k VNone.

(** [d[k] = v] *)
Fixpoint dict_set (d : dict) (k : string) (v : pyval) : dict :=
  match d with
  | [] => [(k, v)]
  | (k', v') :: d' =>
      if String.eqb k' k then (k', v) :: d' else (k', v') :: dict_set d' k v
  end.

(** ** models/tables.py *)
Module RestaurantTable.

Record t := mk {
  id : pyval;
  table_number : pyval;
  capacity : pyval;
  table_type : pyval;
  status : pyval;
  location : pyval;
  description : pyval;
  is_active : pyval;
  created_at : pyval;
  updated_at : pyval }.

Definition get_table_name : string := "restaurant_tables".

Definition from_dict (data : dict) : t :=
  {| id := dict_get data "id";
     table_number := dict_get_default data "table_number" (VStr "");
     capacity := dict_get_default data "capacity" (VInt 2);
     table_type := dict_get_default data "table_type" (VStr "standard");
     status := dict_get_default data "status" (VStr "available");
     location := dict_get data "location";
     description := dict_get data "description";
     is_active := dict_get_default data "is_active" (VBool true);
     created_at := dict_get data "created_at";
     updated_at := dict_get data "updated_at" |}.

Definition to_dict (self : t) : dict :=
  [ ("table_number", table_number self);
    ("capacity", capacity self);
    ("table_type", table_type self);
    ("status", status self);
    ("location", location self);
    ("description", description self);
    ("is_active", is_active self);
    ("created_at", created_at self);
    ("updated_at", updated_at self) ].

End RestaurantTable.

(** ** models/users.py *)
Module User.

Record t := mk {
  id : pyval;
  email : pyval;
  password_hash : pyval;
  full_name : pyval;
  phone : pyval;
  role : pyval;
  is_active : pyval;
  created_at : pyval;
  updated_at : pyval }.

Definition get_table_name : string := "users".

Definition to_dict (self : t) : dict :=
  [ ("email", email self);
    ("password_hash", password_hash self);
    ("full_name", full_name self);
    ("phone", phone self);
    ("role", role self);
    ("is_active", is_active self);
    ("created_at", created_at self);
    ("updated_at", updated_at self) ].

Definition from_dict (data : dict) : t :=
  {| id := dict_get data "id";
     email := dict_get_default data "email" (VStr "");
     password_hash := dict_get_default data "password_hash" (VStr "");
     full_name := dict_get_default data "full_name" (VStr "");
     phone := dict_get data "phone";
     role := dict_get_default data "role" (VStr "client");
     is_active := dict_get_default data "is_active" (VBool true);
     created_at := dict_get data "created_at";
     updated_at := dict_get data "updated_at" |}.

End User.

(** ** models/booking.py *)
Module Booking.

Record t := mk {
  id : pyval;
  user_id : pyval;
  table_id : pyval;
  booking_date : pyval;
  booking_time : pyval;
  booking_end_time : pyval;
  number_of_guests : pyval;
  status : pyval;
  notes : pyval;
  created_at : pyval;
  updated_at : pyval }.

Definition get_table_name : string := "bookings".

(** The [else] branch of [to_dict]: the end time of a booking that has
    none, as start time + 2 hours.  [None] when no entry is added. *)
Definition default_end_time (self : t) : exn + option pyval :=
  if truthy (booking_time self) then
    let booking_time_obj := time_part (booking_time self) in
    let booking_date_obj := date_part (booking_date self) in
    if truthy booking_date_obj && truthy booking_time_obj then
      match combine booking_date_obj booking_time_obj with
      | inl e => inl e
      | inr booking_dt =>
          match dt_add_hours booking_dt 2 with
          | inl e => inl e
          | inr end_dt => inr (Some (VTime (dt_time end_dt)))
          end
      end
    else inr None
  else inr None.

Definition to_dict (self : t) : exn + dict :=
  let result :=
    [ ("user_id", user_id self);
      ("table_id", table_id self);
      ("booking_date", date_part (booking_date self));
      ("booking_time", time_part (booking_time self));
      ("number_of_guests", number_of_guests self);
      ("status", status self);
      ("notes", notes self);
      ("created_at", created_at self);
      ("updated_at", updated_at self) ] in
  if negb (is_none (booking_end_time self)) then
    inr (dict_set result "booking_end_time" (time_part (booking_end_time self)))
  else
    match default_end_time self with
    | inl e => inl e
    | inr (Some end_time) => inr (dict_set result "booking_end_time" end_time)
    | inr None => inr result
    end.

Definition from_dict (data : dict) : t :=
  {| id := dict_get data "id";
     user_id := dict_get_default data "user_id" (VInt 0);
     table_id := dict_get_default data "table_id" (VInt 0);
     booking_date := dict_get data "booking_date";
     booking_time := dict_get data "booking_time";
     booking_end_time := dict_get data "booking_end_time";
     number_of_guests := dict_get_default data "number_of_guests" (VInt 1);
     status := dict_get_default data "status" (VStr "pending");
     notes := dict_get data "notes";
     created_at := dict_get data "created_at";
     updated_at := dict_get data "updated_at" |}.

End Booking.

(** ** Effects: the store behind the driver, [print], the clock, exceptions *)

(** A statement sent through [cursor.execute]. *)
Inductive call :=
| Select (table : string) (where_ : dict) (limit : option Z)
| Insert (table : string) (data : dict)
| Update (table : string) (data where_ : dict)
| Delete (table : string) (where_ : dict).

(** What the store answers to each statement of [PostgreSQLDriver]: the
    block [with self.get_cursor() as cursor: cursor.execute(...)] with its
    commit, or its rollback and re-raise. *)
Record Driver (Store : Type) := mk_driver {
  exec_select : string -> dict -> option Z -> Store -> (exn + list dict) * Store;
  exec_insert : string -> dict -> Store -> (exn + pyval) * Store;
  exec_update : string -> dict -> dict -> Store -> (exn + Z) * Store;
  exec_delete : string -> dict -> Store -> (exn + Z) * Store }.

Arguments exec_select {Store}.
Arguments exec_insert {Store}.
Arguments exec_update {Store}.
Arguments exec_delete {Store}.

(** The lines written by [print], one constructor per call site of
    backend.py; [e] is the exception interpolated in the message. *)
Inductive msg :=
| MsgReadTableError (e : exn)
| MsgReadBookingsError (e : exn)
| MsgEndTimeRequired
| MsgTableMissing
| MsgTableInactive
| MsgConflict (conflict_id : pyval)
| MsgUnavailable
| MsgCreateBookingError (e : exn)
| MsgUpdateBookingError (e : exn)
| MsgDeleteBookingError (e : exn)
| MsgAvailabilityError (e : exn).

(** A statement that was executed, with the exception it raised if any. *)
Definition event : Type := call * option exn.

Definition error_of {A} (r : exn + A) : option exn :=
  match r with inl e => Some e | inr _ => None end.

Record world (Store : Type) := mk_world {
  store : Store;                (* the database behind the driver *)
  trace : list event;           (* statements executed so far, oldest first *)
  stdout : list msg;            (* lines printed so far, oldest first *)
  clock : datetime }.           (* what [datetime.now()] returns *)

Arguments mk_world {Store}.
Arguments store {Store}.
Arguments trace {Store}.
Arguments stdout {Store}.
Arguments clock {Store}.

(** A computation either raises or returns, and leaves a world behind. *)
Definition M (Store A : Type) : Type := world Store -> (exn + A) * world Store.

Definition ret {Store A} (a : A) : M Store A := fun w => (inr a, w).

Definition raise {Store A} (e : exn) : M Store A := fun w => (inl e, w).

Definition bind {Store A B} (m : M Store A) (k : A -> M Store B) : M Store B :=
  fun w => match m w with
           | (inl e, w') => (inl e, w')
           | (inr a, w') => k a w'
           end.

(** [try: m  except Exception as e: handler e] *)
Definition try_except {Store A} (m : M Store A) (handler : exn -> M Store A) : M Store A :=
  fun w => match m w with
           | (inl e, w') => handler e w'
           | (inr a, w') => (inr a, w')
           end.

(** A pure computation that may raise. *)
Definition lift {Store A} (r : exn + A) : M Store A := fun w => (r, w).

Definition print {Store} (m : msg) : M Store unit :=
  fun w => (inr tt, mk_world (store w) (trace w) (stdout w ++ [m]) (clock w)).

(** [datetime.now()] *)
Definition now {Store} : M Store pyval := fun w => (inr (VDateTime (clock w)), w).

Declare Scope py_scope.
Delimit Scope py_scope with py.
Notation "x <- m ;; k" := (bind m (fun x => k))
  (at level 100, m at next level, right associativity) : py_scope.
Notation "m ;;; k" := (bind m (fun _ => k))
  (at level 100, right associativity) : py_scope.
Open Scope py_scope.

(** ** postgres_driver.py *)
Module PostgreSQLDriver.
Section Methods.
Context {Store : Type} (self : Driver Store).

(** Run one statement on the store and record it. *)
Definition execute {A} (c : call) (run : Store -> (exn + A) * Store) : M Store A :=
  fun w => let (r, s') := run (store w) in
           (r, mk_world s' (trace w ++ [(c, error_of r)]) (stdout w) (clock w)).

(** [read(table, where=where, limit=limit, as_dict=True)]; a [where] of
    [None] and an empty one both give no [WHERE] clause. *)
Definition read (table : string) (where_ : dict) (limit : option Z) : M Store (list dict) :=
  let limit := match limit with Some 0 => None | _ => limit end in   (* [if limit:] *)
  execute (Select table where_ limit) (exec_select self table where_ limit).

Definition read_one (table : string) (where_ : dict) : M Store (option dict) :=
  results <- read table where_ (Some 1) ;;
  ret (match results with r :: _ => Some r | [] => None end).

Definition read_by_id (table : string) (id_value : pyval) : M Store (option dict) :=
  read_one table [("id", id_value)].

(** [create(table, data, returning='id')] *)
Definition create (table : string) (data : dict) : M Store pyval :=
  match data with
  | [] => raise ValueError
  | _ => execute (Insert table data) (exec_insert self table data)
  end.

Definition update (table : string) (data where_ : dict) : M Store Z :=
  match data, where_ with
  | [], _ => raise ValueError
  | _, [] => raise ValueError
  | _, _ => execute (Update table data where_) (exec_update self table data where_)
  end.

Definition update_by_id (table : string) (id_value : pyval) (data : dict) : M Store Z :=
  update table data [("id", id_value)].

Definition delete (table : string) (where_ : dict) : M Store Z :=
  match where_ with
  | [] => raise ValueError
  | _ => execute (Delete table where_) (exec_delete self table where_)
  end.

Definition delete_by_id (table : string) (id_value : pyval) : M Store Z :=
  delete table [("id", id_value)].

End Methods.
End PostgreSQLDriver.

(** ** backend.py *)

(** The dictionary returned by [check_table_availability]. *)
Record availability := mk_availability {
  available : bool;
  table_exists : bool;
  table_active : bool;
  conflicting_booking : option Booking.t }.

Definition set_table_exists (r : availability) : availability :=
  mk_availability (available r) true (table_active r) (conflicting_booking r).

Definition set_table_active (r : availability) : availability :=
  mk_availability (available r) (table_exists r) true (conflicting_booking r).

Definition set_conflicting_booking (r : availability) (b : Booking.t) : availability :=
  mk_availability (available r) (table_exists r) (table_active r) (Some b).

Definition set_available (r : availability) : availability :=
  mk_availability true (table_exists r) (table_active r) (conflicting_booking r).

(** [b.status in ['pending', 'confirmed'] and
     (exclude_booking_id is None or b.id != exclude_booking_id)] *)
Definition is_considered (exclude_booking_id : pyval) (b : Booking.t) : bool :=
  py_in (Booking.status b) [VStr "pending"; VStr "confirmed"]
  && (is_none exclude_booking_id || negb (py_eq (Booking.id b) exclude_booking_id)).

Definition active_bookings (bookings : list Booking.t) (exclude_booking_id : pyval)
  : list Booking.t :=
  filter (is_considered exclude_booking_id) bookings.

(** Body of the loop up to the test: [existing_start] and [existing_end]
    of one existing booking. *)
Definition existing_interval (booking_date : pyval) (existing_booking : Booking.t)
  : exn + (datetime * datetime) :=
  let existing_time_start := time_part (Booking.booking_time existing_booking) in
  let existing_time_end :=
    if truthy (Booking.booking_end_time existing_booking) then
      inr (time_part (Booking.booking_end_time existing_booking))
    else
      match combine booking_date existing_time_start with
      | inl e => inl e
      | inr existing_start_dt =>
          match dt_add_hours existing_start_dt 2 with
          | inl e => inl e
          | inr end_dt => inr (VTime (dt_time end_dt))
          end
      end in
  match existing_time_end with
  | inl e => inl e
  | inr existing_time_end =>
      match combine booking_date existing_time_start with
      | inl e => inl e
      | inr existing_start =>
          match combine booking_date existing_time_end with
          | inl e => inl e
          | inr existing_end => inr (existing_start, existing_end)
          end
      end
  end.

(** [not (new_end <= existing_start or new_start >= existing_end)] *)
Definition overlaps (new_start new_end existing_start existing_end : datetime) : bool :=
  negb (dt_le new_end existing_start || dt_ge new_start existing_end).

(** The [for existing_booking in active_bookings] loop: the first booking
    whose interval overlaps, or the exception raised on the way to it. *)
Fixpoint find_conflict (booking_date : pyval) (new_start new_end : datetime)
  (bookings : list Booking.t) : exn + option Booking.t :=
  match bookings with
  | [] => inr None
  | existing_booking :: rest =>
      match existing_interval booking_date existing_booking with
      | inl e => inl e
      | inr (existing_start, existing_end) =>
          if overlaps new_start new_end existing_start existing_end
          then inr (Some existing_booking)
          else find_conflict booking_date new_start new_end rest
      end
  end.

Section Backend.
Context {Store : Type} (driver : Driver Store).

Definition read_table (table_id : pyval) : M Store (option RestaurantTable.t) :=
  try_except
    (data <- PostgreSQLDriver.read_by_id driver RestaurantTable.get_table_name table_id ;;
     match data with
     | Some ((_ :: _) as row) => ret (Some (RestaurantTable.from_dict row))
     | _ => ret None
     end)
    (fun e => print (MsgReadTableError e) ;;; ret None).

(** [read_bookings(where, driver)] with a driver given, so that nothing is
    disconnected in the [finally]. *)
Definition read_bookings (where_ : dict) : M Store (list Booking.t) :=
  try_except
    (data_list <- PostgreSQLDriver.read driver Booking.get_table_name where_ None ;;
     ret (map Booking.from_dict data_list))
    (fun e => print (MsgReadBookingsError e) ;;; ret []).

Definition initial_result : availability := mk_availability false false false None.

(** [except Exception as e: print(...); return result], with [result] as
    it stands when the exception is raised. *)
Definition return_result_on_error (result : availability) (e : exn)
  : M Store availability :=
  print (MsgAvailabilityError e) ;;; ret result.

(** [result] is a dictionary that the body of the [try] updates in place;
    each stage below runs under the handler with the dictionary as it
    stands at that stage. *)
Definition check_table_availability
  (table_id booking_date booking_time booking_end_time exclude_booking_id : pyval)
  : M Store availability :=
  let result := initial_result in
  try_except
    (table <- read_table table_id ;;
     match table with
     | None => ret result
     | Some table =>
         let result := set_table_exists result in
         if negb (truthy (RestaurantTable.is_active table)) then ret result
         else
           let result := set_table_active result in
           try_except
             (let where_conditions :=
                [("table_id", table_id); ("booking_date", booking_date)] in
              bookings <- read_bookings where_conditions ;;
              let active := active_bookings bookings exclude_booking_id in
              new_start <- lift (combine booking_date booking_time) ;;
              new_end <- lift (combine booking_date booking_end_time) ;;
              conflict <- lift (find_conflict booking_date new_start new_end active) ;;
              match conflict with
              | Some existing_booking =>
                  ret (set_conflicting_booking result existing_booking)
              | None => ret (set_available result)
              end)
             (return_result_on_error result)
     end)
    (return_result_on_error result).

Definition create_booking (booking : Booking.t) : M Store pyval :=
  try_except
    (if negb (truthy (Booking.booking_end_time booking)) then
       print MsgEndTimeRequired ;;; ret VNone
     else
       let booking_date := date_part (Booking.booking_date booking) in
       let booking_time_start := time_part (Booking.booking_time booking) in
       let booking_time_end := time_part (Booking.booking_end_time booking) in
       availability_result <-
         check_table_availability (Booking.table_id booking) booking_date
           booking_time_start booking_time_end VNone ;;
       if negb (available availability_result) then
         (if negb (table_exists availability_result) then print MsgTableMissing
          else if negb (table_active availability_result) then print MsgTableInactive
          else match conflicting_booking availability_result with
               | Some conflict => print (MsgConflict (Booking.id conflict))
               | None => print MsgUnavailable
               end) ;;;
         ret VNone
       else
         booking_data <- lift (Booking.to_dict booking) ;;
         booking_id <- PostgreSQLDriver.create driver Booking.get_table_name booking_data ;;
         ret booking_id)
    (fun e => print (MsgCreateBookingError e) ;;; ret VNone).

Definition update_booking (booking_id : pyval) (booking : Booking.t) : M Store bool :=
  try_except
    (booking_data <- lift (Booking.to_dict booking) ;;
     t <- now ;;
     let booking_data := dict_set booking_data "updated_at" t in
     rows_affected <-
       PostgreSQLDriver.update_by_id driver Booking.get_table_name booking_id booking_data ;;
     ret (rows_affected >? 0))
    (fun e => print (MsgUpdateBookingError e) ;;; ret false).

Definition delete_booking (booking_id : pyval) : M Store bool :=
  try_except
    (rows_affected <-
       PostgreSQLDriver.delete_by_id driver Booking.get_table_name booking_id ;;
     ret (rows_affected >? 0))
    (fun e => print (MsgDeleteBookingError e) ;;; ret false).

End Backend.

(** [get_all_bookings(driver)] with a driver given. *)
Definition get_all_bookings {Store} (driver : Driver Store) : M Store (list Booking.t) :=
  read_bookings driver [].

(** ** A reference store

    The three relations declared by the [get_create_table_sql] methods, and
    the answers of PostgreSQL to the statements that [PostgreSQLDriver]
    builds: [SELECT * FROM t WHERE k = v AND ... LIMIT n],
    [INSERT ... RETURNING id], [UPDATE ... WHERE ...], [DELETE ... WHERE ...].
    On [bookings] the [NOT NULL], [CHECK] and [FOREIGN KEY] constraints of
    models/booking.py are enforced.  The operations modelled here write to
    [bookings] only; a write to another relation is outside this model and is
    answered like a statement on an unknown relation.

    What the reference store leaves out of PostgreSQL:
    - SQL fixes no order for a [SELECT] without [ORDER BY].  Here a relation
      is a list in insertion order, an [UPDATE] rewrites a row where it
      stands and an [INSERT] keeps the columns in the order of the row given;
      PostgreSQL returns columns in table order and may return an updated row
      last.
    - A parameter is compared with a column of its own type only; the
      coercions of PostgreSQL (a quoted integer against [id], a timestamp
      against a [DATE] column) are not modelled.
    - The column types are checked as far as the constraints above need
      them: the range of [INTEGER] and the lengths of [VARCHAR] are not.
    - The only failure of a statement besides a constraint is the loss of the
      connection, and a connection that is lost stays lost: this is a server
      that cannot be reached again, not a transient failure after which
      [_ensure_connection] reconnects. *)

(** The SQL comparison [column = %s] for a parameter of the type of the
    column: never true on NULL; a parameter of another type matches
    nothing. *)
Definition sql_eq (a b : pyval) : bool :=
  match a, b with
  | VBool x, VBool y => Bool.eqb x y
  | VInt x, VInt y => x =? y
  | VStr x, VStr y => String.eqb x y
  | VDate x, VDate y => x =? y
  | VTime x, VTime y => x =? y
  | VDateTime x, VDateTime y =>
      (dt_date x =? dt_date y) && (dt_time x =? dt_time y)
  | _, _ => false
  end.

Module MemStore.

Record t := mk {
  users : list dict;
  restaurant_tables : list dict;
  bookings : list dict;
  next_booking_id : Z;               (* the sequence behind [id SERIAL] *)
  statements_left : option nat }.    (* statements until the connection is
                                        lost; [None]: it never is *)

Definition with_bookings (s : t) (rows : list dict) (next : Z) : t :=
  mk (users s) (restaurant_tables s) rows next (statements_left s).

(** One statement reaches the server, unless the connection is gone. *)
Definition tick (s : t) : option t :=
  match statements_left s with
  | None => Some s
  | Some O => None
  | Some (S n) =>
      Some (mk (users s) (restaurant_tables s) (bookings s) (next_booking_id s) (Some n))
  end.

Definition relation (s : t) (table : string) : option (list dict) :=
  if String.eqb table "users" then Some (users s)
  else if String.eqb table "restaurant_tables" then Some (restaurant_tables s)
  else if String.eqb table "bookings" then Some (bookings s)
  else None.

Definition row_matches (where_ : dict) (row : dict) : bool :=
  forallb (fun c => sql_eq (dict_get row (fst c)) (snd c)) where_.

Definition has_id (rows : list dict) (v : pyval) : bool :=
  existsb (fun r => sql_eq (dict_get r "id") v) rows.

(** The column constraints of [bookings]. *)
Definition booking_row_ok (s : t) (row : dict) : bool :=
  has_id (users s) (dict_get row "user_id")
  && has_id (restaurant_tables s) (dict_get row "table_id")
  && match dict_get row "booking_date" with VDate _ => true | _ => false end
  && match dict_get row "booking_time", dict_get row "booking_end_time" with
     | VTime start, VTime stop => stop >? start  (* CHECK (booking_end_time > booking_time) *)
     | _, _ => false
     end
  && match dict_get row "number_of_guests" with
     | VInt n => n >? 0                          (* CHECK (number_of_guests > 0) *)
     | _ => false
     end
  && match dict_get row "status" with VStr _ => true | _ => false end.

Definition select (table : string) (where_ : dict) (limit : option Z) (s : t)
  : (exn + list dict) * t :=
  match tick s with
  | None => (inl OperationalError, s)
  | Some s' =>
      match relation s' table with
      | None => (inl ProgrammingError, s')
      | Some rows =>
          let found := filter (row_matches where_) rows in
          (inr (match limit with
                | Some n => firstn (Z.to_nat n) found
                | None => found
                end), s')
      end
  end.

Definition insert (table : string) (data : dict) (s : t) : (exn + pyval) * t :=
  match tick s with
  | None => (inl OperationalError, s)
  | Some s' =>
      if String.eqb table "bookings" then
        match dict_lookup data "id" with
        | None =>
            let new_id := VInt (next_booking_id s') in
            (* a failed INSERT still consumes a value of the sequence *)
            if booking_row_ok s' data && negb (has_id (bookings s') new_id) then
              (inr new_id,
               with_bookings s' (bookings s' ++ [("id", new_id) :: data])
                 (next_booking_id s' + 1))
            else (inl IntegrityError,
                  with_bookings s' (bookings s') (next_booking_id s' + 1))
        | Some given =>
            if booking_row_ok s' data
               && match given with VInt _ => true | _ => false end
               && negb (has_id (bookings s') given)
            then (inr given,
                  with_bookings s' (bookings s' ++ [data]) (next_booking_id s'))
            else (inl IntegrityError, s')
        end
      else (inl ProgrammingError, s')
  end.

(** [SET k = v, ...] on one row. *)
Definition apply_update (data : dict) (row : dict) : dict :=
  fold_left (fun r c => dict_set r (fst c) (snd c)) data row.

Definition update (table : string) (data where_ : dict) (s : t) : (exn + Z) * t :=
  match tick s with
  | None => (inl OperationalError, s)
  | Some s' =>
      if String.eqb table "bookings" then
        let hit := filter (row_matches where_) (bookings s') in
        if forallb (booking_row_ok s') (map (apply_update data) hit) then
          (inr (Z.of_nat (length hit)),
           with_bookings s'
             (map (fun r => if row_matches where_ r then apply_update data r else r)
                  (bookings s'))
             (next_booking_id s'))
        else (inl IntegrityError, s')
      else (inl ProgrammingError, s')
  end.

Definition delete (table : string) (where_ : dict) (s : t) : (exn + Z) * t :=
  match tick s with
  | None => (inl OperationalError, s)
  | Some s' =>
      if String.eqb table "bookings" then
        let hit := filter (row_matches where_) (bookings s') in
        (inr (Z.of_nat (length hit)),
         with_bookings s'
           (filter (fun r => negb (row_matches where_ r)) (bookings s'))
           (next_booking_id s'))
      else (inl ProgrammingError, s')
  end.

Definition driver : Driver t := mk_driver t select insert update delete.

End MemStore.

(** A world around a reference store: nothing executed or printed yet. *)
Definition fresh_world (s : MemStore.t) : world MemStore.t :=
  mk_world s [] [] (mk_datetime 738000 (hm 12 0)).

(** *** A small restaurant used in the examples below *)

Definition table_row (id : Z) (number : string) (is_active : bool) : dict :=
  [ ("id", VInt id); ("table_number", VStr number); ("capacity", VInt 4);
    ("table_type", VStr "standard"); ("status", VStr "available");
    ("location", VNone); ("description", VNone); ("is_active", VBool is_active);
    ("created_at", VNone); ("updated_at", VNone) ].

Definition booking_row (id user table : Z) (day : date) (start : time)
  (stop : pyval) (status : string) : dict :=
  [ ("id", VInt id); ("user_id", VInt user); ("table_id", VInt table);
    ("booking_date", VDate day); ("booking_time", VTime start);
    ("booking_end_time", stop); ("number_of_guests", VInt 2);
    ("status", VStr status); ("notes", VNone);
    ("created_at", VNone); ("updated_at", VNone) ].

Definition user_row (id : Z) : dict :=
  [ ("id", VInt id); ("email", VStr "guest@example.org"); ("role", VStr "client") ].

Definition today : date := 739000.

(** Table 1 is active, table 2 is not.  On table 1 today: booking 1 is
    confirmed for 19:00-21:00, booking 2 is confirmed for 21:00-22:00,
    booking 3 was cancelled (16:00-17:00). *)
Definition restaurant : MemStore.t :=
  MemStore.mk
    [ user_row 1 ]
    [ table_row 1 "T1" true; table_row 2 "T2" false ]
    [ booking_row 1 1 1 today (hm 19 0) (VTime (hm 21 0)) "confirmed";
      booking_row 2 1 1 today (hm 21 0) (VTime (hm 22 0)) "confirmed";
      booking_row 3 1 1 today (hm 16 0) (VTime (hm 17 0)) "cancelled" ]
    4 None.

(** The restaurant once the cancelled booking 3 is gone. *)
Definition restaurant_without_cancelled : MemStore.t :=
  MemStore.mk
    [ user_row 1 ]
    [ table_row 1 "T1" true; table_row 2 "T2" false ]
    [ booking_row 1 1 1 today (hm 19 0) (VTime (hm 21 0)) "confirmed";
      booking_row 2 1 1 today (hm 21 0) (VTime (hm 22 0)) "confirmed" ]
    4 None.

(** The restaurant with a connection that is lost after [n] statements. *)
Definition restaurant_failing_after (n : nat) : MemStore.t :=
  MemStore.mk (MemStore.users restaurant) (MemStore.restaurant_tables restaurant)
    (MemStore.bookings restaurant) (MemStore.next_booking_id restaurant) (Some n).

Definition table_1 : RestaurantTable.t := RestaurantTable.from_dict (table_row 1 "T1" true).

Definition bookings_today : list Booking.t :=
  map Booking.from_dict (MemStore.bookings restaurant).

(** A booking as a caller hands it over: table 1 today, from [start] to
    [stop], for [guests] guests, by user 1. *)
Definition request (id : pyval) (start stop : time) (guests : Z) : Booking.t :=
  Booking.mk id (VInt 1) (VInt 1) (VDate today) (VTime start) (VTime stop)
    (VInt guests) (VStr "confirmed") VNone VNone VNone.

Definition dinner : Booking.t := request (VInt 7) (hm 19 0) (hm 21 0) 2.

(** Booking 2 (21:00-22:00) moved to 20:00-22:00, into booking 1. *)
Definition moved_booking : Booking.t := request (VInt 2) (hm 20 0) (hm 22 0) 2.

(** A legacy row: it starts at 23:00 and has no end time. *)
Definition late_legacy_row : dict :=
  booking_row 9 1 1 today (hm 23 0) VNone "confirmed".

Definition late_restaurant : MemStore.t :=
  MemStore.mk [ user_row 1 ] [ table_row 1 "T1" true ] [ late_legacy_row ] 10 None.

(** A booking for 18:00 with no end time. *)
Definition open_ended : Booking.t :=
  Booking.mk VNone (VInt 1) (VInt 1) (VDate today) (VTime (hm 18 0)) VNone
    (VInt 2) (VStr "pending") VNone VNone VNone.

(** A request for 22:00-23:00, after the last booking of the day. *)
Definition late_request : Booking.t := request VNone (hm 22 0) (hm 23 0) 2.

(** A confirmed row whose start time is NULL. *)
Definition unreadable_row : dict :=
  [ ("id", VInt 5); ("user_id", VInt 1); ("table_id", VInt 1);
    ("booking_date", VDate today); ("booking_time", VNone);
    ("booking_end_time", VTime (hm 12 0)); ("number_of_guests", VInt 2);
    ("status", VStr "confirmed"); ("notes", VNone);
    ("created_at", VNone); ("updated_at", VNone) ].

Definition broken_restaurant : MemStore.t :=
  MemStore.mk [ user_row 1 ] [ table_row 1 "T1" true ] [ unreadable_row ] 6 None.

(** ** Vocabulary of the statements *)

(** The events that a run added to the trace. *)
Definition new_events {Store} (w w' : world Store) : list event :=
  skipn (length (trace w)) (trace w').

(** The window [start, stop) that the checker gives to an existing booking
    on the day [d], as times of that day. *)
Definition window (d : date) (b : Booking.t) (start stop : time) : Prop :=
  existing_interval (VDate d) b = inr (mk_datetime d start, mk_datetime d stop).

(** Two half-open intervals overlap unless one ends before the other
    starts. *)
Definition intervals_overlap (cand_start cand_end start stop : time) : Prop :=
  ~ (cand_end <= start \/ cand_start >= stop).

(** A reservation that counts against a request: its status is pending or
    confirmed, and its id is not the excluded one. *)
Definition considered (exclude_booking_id : pyval) (b : Booking.t) : Prop :=
  (Booking.status b = VStr "pending" \/ Booking.status b = VStr "confirmed")
  /\ (exclude_booking_id = VNone \/ py_eq (Booking.id b) exclude_booking_id = false).

(** The start and end time that a booking stores, as the [TIME NOT NULL]
    columns [booking_time] and [booking_end_time] give them. *)
Definition stored_times (b : Booking.t) (start stop : time) : Prop :=
  Booking.booking_time b = VTime start /\ Booking.booking_end_time b = VTime stop.

(** The answer of the store when the table [table_id] is looked up in a
    world: the rows found (at most one is asked for), or the exception
    raised. *)
Definition table_lookup {Store} (driver : Driver Store) (table_id : pyval)
  (w : world Store) : exn + list dict :=
  fst (exec_select driver RestaurantTable.get_table_name [("id", table_id)]
         (Some 1) (store w)).

(** A store that answers a [SELECT ... WHERE k = v AND ...] with rows that
    satisfy every condition of the filter. *)
Definition honours_where {Store} (driver : Driver Store) : Prop :=
  forall table where_ limit s rows s' row k v,
    exec_select driver table where_ limit s = (inr rows, s') ->
    In row rows -> In (k, v) where_ ->
    sql_eq (dict_get row k) v = true.

Definition is_select (ev : event) : Prop :=
  match fst ev with Select _ _ _ => True | _ => False end.

(** Malformed input in the sense of the error taxonomy: an end time that is
    not after the start time (as times of day), or a guest count that is not
    positive. *)
Definition malformed (b : Booking.t) : Prop :=
  (exists start stop,
      time_part (Booking.booking_time b) = VTime start
      /\ time_part (Booking.booking_end_time b) = VTime stop
      /\ stop <= start)
  \/ (exists n, Booking.number_of_guests b = VInt n /\ n <= 0).

(** "Malformed input is rejected before any store access", for creation:
    [create_booking] gives [None] and no statement was executed. *)
Definition create_rejects_before_store_access {Store} (driver : Driver Store) : Prop :=
  forall (b : Booking.t) (w : world Store),
    malformed b ->
    exists w', create_booking driver b w = (inr VNone, w') /\ new_events w w' = [].

(** The same for update: [update_booking] gives [False] and no statement
    was executed. *)
Definition update_rejects_before_store_access {Store} (driver : Driver Store) : Prop :=
  forall (b : Booking.t) (booking_id : pyval) (w : world Store),
    malformed b ->
    exists w', update_booking driver booking_id b w = (inr false, w')
               /\ new_events w w' = [].

(** A row that carries the start time, the end time and the guest count of
    a booking as they were given (of a datetime, its time of day). *)
Definition carries_as_given (b : Booking.t) (data : dict) : Prop :=
  dict_get data "booking_time" = time_part (Booking.booking_time b)
  /\ dict_get data "booking_end_time" = time_part (Booking.booking_end_time b)
  /\ dict_get data "number_of_guests" = Booking.number_of_guests b.

(** "A persistence failure is surfaced to the caller": a run in which a
    statement raised ends with an exception. *)
Definition surfaces_store_errors {Store A} (op : M Store A) : Prop :=
  forall (w w' : world Store) (r : exn + A) (c : call) (e : exn),
    op w = (r, w') -> In (c, Some e) (new_events w w') -> exists e', r = inl e'.

(** The value that the last entry for [k] gives it in [data], if any. *)
Fixpoint last_binding (data : dict) (k : string) : option pyval :=
  match data with
  | [] => None
  | c :: data' =>
      match last_binding data' k with
      | Some v => Some v
      | None => if String.eqb (fst c) k then Some (snd c) else None
      end
  end.

(** A booking with its [id] forgotten. *)
Definition without_id (b : Booking.t) : Booking.t :=
  Booking.mk VNone (Booking.user_id b) (Booking.table_id b) (Booking.booking_date b)
    (Booking.booking_time b) (Booking.booking_end_time b) (Booking.number_of_guests b)
    (Booking.status b) (Booking.notes b) (Booking.created_at b) (Booking.updated_at b).

(** What [check_table_availability] returns once the table is found active
    and the bookings of the day are fetched: the rest of its body is pure. *)
Definition verdict (booking_date booking_time booking_end_time : pyval)
  (active : list Booking.t) : availability :=
  let result := set_table_active (set_table_exists initial_result) in
  match combine booking_date booking_time, combine booking_date booking_end_time with
  | inr new_start, inr new_end =>
      match find_conflict booking_date new_start new_end active with
      | inr (Some existing_booking) => set_conflicting_booking result existing_booking
      | inr None => set_available result
      | inl _ => result
      end
  | _, _ => result
  end.

Ltac unfold_monad :=
  cbv beta iota zeta delta
    [try_except bind ret lift raise print now
     PostgreSQLDriver.read_by_id PostgreSQLDriver.read_one PostgreSQLDriver.read
     PostgreSQLDriver.create PostgreSQLDriver.update_by_id PostgreSQLDriver.update
     PostgreSQLDriver.delete_by_id PostgreSQLDriver.delete
     PostgreSQLDriver.execute].

(** Two states of the reference store with the same [bookings] relation. *)
Definition same_bookings (s s' : MemStore.t) : Prop :=
  MemStore.bookings s' = MemStore.bookings s.

(** The loop went past a booking: its interval was computed and does not
    overlap the candidate. *)
Definition passed_over (booking_date : pyval) (new_start new_end : datetime)
  (b : Booking.t) : Prop :=
  exists existing_start existing_end,
    existing_interval booking_date b = inr (existing_start, existing_end)
    /\ overlaps new_start new_end existing_start existing_end = false.

(** A reference store whose connection is never lost. *)
Definition live (s : MemStore.t) : Prop := MemStore.statements_left s = None.

(** The date, start and end that a stored row holds. *)
Definition row_window (row : dict) (d : date) (start stop : time) : Prop :=
  dict_get row "booking_date" = VDate d
  /\ dict_get row "booking_time" = VTime start
  /\ dict_get row "booking_end_time" = VTime stop.

(** A row whose status is pending or confirmed. *)
Definition row_active (row : dict) : Prop :=
  py_in (Booking.status (Booking.from_dict row)) [VStr "pending"; VStr "confirmed"] = true.

(** Two rows that double-book a table: both active, on the same table and
    date, with overlapping windows. *)
Definition rows_clash (r1 r2 : dict) : Prop :=
  row_active r1 /\ row_active r2
  /\ sql_eq (dict_get r1 "table_id") (dict_get r2 "table_id") = true
  /\ exists d s1 e1 s2 e2,
      row_window r1 d s1 e1 /\ row_window r2 d s2 e2
      /\ intervals_overlap s1 e1 s2 e2.

(** No two rows of [bookings] double-book a table. *)
Definition no_double_booking (s : MemStore.t) : Prop :=
  ForallOrdPairs (fun r1 r2 => ~ rows_clash r1 r2) (MemStore.bookings s).

(** The table that the store holds under an id, as [read_table] sees it. *)
Definition stored_table (s : MemStore.t) (table_id : pyval) : option RestaurantTable.t :=
  match filter (MemStore.row_matches [("id", table_id)]) (MemStore.restaurant_tables s) with
  | ((_ :: _) as row) :: _ => Some (RestaurantTable.from_dict row)
  | _ => None
  end.

(** The bookings that the store holds for a table and a date, in store
    order. *)
Definition stored_bookings (s : MemStore.t) (table_id booking_date : pyval)
  : list Booking.t :=
  map Booking.from_dict
    (filter (MemStore.row_matches [("table_id", table_id); ("booking_date", booking_date)])
       (MemStore.bookings s)).

(** What the checker answers from a store, read off its relations. *)
Definition stored_verdict (s : MemStore.t)
  (table_id booking_date booking_time booking_end_time exclude_booking_id : pyval)
  : availability :=
  match stored_table s table_id with
  | None => initial_result
  | Some t =>
      if truthy (RestaurantTable.is_active t)
      then verdict booking_date booking_time booking_end_time
             (active_bookings (stored_bookings s table_id booking_date) exclude_booking_id)
      else set_table_exists initial_result
  end.

(** The row that [create_booking] gets into the store, if it does: the
    booking has an end time, the checker reports its table available, and
    the row of [to_dict] passes the constraints of [bookings] under the next
    id of the sequence. *)
Definition accepted_row (s : MemStore.t) (b : Booking.t) : option dict :=
  if truthy (Booking.booking_end_time b)
     && available (stored_verdict s (Booking.table_id b)
                     (date_part (Booking.booking_date b))
                     (time_part (Booking.booking_time b))
                     (time_part (Booking.booking_end_time b)) VNone)
  then match Booking.to_dict b with
       | inr data =>
           if MemStore.booking_row_ok s data
              && negb (MemStore.has_id (MemStore.bookings s)
                         (VInt (MemStore.next_booking_id s)))
           then Some data else None
       | inl _ => None
       end
  else None.

(** * Properties *)

(** ** Dates and times *)

Lemma dt_ge_is_le_flipped (a b : datetime) : dt_ge a b = dt_le b a.
Proof.
  unfold dt_ge, dt_le.
  now rewrite Z.gtb_ltb, Z.geb_leb, (Z.eqb_sym (dt_date a)).
Qed.

Lemma dt_le_same_day (d : date) (s t : time) :
  dt_le (mk_datetime d s) (mk_datetime d t) = (s <=? t).
Proof.
  unfold dt_le; simpl. now rewrite Z.ltb_irrefl, Z.eqb_refl.
Qed.

Lemma overlaps_same_day (d : date) (cs ce s e : time) :
  overlaps (mk_datetime d cs) (mk_datetime d ce) (mk_datetime d s) (mk_datetime d e) = true
  <-> intervals_overlap cs ce s e.
Proof.
  unfold overlaps, intervals_overlap.
  rewrite dt_ge_is_le_flipped, !dt_le_same_day, negb_true_iff, orb_false_iff.
  rewrite !Z.leb_gt. lia.
Qed.

(** On a day before [date.max], two hours after a time of day. *)
Lemma dt_add_two_hours (d : date) (t : time) :
  d < MAXORDINAL -> time_ok t ->
  dt_add_hours (mk_datetime d t) 2 =
  inr (if t <? 22 * MICROS_PER_HOUR
       then mk_datetime d (t + 2 * MICROS_PER_HOUR)
       else mk_datetime (d + 1) (t - 22 * MICROS_PER_HOUR)).
Proof.
  unfold time_ok, dt_add_hours, MICROS_PER_DAY, MICROS_PER_HOUR, MAXORDINAL; simpl.
  intros Hd Ht.
  destruct (t <? 79200000000) eqn:E.
  - apply Z.ltb_lt in E.
    rewrite (Z.div_small (t + 7200000000)), (Z.mod_small (t + 7200000000)) by lia.
    rewrite Z.add_0_r.
    destruct (d >? 3652059) eqn:G; [apply Z.gtb_lt in G; lia | reflexivity].
  - apply Z.ltb_ge in E.
    assert (Hq : (t + 7200000000) / 86400000000 = 1)
      by (symmetry; apply (Z.div_unique _ _ 1 (t - 79200000000)); lia).
    assert (Hr : (t + 7200000000) mod 86400000000 = t - 79200000000)
      by (symmetry; apply (Z.mod_unique _ _ 1); lia).
    rewrite Hq, Hr.
    destruct (d + 1 >? 3652059) eqn:G; [apply Z.gtb_lt in G; lia | reflexivity].
Qed.

(** ** Dictionaries *)

Lemma dict_lookup_set_same (d : dict) (k : string) (v : pyval) :
  dict_lookup (dict_set d k v) k = Some v.
Proof.
  induction d as [|[k' v'] d IH]; simpl.
  - now rewrite String.eqb_refl.
  - destruct (String.eqb k' k) eqn:E; simpl; now rewrite E.
Qed.

Lemma dict_lookup_set_other (d : dict) (k k' : string) (v : pyval) :
  k <> k' -> dict_lookup (dict_set d k v) k' = dict_lookup d k'.
Proof.
  intros Hne. induction d as [|[k0 v0] d IH]; simpl.
  - destruct (String.eqb k k') eqn:E; [apply String.eqb_eq in E; contradiction | reflexivity].
  - destruct (String.eqb k0 k) eqn:E; simpl.
    + apply String.eqb_eq in E; subst k0.
      destruct (String.eqb k k') eqn:E'; [apply String.eqb_eq in E'; contradiction | reflexivity].
    + now rewrite IH.
Qed.

Lemma dict_get_set_same (d : dict) (k : string) (v : pyval) :
  dict_get (dict_set d k v) k = v.
Proof. unfold dict_get, dict_get_default. now rewrite dict_lookup_set_same. Qed.

Lemma dict_get_set_other (d : dict) (k k' : string) (v : pyval) :
  k <> k' -> dict_get (dict_set d k v) k' = dict_get d k'.
Proof.
  intros H. unfold dict_get, dict_get_default. now rewrite dict_lookup_set_other.
Qed.

Lemma dict_set_not_empty (d : dict) (k : string) (v : pyval) : dict_set d k v <> [].
Proof.
  destruct d as [|[k0 v0] d]; simpl; [discriminate|].
  destruct (String.eqb k0 k); discriminate.
Qed.

(** ** The availability checker, stage by stage *)

Section Checker.
Context {Store : Type} (driver : Driver Store).

Lemma read_table_returns (table_id : pyval) (w : world Store) :
  exists t w', read_table driver table_id w = (inr t, w').
Proof.
  unfold read_table. unfold_monad.
  match goal with
  | |- context [exec_select ?d ?t ?f ?l ?s] =>
      destruct (exec_select d t f l s) as [[e|rows] s']; simpl
  end.
  - eauto.
  - destruct rows as [|[|c row] rows]; eauto.
Qed.

Lemma read_bookings_returns (where_ : dict) (w : world Store) :
  exists bs w', read_bookings driver where_ w = (inr bs, w').
Proof.
  unfold read_bookings. unfold_monad.
  match goal with
  | |- context [exec_select ?d ?t ?f ?l ?s] =>
      destruct (exec_select d t f l s) as [[e|rows] s']; simpl; eauto
  end.
Qed.

(** The three ways through [check_table_availability]. *)
Lemma check_table_availability_cases
  (table_id booking_date booking_time booking_end_time exclude_booking_id : pyval)
  (w : world Store) :
  exists r w',
    check_table_availability driver table_id booking_date booking_time
      booking_end_time exclude_booking_id w = (inr r, w')
    /\ ((exists w1, read_table driver table_id w = (inr None, w1)
         /\ r = initial_result)
        \/ (exists t w1, read_table driver table_id w = (inr (Some t), w1)
            /\ truthy (RestaurantTable.is_active t) = false
            /\ r = set_table_exists initial_result)
        \/ (exists t w1 bs w2,
            read_table driver table_id w = (inr (Some t), w1)
            /\ truthy (RestaurantTable.is_active t) = true
            /\ read_bookings driver
                 [("table_id", table_id); ("booking_date", booking_date)] w1
               = (inr bs, w2)
            /\ r = verdict booking_date booking_time booking_end_time
                     (active_bookings bs exclude_booking_id))).
Proof.
  unfold check_table_availability.
  destruct (read_table_returns table_id w) as (t & w1 & Ht).
  unfold try_except at 1. unfold bind at 1. rewrite Ht.
  destruct t as [t|].
  2:{ unfold ret. do 2 eexists. split; [reflexivity|]. left. eauto. }
  destruct (truthy (RestaurantTable.is_active t)) eqn:Hact; simpl.
  2:{ unfold ret. do 2 eexists. split; [reflexivity|]. right; left. eauto 6. }
  destruct (read_bookings_returns
              [("table_id", table_id); ("booking_date", booking_date)] w1)
    as (bs & w2 & Hbs).
  unfold try_except at 1. unfold bind at 1. rewrite Hbs.
  exists (verdict booking_date booking_time booking_end_time
            (active_bookings bs exclude_booking_id)).
  unfold return_result_on_error. unfold_monad.
  destruct (combine booking_date booking_time) as [e|new_start] eqn:E1;
    [eexists; split;
     [unfold verdict; rewrite E1; reflexivity|right; right; exists t, w1, bs, w2; auto]|].
  destruct (combine booking_date booking_end_time) as [e|new_end] eqn:E2;
    [eexists; split;
     [unfold verdict; rewrite E1, E2; reflexivity
     |right; right; exists t, w1, bs, w2; auto]|].
  destruct (find_conflict booking_date new_start new_end
              (active_bookings bs exclude_booking_id)) as [e|[b|]] eqn:E3;
    (eexists; split;
     [unfold verdict; rewrite E1, E2, E3; reflexivity
     |right; right; exists t, w1, bs, w2; auto]).
Qed.

End Checker.

(** ** The overlap test *)

(** C8. The overlap predicate is symmetric: testing A against B gives the
    same answer as testing B against A. *)
Theorem overlaps_symmetric (a_start a_end b_start b_end : datetime) :
  overlaps a_start a_end b_start b_end = overlaps b_start b_end a_start a_end.
Proof.
  unfold overlaps. rewrite !dt_ge_is_le_flipped. f_equal. apply orb_comm.
Qed.

Lemma existing_interval_same_day (d : date) (b : Booking.t) (x y : datetime) :
  existing_interval (VDate d) b = inr (x, y) ->
  x = mk_datetime d (dt_time x) /\ y = mk_datetime d (dt_time y).
Proof.
  unfold existing_interval.
  destruct (if truthy (Booking.booking_end_time b) then _ else _) as [e|t_end];
    [discriminate|].
  destruct (time_part (Booking.booking_time b)); simpl; try discriminate.
  destruct t_end; simpl; try discriminate.
  intros H; inversion H; subst; auto.
Qed.

Lemma window_functional (d : date) (b : Booking.t) (s e s' e' : time) :
  window d b s e -> window d b s' e' -> s = s' /\ e = e'.
Proof.
  unfold window. intros H H'. rewrite H in H'. inversion H'; auto.
Qed.

(** The loop finds the first booking whose window overlaps the candidate. *)
Lemma find_conflict_spec (d : date) (cs ce : time) (active : list Booking.t) :
  (forall b, In b active -> exists s e, window d b s e) ->
  match find_conflict (VDate d) (mk_datetime d cs) (mk_datetime d ce) active with
  | inl _ => False
  | inr (Some b) =>
      In b active /\ exists s e, window d b s e /\ intervals_overlap cs ce s e
  | inr None =>
      forall b s e, In b active -> window d b s e -> ~ intervals_overlap cs ce s e
  end.
Proof.
  induction active as [|b0 rest IH]; intros Hwin; simpl.
  - intros b s e [].
  - destruct (Hwin b0 (or_introl eq_refl)) as (s0 & e0 & Hw0).
    unfold window in Hw0. rewrite Hw0.
    destruct (overlaps _ _ _ _) eqn:Hov.
    + apply overlaps_same_day in Hov. split; [now left|]. exists s0, e0. now split.
    + assert (Hno : ~ intervals_overlap cs ce s0 e0).
      { intros H. apply (overlaps_same_day d) in H. congruence. }
      specialize (IH (fun b Hb => Hwin b (or_intror Hb))).
      destruct (find_conflict _ _ _ rest) as [ex|[b|]].
      * exact IH.
      * destruct IH as [Hin Hrest]. split; [now right | exact Hrest].
      * intros b s e [<-|Hin] Hw.
        -- destruct (window_functional _ _ _ _ _ _ Hw0 Hw) as [<- <-]. exact Hno.
        -- eapply IH; eauto.
Qed.

(** ** Results of the availability checker *)

Lemma verdict_coherent (d ts te : pyval) (active : list Booking.t) :
  let r := verdict d ts te active in
  table_exists r = true /\ table_active r = true
  /\ (available r = true -> conflicting_booking r = None)
  /\ (conflicting_booking r <> None -> available r = false).
Proof.
  unfold verdict.
  destruct (combine d ts) as [e|ns]; [simpl; intuition congruence|].
  destruct (combine d te) as [e|ne]; [simpl; intuition congruence|].
  destruct (find_conflict d ns ne active) as [e|[b|]]; simpl; intuition congruence.
Qed.

Lemma verdict_conflict_considered (d ts te ex : pyval) (bs : list Booking.t)
  (b : Booking.t) :
  conflicting_booking (verdict d ts te (active_bookings bs ex)) = Some b ->
  In b bs /\ is_considered ex b = true.
Proof.
  unfold verdict.
  destruct (combine d ts) as [e|ns]; [discriminate|].
  destruct (combine d te) as [e|ne]; [discriminate|].
  destruct (find_conflict d ns ne (active_bookings bs ex)) as [e|[b'|]] eqn:E;
    simpl; try discriminate.
  intros H; inversion H; subst b'; clear H.
  assert (Hin : In b (active_bookings bs ex)).
  { clear -E. induction (active_bookings bs ex) as [|b0 rest IH]; simpl in E.
    - discriminate.
    - destruct (existing_interval d b0) as [e|[x y]]; [discriminate|].
      destruct (overlaps ns ne x y).
      + inversion E; now left.
      + right; auto. }
  unfold active_bookings in Hin. now apply filter_In in Hin.
Qed.

(** The filter of the checker keeps exactly the reservations that count. *)
Lemma is_considered_spec (exclude_booking_id : pyval) (b : Booking.t) :
  is_considered exclude_booking_id b = true <-> considered exclude_booking_id b.
Proof.
  unfold is_considered, considered, py_in. cbn [existsb].
  rewrite andb_true_iff, !orb_true_iff, negb_true_iff.
  assert (Hs : forall s, py_eq (Booking.status b) (VStr s) = true
                         <-> Booking.status b = VStr s).
  { intros s. destruct (Booking.status b); simpl;
      try (split; [discriminate | intros H; inversion H]).
    rewrite String.eqb_eq. split; [now intros -> | now intros [= ->]]. }
  rewrite !Hs.
  assert (Hn : is_none exclude_booking_id = true <-> exclude_booking_id = VNone)
    by (destruct exclude_booking_id; simpl; split; congruence).
  rewrite Hn. intuition discriminate.
Qed.

Section CheckerResults.
Context {Store : Type} (driver : Driver Store).

(** C9. The result of the checker is coherent in every world: an available
    result names an existing, active table and no conflicting booking; a
    result with a conflicting booking names an existing, active table and
    is not available. *)
Theorem availability_result_coherent
  (table_id booking_date booking_time booking_end_time exclude_booking_id : pyval)
  (w : world Store) :
  exists r w',
    check_table_availability driver table_id booking_date booking_time
      booking_end_time exclude_booking_id w = (inr r, w')
    /\ (available r = true ->
        table_exists r = true /\ table_active r = true
        /\ conflicting_booking r = None)
    /\ (conflicting_booking r <> None ->
        table_exists r = true /\ table_active r = true /\ available r = false).
Proof.
  destruct (check_table_availability_cases driver table_id booking_date booking_time
              booking_end_time exclude_booking_id w)
    as (r & w' & Hrun & [(w1 & _ & ->)|[(t & w1 & _ & _ & ->)|(t & w1 & bs & w2 & _ & _ & _ & ->)]]);
    exists r, w' || (do 2 eexists); (split; [exact Hrun|]).
  - simpl; split; [discriminate | congruence].
  - simpl; split; [discriminate | congruence].
  - pose proof (verdict_coherent booking_date booking_time booking_end_time
                  (active_bookings bs exclude_booking_id)) as H.
    simpl in H. tauto.
Qed.

(** The verdict in terms of the windows that the loop computes. *)
Lemma conflict_iff_window_overlap
  (table_id exclude_booking_id : pyval) (d : date) (cand_start cand_end : time)
  (w w1 w2 : world Store) (t : RestaurantTable.t) (bs : list Booking.t) :
  read_table driver table_id w = (inr (Some t), w1) ->
  truthy (RestaurantTable.is_active t) = true ->
  read_bookings driver [("table_id", table_id); ("booking_date", VDate d)] w1
    = (inr bs, w2) ->
  (forall b, In b (active_bookings bs exclude_booking_id) ->
             exists start stop, window d b start stop) ->
  exists r w',
    check_table_availability driver table_id (VDate d) (VTime cand_start)
      (VTime cand_end) exclude_booking_id w = (inr r, w')
    /\ ((exists b, conflicting_booking r = Some b) <->
        (exists b start stop,
            In b (active_bookings bs exclude_booking_id)
            /\ window d b start stop
            /\ intervals_overlap cand_start cand_end start stop))
    /\ (available r = true <-> conflicting_booking r = None)
    /\ (forall b, conflicting_booking r = Some b ->
          In b (active_bookings bs exclude_booking_id)
          /\ exists start stop,
              window d b start stop
              /\ intervals_overlap cand_start cand_end start stop)
    /\ (forall b start stop,
          window d b start stop ->
          cand_end = start \/ cand_start = stop ->
          conflicting_booking r <> Some b).
Proof.
  intros Ht Hact Hbs Hwin.
  destruct (check_table_availability_cases driver table_id (VDate d) (VTime cand_start)
              (VTime cand_end) exclude_booking_id w)
    as (r & w' & Hrun & [(w1' & Ht' & _)|[(t' & w1' & Ht' & Hact' & _)|(t' & w1' & bs' & w2' & Ht' & _ & Hbs' & Hr)]]);
    rewrite Ht in Ht'; try discriminate.
  { inversion Ht'; subst. congruence. }
  inversion Ht'; subst t' w1'. rewrite Hbs in Hbs'. inversion Hbs'; subst bs' w2'.
  exists r, w'. split; [exact Hrun|].
  pose proof (find_conflict_spec d cand_start cand_end
                (active_bookings bs exclude_booking_id) Hwin) as Hspec.
  unfold verdict in Hr. simpl in Hr.
  destruct (find_conflict _ _ _ _) as [e|[b0|]]; [contradiction| |]; subst r; simpl.
  - destruct Hspec as (Hin & s0 & e0 & Hw0 & Hov0).
    split; [split; [intros _; exists b0, s0, e0; auto | intros _; eauto]|].
    split; [split; discriminate|].
    split.
    + intros b Hb; inversion Hb; subst b. split; [exact Hin|]. exists s0, e0; auto.
    + intros b s e Hw Hadj Hb. inversion Hb; subst b.
      destruct (window_functional _ _ _ _ _ _ Hw0 Hw) as [<- <-].
      unfold intervals_overlap in Hov0. lia.
  - split.
    { split; [intros [b Hb]; discriminate|].
      intros (b & s & e & Hin & Hw & Hov). exfalso. eapply Hspec; eauto. }
    split; [tauto|].
    split; intros; discriminate.
Qed.

(** C2. With the table active and the bookings of the table and date
    fetched, each reservation that counts (pending or confirmed, not the
    excluded one) storing a start and an end time: the checker reports a
    conflict exactly when one of them stores times [start], [stop] with
    [not (cand_end <= start or cand_start >= stop)]; the result is
    available exactly when no conflict is reported; the reservation
    reported is one that counts and overlaps; and a reservation that ends
    when the candidate starts, or starts when the candidate ends, is never
    reported. *)
Theorem conflict_iff_intervals_overlap
  (table_id exclude_booking_id : pyval) (d : date) (cand_start cand_end : time)
  (w w1 w2 : world Store) (t : RestaurantTable.t) (bs : list Booking.t) :
  read_table driver table_id w = (inr (Some t), w1) ->
  truthy (RestaurantTable.is_active t) = true ->
  read_bookings driver [("table_id", table_id); ("booking_date", VDate d)] w1
    = (inr bs, w2) ->
  (forall b, In b bs -> considered exclude_booking_id b ->
             exists start stop, stored_times b start stop) ->
  exists r w',
    check_table_availability driver table_id (VDate d) (VTime cand_start)
      (VTime cand_end) exclude_booking_id w = (inr r, w')
    /\ ((exists b, conflicting_booking r = Some b) <->
        (exists b start stop,
            In b bs /\ considered exclude_booking_id b
            /\ stored_times b start stop
            /\ ~ (cand_end <= start \/ cand_start >= stop)))
    /\ (available r = true <-> conflicting_booking r = None)
    /\ (forall b, conflicting_booking r = Some b ->
          In b bs /\ considered exclude_booking_id b
          /\ exists start stop,
              stored_times b start stop
              /\ ~ (cand_end <= start \/ cand_start >= stop))
    /\ (forall b start stop,
          stored_times b start stop ->
          cand_end = start \/ cand_start = stop ->
          conflicting_booking r <> Some b).
Proof.
  intros Ht Hact Hbs Hst.
  (* a booking that stores plain times is given the window they delimit *)
  assert (stored_times_window : forall b start stop,
             stored_times b start stop -> window d b start stop).
  { intros b start stop [Hs He]. unfold window, existing_interval.
    rewrite Hs, He. reflexivity. }
  assert (Hwin : forall b, In b (active_bookings bs exclude_booking_id) ->
                           exists start stop, window d b start stop).
  { intros b Hb. apply filter_In in Hb. destruct Hb as [Hin Hc].
    apply is_considered_spec in Hc.
    destruct (Hst b Hin Hc) as (s & e & H). exists s, e.
    now apply stored_times_window. }
  destruct (conflict_iff_window_overlap table_id exclude_booking_id d cand_start
              cand_end w w1 w2 t bs Ht Hact Hbs Hwin)
    as (r & w' & Hrun & Hiff & Hav & Hrep & Hadj).
  assert (Hreported : forall b, conflicting_booking r = Some b ->
            In b bs /\ considered exclude_booking_id b
            /\ exists start stop,
                stored_times b start stop
                /\ ~ (cand_end <= start \/ cand_start >= stop)).
  { intros b Hb. destruct (Hrep b Hb) as (Hin & s & e & Hw & Hov).
    apply filter_In in Hin. destruct Hin as [Hin Hc]. apply is_considered_spec in Hc.
    split; [exact Hin|]. split; [exact Hc|].
    destruct (Hst b Hin Hc) as (s' & e' & Hs').
    destruct (window_functional _ _ _ _ _ _ Hw (stored_times_window b s' e' Hs'))
      as [<- <-].
    exists s, e. split; [exact Hs' | exact Hov]. }
  exists r, w'. split; [exact Hrun|]. split; [|split; [exact Hav|split; [exact Hreported|]]].
  - split.
    + intros [b Hb]. destruct (Hreported b Hb) as (Hin & Hc & s & e & Hs & Hov).
      exists b, s, e. auto.
    + intros (b & s & e & Hin & Hc & Hs & Hov). apply Hiff. exists b, s, e.
      split; [|split; [now apply stored_times_window | exact Hov]].
      apply filter_In. split; [exact Hin | now apply is_considered_spec].
  - intros b s e Hs Hadj' Hb.
    exact (Hadj b s e (stored_times_window b s e Hs) Hadj' Hb).
Qed.

Lemma read_table_of_lookup (table_id : pyval) (w : world Store) :
  exists w1,
    read_table driver table_id w
    = (inr match table_lookup driver table_id w with
           | inr (((_ :: _) as row) :: _) => Some (RestaurantTable.from_dict row)
           | _ => None
           end, w1).
Proof.
  unfold read_table, table_lookup. unfold_monad.
  destruct (exec_select driver _ _ _ (store w)) as [[e|rows] s']; simpl.
  - eauto.
  - destruct rows as [|[|c row] rows]; eauto.
Qed.

(** C6. Whatever the date, the time window and the exclusion: when the
    table looked up does not exist the result has [table_exists] and
    [available] false; when it exists with [is_active] false the result
    has [table_active] and [available] false. *)
Theorem missing_or_inactive_table_unavailable
  (table_id booking_date booking_time booking_end_time exclude_booking_id : pyval)
  (w : world Store) :
  (table_lookup driver table_id w = inr [] ->
   exists r w',
     check_table_availability driver table_id booking_date booking_time
       booking_end_time exclude_booking_id w = (inr r, w')
     /\ table_exists r = false /\ available r = false)
  /\ (forall row rows,
       table_lookup driver table_id w = inr (row :: rows) ->
       dict_lookup row "is_active" = Some (VBool false) ->
       exists r w',
         check_table_availability driver table_id booking_date booking_time
           booking_end_time exclude_booking_id w = (inr r, w')
         /\ table_exists r = true /\ table_active r = false
         /\ available r = false).
Proof.
  destruct (read_table_of_lookup table_id w) as [w1 Hrt].
  destruct (check_table_availability_cases driver table_id booking_date booking_time
              booking_end_time exclude_booking_id w)
    as (r & w' & Hrun & Hcases).
  split.
  - intros Hlook. rewrite Hlook in Hrt. exists r, w'. split; [exact Hrun|].
    destruct Hcases as [(w1' & _ & ->)|[(t & w1' & Ht & _)|(t & w1' & bs & w2 & Ht & _)]];
      [simpl; auto | congruence | congruence].
  - intros row rows Hlook Hrow. rewrite Hlook in Hrt.
    destruct row as [|c row]; [discriminate|].
    exists r, w'. split; [exact Hrun|].
    assert (Hfalse : truthy (RestaurantTable.is_active
                               (RestaurantTable.from_dict (c :: row))) = false).
    { unfold RestaurantTable.from_dict. cbn [RestaurantTable.is_active].
      unfold dict_get_default. now rewrite Hrow. }
    destruct Hcases as [(w1' & Ht & _)|[(t & w1' & Ht & _ & ->)|(t & w1' & bs & w2 & Ht & Hact & _)]];
      rewrite Hrt in Ht; inversion Ht; subst.
    + simpl; auto.
    + congruence.
Qed.

Lemma sql_eq_get_default (row : dict) (k : string) (v default : pyval) :
  sql_eq (dict_get row k) v = true -> dict_get_default row k default = dict_get row k.
Proof.
  unfold dict_get, dict_get_default.
  destruct (dict_lookup row k); [reflexivity | discriminate].
Qed.

(** Bookings read from a store that honours the filter are on the table and
    the date asked for. *)
Lemma read_bookings_honour_where :
  honours_where driver ->
  forall (table_id booking_date : pyval) (w w' : world Store) (bs : list Booking.t)
         (b : Booking.t),
    read_bookings driver [("table_id", table_id); ("booking_date", booking_date)] w
      = (inr bs, w') ->
    In b bs ->
    sql_eq (Booking.table_id b) table_id = true
    /\ sql_eq (Booking.booking_date b) booking_date = true.
Proof.
  intros Hhon table_id booking_date w w' bs b. unfold read_bookings. unfold_monad.
  destruct (exec_select driver Booking.get_table_name _ _ (store w)) as [[e|rows] s']
    eqn:Hsel; simpl; intros H; injection H as <- _; intros Hin; [destruct Hin|].
  apply in_map_iff in Hin. destruct Hin as (row & <- & Hrow).
  pose proof (Hhon _ _ _ _ _ _ row "table_id" table_id Hsel Hrow (or_introl eq_refl))
    as Ht.
  pose proof (Hhon _ _ _ _ _ _ row "booking_date" booking_date Hsel Hrow
                (or_intror (or_introl eq_refl))) as Hd.
  unfold Booking.from_dict. cbn [Booking.table_id Booking.booking_date].
  rewrite (sql_eq_get_default _ _ _ _ Ht). auto.
Qed.

(** C3. With the table active, the checker looks only at the bookings
    fetched for the given table and date whose status is pending or
    confirmed and whose id is not the excluded one: the booking it reports
    is one of those (and, on a store that honours the filter, it is on that
    table and date), and two runs whose fetched bookings agree on those
    give the same result, so a cancelled or completed booking never
    changes the answer, whatever its window. *)
Theorem only_active_bookings_considered
  (table_id booking_date booking_time booking_end_time exclude_booking_id : pyval)
  (w w1 w2 v v1 v2 : world Store) (t t' : RestaurantTable.t)
  (bs bs' : list Booking.t) :
  read_table driver table_id w = (inr (Some t), w1) ->
  truthy (RestaurantTable.is_active t) = true ->
  read_bookings driver [("table_id", table_id); ("booking_date", booking_date)] w1
    = (inr bs, w2) ->
  read_table driver table_id v = (inr (Some t'), v1) ->
  truthy (RestaurantTable.is_active t') = true ->
  read_bookings driver [("table_id", table_id); ("booking_date", booking_date)] v1
    = (inr bs', v2) ->
  exists r w' r' v',
    check_table_availability driver table_id booking_date booking_time
      booking_end_time exclude_booking_id w = (inr r, w')
    /\ check_table_availability driver table_id booking_date booking_time
         booking_end_time exclude_booking_id v = (inr r', v')
    /\ (forall b, conflicting_booking r = Some b ->
          In b bs
          /\ py_in (Booking.status b) [VStr "pending"; VStr "confirmed"] = true
          /\ (exclude_booking_id = VNone
              \/ py_eq (Booking.id b) exclude_booking_id = false))
    /\ (honours_where driver ->
        forall b, conflicting_booking r = Some b ->
          sql_eq (Booking.table_id b) table_id = true
          /\ sql_eq (Booking.booking_date b) booking_date = true)
    /\ (active_bookings bs exclude_booking_id = active_bookings bs' exclude_booking_id ->
        r = r')
    /\ (forall before after c,
          bs = (before ++ c :: after)%list -> bs' = (before ++ after)%list ->
          Booking.status c = VStr "cancelled" \/ Booking.status c = VStr "completed" ->
          r = r').
Proof.
  intros Ht Hact Hbs Ht' Hact' Hbs'.
  assert (Hrun : forall (u u1 u2 : world Store) (tu : RestaurantTable.t) (l : list Booking.t),
             read_table driver table_id u = (inr (Some tu), u1) ->
             truthy (RestaurantTable.is_active tu) = true ->
             read_bookings driver
               [("table_id", table_id); ("booking_date", booking_date)] u1
               = (inr l, u2) ->
             exists u',
               check_table_availability driver table_id booking_date booking_time
                 booking_end_time exclude_booking_id u
               = (inr (verdict booking_date booking_time booking_end_time
                         (active_bookings l exclude_booking_id)), u')).
  { intros u u1 u2 tu l Hu Hau Hul.
    destruct (check_table_availability_cases driver table_id booking_date booking_time
                booking_end_time exclude_booking_id u)
      as (r & u' & Hr & [(x & Hx & _)|[(tx & x & Hx & Hax & _)|(tx & x & lx & y & Hx & _ & Hy & ->)]]);
      rewrite Hu in Hx; inversion Hx; subst; try congruence.
    rewrite Hul in Hy; inversion Hy; subst. eauto. }
  destruct (Hrun w w1 w2 t bs Ht Hact Hbs) as [w' Hw].
  destruct (Hrun v v1 v2 t' bs' Ht' Hact' Hbs') as [v' Hv].
  do 4 eexists. split; [exact Hw|]. split; [exact Hv|].
  split; [|split; [|split]].
  - intros b Hb. apply verdict_conflict_considered in Hb. destruct Hb as [Hin Hc].
    split; [exact Hin|]. unfold is_considered in Hc.
    apply andb_true_iff in Hc. destruct Hc as [Hs Hx]. split; [exact Hs|].
    apply orb_true_iff in Hx. destruct Hx as [Hx|Hx].
    + left. destruct exclude_booking_id; simpl in Hx; congruence.
    + right. now apply negb_true_iff.
  - intros Hhon b Hb. apply verdict_conflict_considered in Hb. destruct Hb as [Hin _].
    exact (read_bookings_honour_where Hhon _ _ _ _ _ _ Hbs Hin).
  - intros ->. reflexivity.
  - intros before after c -> -> Hst.
    unfold active_bookings. rewrite !filter_app. simpl.
    replace (is_considered exclude_booking_id c) with false; [reflexivity|].
    unfold is_considered. destruct Hst as [-> | ->]; reflexivity.
Qed.

End CheckerResults.

(** ** The row representation of a booking *)

(** C10. For a booking whose date is a plain date and whose start and end
    times are plain times, [from_dict (to_dict b)] is [b] in every field
    except [id], which is [None]. *)
Theorem booking_row_roundtrip (b : Booking.t) (d : date) (start stop : time) :
  Booking.booking_date b = VDate d ->
  Booking.booking_time b = VTime start ->
  Booking.booking_end_time b = VTime stop ->
  exists row,
    Booking.to_dict b = inr row /\ Booking.from_dict row = without_id b.
Proof.
  intros Hd Hs He. destruct b; simpl in *; subst.
  eexists. split; reflexivity.
Qed.

Lemma booking_row_roundtrip_witness :
  Booking.booking_date dinner = VDate today
  /\ Booking.booking_time dinner = VTime (hm 19 0)
  /\ Booking.booking_end_time dinner = VTime (hm 21 0)
  /\ exists row,
       Booking.to_dict dinner = inr row /\ Booking.from_dict row = without_id dinner.
Proof.
  repeat (split; [reflexivity|]).
  apply (booking_row_roundtrip dinner today (hm 19 0) (hm 21 0)); reflexivity.
Defined.

(** ** The checker on the example restaurant *)

(** The reference store honours the filter of a [SELECT]. *)
Lemma reference_store_honours_where : honours_where MemStore.driver.
Proof.
  intros table where_ limit s rows s' row k v. simpl. unfold MemStore.select.
  destruct (MemStore.tick s) as [s1|]; [|discriminate].
  destruct (MemStore.relation s1 table) as [all|]; [|discriminate].
  intros H Hin Hk. injection H as <- _.
  assert (Hfound : In row (filter (MemStore.row_matches where_) all)).
  { destruct limit as [n|]; [|exact Hin].
    rewrite <- (firstn_skipn (Z.to_nat n)). apply in_or_app. now left. }
  apply filter_In in Hfound. destruct Hfound as [_ Hm].
  unfold MemStore.row_matches in Hm. rewrite forallb_forall in Hm.
  exact (Hm (k, v) Hk).
Qed.

Lemma conflict_iff_intervals_overlap_witness :
  (exists r w',
      check_table_availability MemStore.driver (VInt 1) (VDate today) (VTime (hm 19 0))
        (VTime (hm 21 0)) VNone (fresh_world restaurant) = (inr r, w')
      /\ available r = false
      /\ (exists b, conflicting_booking r = Some b /\ Booking.id b = VInt 1)
      /\ r = mk_availability false true true
               (Some (Booking.from_dict
                        (booking_row 1 1 1 today (hm 19 0) (VTime (hm 21 0))
                           "confirmed"))))
  /\ (exists r w',
         check_table_availability MemStore.driver (VInt 1) (VDate today)
           (VTime (hm 21 0)) (VTime (hm 22 0)) (VInt 2) (fresh_world restaurant)
         = (inr r, w')
         /\ available r = true
         /\ r = mk_availability true true true None).
Proof.
  assert (Htimes : forall ex b, In b bookings_today -> considered ex b ->
                                exists start stop, stored_times b start stop).
  { intros ex b Hb _. simpl in Hb.
    destruct Hb as [<-|[<-|[<-|[]]]]; do 2 eexists; split; reflexivity. }
  split.
  - destruct (conflict_iff_intervals_overlap MemStore.driver (VInt 1) VNone today
                (hm 19 0) (hm 21 0) (fresh_world restaurant)
                (snd (read_table MemStore.driver (VInt 1) (fresh_world restaurant)))
                (snd (read_bookings MemStore.driver
                        [("table_id", VInt 1); ("booking_date", VDate today)]
                        (snd (read_table MemStore.driver (VInt 1)
                                (fresh_world restaurant)))))
                table_1 bookings_today eq_refl eq_refl eq_refl (Htimes VNone))
      as (r & w' & Hrun & Hiff & Hav & Hrep & _).
    exists r, w'. split; [exact Hrun|].
    assert (Hc : exists b, conflicting_booking r = Some b).
    { apply Hiff.
      exists (Booking.from_dict
                (booking_row 1 1 1 today (hm 19 0) (VTime (hm 21 0)) "confirmed")),
        (hm 19 0), (hm 21 0).
      split; [left; reflexivity|]. split; [split; [right; reflexivity | left; reflexivity]|].
      split; [split; reflexivity|]. vm_compute. intros [H|H]; apply H; reflexivity. }
    destruct Hc as [b Hb]. split; [|split].
    + destruct (available r); [|reflexivity].
      destruct Hav as [Hav _]. rewrite (Hav eq_refl) in Hb. discriminate.
    + exists b. split; [exact Hb|].
      destruct (Hrep b Hb) as (Hin & Hcons & s & e & [Hs He] & Hov).
      simpl in Hin. destruct Hin as [<-|[<-|[<-|[]]]].
      * reflexivity.
      * exfalso. inversion Hs; inversion He; subst. apply Hov. left.
        vm_compute. discriminate.
      * exfalso. destruct Hcons as [[H|H] _]; discriminate.
    + clear - Hrun. vm_compute in Hrun. injection Hrun as <- _. reflexivity.
  - destruct (conflict_iff_intervals_overlap MemStore.driver (VInt 1) (VInt 2) today
                (hm 21 0) (hm 22 0) (fresh_world restaurant)
                (snd (read_table MemStore.driver (VInt 1) (fresh_world restaurant)))
                (snd (read_bookings MemStore.driver
                        [("table_id", VInt 1); ("booking_date", VDate today)]
                        (snd (read_table MemStore.driver (VInt 1)
                                (fresh_world restaurant)))))
                table_1 bookings_today eq_refl eq_refl eq_refl (Htimes (VInt 2)))
      as (r & w' & Hrun & Hiff & Hav & _ & _).
    exists r, w'. split; [exact Hrun|]. split.
    + apply Hav.
      destruct (conflicting_booking r) as [b|] eqn:Hb; [exfalso|reflexivity].
      destruct (proj1 Hiff (ex_intro _ b eq_refl))
        as (c & s & e & Hin & Hcons & [Hs He] & Hov).
      simpl in Hin. destruct Hin as [<-|[<-|[<-|[]]]].
      * inversion Hs; inversion He; subst. apply Hov. right. vm_compute. discriminate.
      * destruct Hcons as [_ [H|H]]; discriminate.
      * destruct Hcons as [[H|H] _]; discriminate.
    + clear - Hrun. vm_compute in Hrun. injection Hrun as <- _. reflexivity.
Defined.

Lemma availability_result_coherent_witness :
  exists r w',
    check_table_availability MemStore.driver (VInt 1) (VDate today) (VTime (hm 22 0))
      (VTime (hm 23 0)) VNone (fresh_world restaurant) = (inr r, w')
    /\ available r = true
    /\ table_exists r = true /\ table_active r = true /\ conflicting_booking r = None.
Proof.
  destruct (availability_result_coherent MemStore.driver (VInt 1) (VDate today)
              (VTime (hm 22 0)) (VTime (hm 23 0)) VNone (fresh_world restaurant))
    as (r & w' & Hrun & Havail & _).
  exists r, w'. split; [exact Hrun|].
  assert (Ha : available r = true)
    by (vm_compute in Hrun; injection Hrun as <- _; reflexivity).
  split; [exact Ha | exact (Havail Ha)].
Defined.

Lemma missing_or_inactive_table_unavailable_witness :
  (table_lookup MemStore.driver (VInt 99) (fresh_world restaurant) = inr []
   /\ exists r w',
       check_table_availability MemStore.driver (VInt 99) (VDate today) (VTime (hm 9 0))
         (VTime (hm 10 0)) VNone (fresh_world restaurant) = (inr r, w')
       /\ table_exists r = false /\ available r = false)
  /\ (table_lookup MemStore.driver (VInt 2) (fresh_world restaurant)
      = inr [table_row 2 "T2" false]
      /\ exists r w',
          check_table_availability MemStore.driver (VInt 2) (VDate today)
            (VTime (hm 9 0)) (VTime (hm 10 0)) VNone (fresh_world restaurant) = (inr r, w')
          /\ table_exists r = true /\ table_active r = false /\ available r = false).
Proof.
  split; (split; [reflexivity|]).
  - apply (missing_or_inactive_table_unavailable MemStore.driver (VInt 99) (VDate today)
             (VTime (hm 9 0)) (VTime (hm 10 0)) VNone (fresh_world restaurant)).
    reflexivity.
  - apply (proj2 (missing_or_inactive_table_unavailable MemStore.driver (VInt 2)
                    (VDate today) (VTime (hm 9 0)) (VTime (hm 10 0)) VNone
                    (fresh_world restaurant))
             (table_row 2 "T2" false) []); reflexivity.
Defined.

Lemma only_active_bookings_considered_witness :
  exists r w' r' v',
    check_table_availability MemStore.driver (VInt 1) (VDate today) (VTime (hm 16 0))
      (VTime (hm 17 0)) VNone (fresh_world restaurant) = (inr r, w')
    /\ check_table_availability MemStore.driver (VInt 1) (VDate today) (VTime (hm 16 0))
         (VTime (hm 17 0)) VNone (fresh_world restaurant_without_cancelled) = (inr r', v')
    /\ r = r'
    /\ forall b, conflicting_booking r = Some b ->
         sql_eq (Booking.table_id b) (VInt 1) = true
         /\ sql_eq (Booking.booking_date b) (VDate today) = true.
Proof.
  destruct (only_active_bookings_considered MemStore.driver (VInt 1) (VDate today)
              (VTime (hm 16 0)) (VTime (hm 17 0)) VNone
              (fresh_world restaurant)
              (snd (read_table MemStore.driver (VInt 1) (fresh_world restaurant)))
              (snd (read_bookings MemStore.driver
                      [("table_id", VInt 1); ("booking_date", VDate today)]
                      (snd (read_table MemStore.driver (VInt 1) (fresh_world restaurant)))))
              (fresh_world restaurant_without_cancelled)
              (snd (read_table MemStore.driver (VInt 1)
                      (fresh_world restaurant_without_cancelled)))
              (snd (read_bookings MemStore.driver
                      [("table_id", VInt 1); ("booking_date", VDate today)]
                      (snd (read_table MemStore.driver (VInt 1)
                              (fresh_world restaurant_without_cancelled)))))
              table_1 table_1 bookings_today
              (map Booking.from_dict (MemStore.bookings restaurant_without_cancelled))
              eq_refl eq_refl eq_refl eq_refl eq_refl eq_refl)
    as (r & w' & r' & v' & Hr & Hr' & _ & Hwhere & Hsame & _).
  exists r, w', r', v'. split; [exact Hr|]. split; [exact Hr'|].
  split; [apply Hsame; reflexivity | exact (Hwhere reference_store_honours_where)].
Defined.

(** ** Bookings without a stored end time *)

(** The window of a booking with no stored end time, on a day before
    [date.max]: two hours long when it starts before 22:00; from 22:00 on
    the end is taken on the same day, 22 hours before the start. *)
Lemma legacy_interval (d : date) (b : Booking.t) (start : time) :
  d < MAXORDINAL -> time_ok start ->
  Booking.booking_time b = VTime start ->
  Booking.booking_end_time b = VNone ->
  existing_interval (VDate d) b =
  inr (mk_datetime d start,
       mk_datetime d (if start <? 22 * MICROS_PER_HOUR
                      then start + 2 * MICROS_PER_HOUR
                      else start - 22 * MICROS_PER_HOUR)).
Proof.
  intros Hd Hok Hs He. unfold existing_interval. rewrite Hs, He.
  cbn [truthy time_part combine].
  rewrite (dt_add_two_hours d start Hd Hok).
  destruct (start <? 22 * MICROS_PER_HOUR); reflexivity.
Qed.

(** C7, at a legacy booking starting at 23:00.  Start plus two hours is
    01:00 of the next day, but the interval used in the overlap test ends
    at 01:00 of the same day, before it starts; a request for 23:10-23:50
    on that table is then reported available. *)
Theorem legacy_end_time_wraps_at_midnight :
  dt_add_hours (mk_datetime today (hm 23 0)) 2 = inr (mk_datetime (today + 1) (hm 1 0))
  /\ existing_interval (VDate today) (Booking.from_dict late_legacy_row)
     = inr (mk_datetime today (hm 23 0), mk_datetime today (hm 1 0))
  /\ exists w',
      check_table_availability MemStore.driver (VInt 1) (VDate today)
        (VTime (hm 23 10)) (VTime (hm 23 50)) VNone (fresh_world late_restaurant)
      = (inr (mk_availability true true true None), w').
Proof.
  split; [reflexivity|]. split; [reflexivity|].
  eexists. vm_compute. reflexivity.
Qed.

(** ** Updating a booking *)

(** [update_booking] sends one [UPDATE] and nothing else: it never queries
    the table or the bookings of the day. *)
Lemma update_booking_trace {Store} (driver : Driver Store) (booking_id : pyval)
  (booking : Booking.t) (w : world Store) :
  exists v w',
    update_booking driver booking_id booking w = (inr v, w')
    /\ (trace w' = trace w
        \/ exists data e,
            trace w' = (trace w ++ [(Update "bookings" data [("id", booking_id)], e)])%list).
Proof.
  unfold update_booking. unfold_monad.
  destruct (Booking.to_dict booking) as [e|data]; [eauto|].
  destruct (dict_set data "updated_at" (VDateTime (clock w))) as [|c data'] eqn:E;
    [eauto|].
  destruct (exec_update driver _ _ _ (store w)) as [[e|n] s']; simpl;
    (do 2 eexists; split; [reflexivity | right; do 2 eexists; reflexivity]).
Qed.

(** C1, at the example restaurant.  Moving booking 2 (21:00-22:00) to
    20:00-22:00 runs into booking 1 (19:00-21:00): the checker, asked with
    booking 2 excluded, reports booking 1.  [update_booking] does not ask:
    it sends the [UPDATE] alone, returns [True], and both confirmed bookings
    then hold table 1 from 20:00 to 21:00. *)
Theorem update_booking_skips_availability_check :
  (exists w',
      check_table_availability MemStore.driver (VInt 1) (VDate today) (VTime (hm 20 0))
        (VTime (hm 22 0)) (VInt 2) (fresh_world restaurant)
      = (inr (mk_availability false true true
                (Some (Booking.from_dict
                         (booking_row 1 1 1 today (hm 19 0) (VTime (hm 21 0)) "confirmed")))),
         w'))
  /\ exists w' data,
      update_booking MemStore.driver (VInt 2) moved_booking (fresh_world restaurant)
      = (inr true, w')
      /\ trace w' = [(Update "bookings" data [("id", VInt 2)], None)]
      /\ map (fun row => (dict_get row "id", dict_get row "booking_time",
                          dict_get row "booking_end_time", dict_get row "status"))
             (MemStore.bookings (store w'))
         = [ (VInt 1, VTime (hm 19 0), VTime (hm 21 0), VStr "confirmed");
             (VInt 2, VTime (hm 20 0), VTime (hm 22 0), VStr "confirmed");
             (VInt 3, VTime (hm 16 0), VTime (hm 17 0), VStr "cancelled") ].
Proof.
  split.
  - eexists. vm_compute. reflexivity.
  - do 2 eexists. split; [vm_compute; reflexivity|]. split; vm_compute; reflexivity.
Qed.

(** ** What the operations do to the world *)

Lemma new_events_app {Store} (w w' : world Store) (evs : list event) :
  trace w' = (trace w ++ evs)%list -> new_events w w' = evs.
Proof.
  intros H. unfold new_events. rewrite H.
  rewrite skipn_app, skipn_all, Nat.sub_diag. reflexivity.
Qed.

Section CheckerEffects.
Context {Store : Type} (driver : Driver Store).
Variable R : Store -> Store -> Prop.
Hypothesis R_trans : forall a b c, R a b -> R b c -> R a c.
Hypothesis R_select :
  forall table where_ limit s, R s (snd (exec_select driver table where_ limit s)).

(** The checker only runs [SELECT] statements, so it keeps whatever they
    keep. *)
Lemma check_table_availability_effects
  (table_id booking_date booking_time booking_end_time exclude_booking_id : pyval)
  (w w' : world Store) (r : exn + availability) :
  check_table_availability driver table_id booking_date booking_time
    booking_end_time exclude_booking_id w = (r, w') ->
  clock w' = clock w
  /\ R (store w) (store w')
  /\ exists evs, trace w' = (trace w ++ evs)%list /\ Forall is_select evs.
Proof.
  unfold check_table_availability, read_table, read_bookings, return_result_on_error.
  unfold_monad.
  pose proof (R_select RestaurantTable.get_table_name [("id", table_id)] (Some 1)
                (store w)) as H1.
  destruct (exec_select driver RestaurantTable.get_table_name _ _ (store w))
    as [[e|rows] s1]; simpl in *.
  { intros H; injection H as <- <-; simpl.
    repeat split; auto. eexists; split; [reflexivity|]. repeat constructor. }
  destruct rows as [|[|c row] rows];
    try (intros H; injection H as <- <-; simpl;
         repeat split; auto; eexists; split; [reflexivity|]; repeat constructor).
  destruct (truthy (RestaurantTable.is_active (RestaurantTable.from_dict (c :: row))));
    simpl;
    try (intros H; injection H as <- <-; simpl;
         repeat split; auto; eexists; split; [reflexivity|]; repeat constructor).
  pose proof (R_select Booking.get_table_name
                [("table_id", table_id); ("booking_date", booking_date)] None s1) as H2.
  destruct (exec_select driver Booking.get_table_name _ _ s1) as [[e|rows'] s2];
    simpl in *.
  all: destruct (combine booking_date booking_time) as [e1|new_start]; simpl.
  all: try destruct (combine booking_date booking_end_time) as [e2|new_end]; simpl.
  all: try (destruct (find_conflict booking_date new_start new_end _) as [e3|[b|]];
            simpl).
  all: intros H; injection H as <- <-; simpl.
  all: repeat split; eauto.
  all: eexists; (split; [rewrite <- app_assoc; reflexivity|]); repeat constructor.
Qed.

End CheckerEffects.

(** ** The reference store *)

Lemma live_tick (s : MemStore.t) : live s -> MemStore.tick s = Some s.
Proof. unfold live, MemStore.tick. now intros ->. Qed.

Lemma relation_tables (s : MemStore.t) :
  MemStore.relation s "restaurant_tables" = Some (MemStore.restaurant_tables s).
Proof. reflexivity. Qed.

Lemma relation_bookings (s : MemStore.t) :
  MemStore.relation s "bookings" = Some (MemStore.bookings s).
Proof. reflexivity. Qed.

Lemma tick_same_bookings (s s' : MemStore.t) :
  MemStore.tick s = Some s' -> same_bookings s s'.
Proof.
  unfold MemStore.tick, same_bookings.
  destruct (MemStore.statements_left s) as [[|n]|]; intros H; inversion H; reflexivity.
Qed.

Lemma select_same_bookings (table : string) (where_ : dict) (limit : option Z)
  (s : MemStore.t) :
  same_bookings s (snd (exec_select MemStore.driver table where_ limit s)).
Proof.
  simpl. unfold MemStore.select.
  destruct (MemStore.tick s) as [s'|] eqn:E; [|reflexivity].
  apply tick_same_bookings in E.
  destruct (MemStore.relation s' table); exact E.
Qed.

Lemma same_bookings_trans (a b c : MemStore.t) :
  same_bookings a b -> same_bookings b c -> same_bookings a c.
Proof. unfold same_bookings. congruence. Qed.

Lemma booking_row_ok_inv (s : MemStore.t) (row : dict) :
  MemStore.booking_row_ok s row = true ->
  (exists start stop,
      dict_get row "booking_time" = VTime start
      /\ dict_get row "booking_end_time" = VTime stop /\ stop > start)
  /\ (exists n, dict_get row "number_of_guests" = VInt n /\ n > 0).
Proof.
  unfold MemStore.booking_row_ok. rewrite !andb_true_iff.
  intros [[[[[_ _] _] Ht] Hn] _]. split.
  - destruct (dict_get row "booking_time"); try discriminate.
    destruct (dict_get row "booking_end_time"); try discriminate.
    do 2 eexists. repeat split. apply Z.gtb_lt in Ht. lia.
  - destruct (dict_get row "number_of_guests"); try discriminate.
    eexists. split; [reflexivity|]. apply Z.gtb_lt in Hn. lia.
Qed.

Lemma dict_lookup_apply_update (data row : dict) (k : string) :
  dict_lookup (MemStore.apply_update data row) k =
  match last_binding data k with
  | Some v => Some v
  | None => dict_lookup row k
  end.
Proof.
  unfold MemStore.apply_update. revert row.
  induction data as [|[k0 v0] data IH]; intros row; simpl; [reflexivity|].
  rewrite IH. destruct (last_binding data k); [reflexivity|].
  destruct (String.eqb k0 k) eqn:E.
  - apply String.eqb_eq in E; subst. apply dict_lookup_set_same.
  - apply dict_lookup_set_other. intros ->. now rewrite String.eqb_refl in E.
Qed.

Lemma dict_get_apply_update (data row : dict) (k : string) (v : pyval) :
  last_binding data k = Some v -> dict_get (MemStore.apply_update data row) k = v.
Proof.
  intros H. unfold dict_get, dict_get_default.
  now rewrite dict_lookup_apply_update, H.
Qed.

Lemma map_if_no_hit {A} (f : A -> bool) (g : A -> A) (l : list A) :
  filter f l = [] -> map (fun x => if f x then g x else x) l = l.
Proof.
  induction l as [|x l IH]; simpl; [reflexivity|].
  destruct (f x); [discriminate|]. intros H. now rewrite IH.
Qed.

(** The entries that [to_dict] writes for the fields a malformed booking is
    malformed in. *)
Lemma to_dict_fields (b : Booking.t) (data : dict) :
  Booking.to_dict b = inr data ->
  (dict_get data "booking_time" = time_part (Booking.booking_time b)
   /\ dict_get data "number_of_guests" = Booking.number_of_guests b
   /\ (Booking.booking_end_time b <> VNone ->
       dict_get data "booking_end_time" = time_part (Booking.booking_end_time b)))
  /\ (last_binding data "booking_time" = Some (time_part (Booking.booking_time b))
      /\ last_binding data "number_of_guests" = Some (Booking.number_of_guests b)
      /\ (Booking.booking_end_time b <> VNone ->
          last_binding data "booking_end_time"
          = Some (time_part (Booking.booking_end_time b))))
  /\ dict_lookup data "id" = None
  /\ data <> [].
Proof.
  unfold Booking.to_dict.
  destruct (is_none (Booking.booking_end_time b)) eqn:En; simpl.
  - destruct (Booking.default_end_time b) as [e|[v|]]; intros H; inversion H; subst;
      simpl; repeat split; try discriminate;
      destruct (Booking.booking_end_time b); simpl in En; congruence.
  - intros H; inversion H; subst; simpl. repeat split; discriminate.
Qed.

Lemma last_binding_set_other (data : dict) (k k' : string) (v : pyval) :
  k <> k' -> last_binding (dict_set data k v) k' = last_binding data k'.
Proof.
  intros Hne. induction data as [|[k0 v0] data IH]; simpl.
  - destruct (String.eqb k k') eqn:E; [apply String.eqb_eq in E; contradiction|reflexivity].
  - destruct (String.eqb k0 k) eqn:E; simpl; [|now rewrite IH].
    apply String.eqb_eq in E; subst k0.
    destruct (String.eqb k k') eqn:E'; [apply String.eqb_eq in E'; contradiction|].
    reflexivity.
Qed.

(** A row that holds the values of a malformed booking violates a [CHECK]
    of [bookings]. *)
Lemma malformed_row_refused (b : Booking.t) (row : dict) (s : MemStore.t) :
  malformed b ->
  dict_get row "booking_time" = time_part (Booking.booking_time b) ->
  dict_get row "number_of_guests" = Booking.number_of_guests b ->
  (Booking.booking_end_time b <> VNone ->
   dict_get row "booking_end_time" = time_part (Booking.booking_end_time b)) ->
  MemStore.booking_row_ok s row = false.
Proof.
  intros Hbad Ht Hn He.
  destruct (MemStore.booking_row_ok s row) eqn:Hok; [|reflexivity].
  apply booking_row_ok_inv in Hok.
  destruct Hok as [(start & stop & Hs & Hstop & Hlt) (n & Hg & Hpos)].
  rewrite Ht in Hs. rewrite Hn in Hg.
  destruct Hbad as [(start' & stop' & Hs' & He' & Hle)|(n' & Hn' & Hle)].
  - assert (Hpresent : Booking.booking_end_time b <> VNone)
      by (intros H0; rewrite H0 in He'; discriminate).
    rewrite (He Hpresent) in Hstop.
    rewrite Hs' in Hs. rewrite He' in Hstop. inversion Hs; inversion Hstop. lia.
  - rewrite Hn' in Hg. inversion Hg. lia.
Qed.

Lemma insert_refused (b : Booking.t) (data : dict) (s : MemStore.t) :
  malformed b -> Booking.to_dict b = inr data ->
  exists e s',
    MemStore.insert "bookings" data s = (inl e, s') /\ same_bookings s s'.
Proof.
  intros Hbad Hd. apply to_dict_fields in Hd.
  destruct Hd as ((Ht & Hn & He) & _ & Hid & _).
  unfold MemStore.insert.
  destruct (MemStore.tick s) as [s1|] eqn:E; [|do 2 eexists; split; reflexivity].
  apply tick_same_bookings in E. simpl String.eqb. cbv iota. rewrite Hid.
  rewrite (malformed_row_refused b data s1 Hbad Ht Hn He). simpl.
  do 2 eexists. split; [reflexivity | exact E].
Qed.

Lemma filter_id_none_no_id (rows : list dict) (v : pyval) :
  filter (MemStore.row_matches [("id", v)]) rows = [] -> MemStore.has_id rows v = false.
Proof.
  unfold MemStore.has_id. induction rows as [|r rows IH]; simpl; [reflexivity|].
  unfold MemStore.row_matches at 1. simpl.
  destruct (sql_eq (dict_get r "id") v); simpl; [discriminate | exact IH].
Qed.

(** An [UPDATE] that sets the values of a malformed booking changes
    nothing: it matches no row, or it raises. *)
Lemma update_refused (b : Booking.t) (data0 where_ : dict) (t : pyval) (s : MemStore.t) :
  malformed b -> Booking.to_dict b = inr data0 ->
  exists r s',
    MemStore.update "bookings" (dict_set data0 "updated_at" t) where_ s = (r, s')
    /\ same_bookings s s'
    /\ ((r = inr 0 /\ filter (MemStore.row_matches where_) (MemStore.bookings s) = [])
        \/ exists e, r = inl e).
Proof.
  intros Hbad Hd. apply to_dict_fields in Hd.
  destruct Hd as (_ & (Ht & Hn & He) & _ & _).
  unfold MemStore.update.
  destruct (MemStore.tick s) as [s1|] eqn:E; [|do 2 eexists; repeat split; eauto].
  apply tick_same_bookings in E. simpl String.eqb. cbv iota.
  destruct (filter (MemStore.row_matches where_) (MemStore.bookings s1))
    as [|row hit] eqn:Hhit.
  - simpl. do 2 eexists. split; [reflexivity|]. split.
    + unfold same_bookings in *. simpl. rewrite map_if_no_hit by exact Hhit. exact E.
    + left. split; [reflexivity|]. unfold same_bookings in E. now rewrite <- E.
  - assert (Hno : MemStore.booking_row_ok s1
                    (MemStore.apply_update (dict_set data0 "updated_at" t) row) = false).
    { apply (malformed_row_refused b); [exact Hbad| | |].
      - apply dict_get_apply_update.
        rewrite last_binding_set_other by discriminate. exact Ht.
      - apply dict_get_apply_update.
        rewrite last_binding_set_other by discriminate. exact Hn.
      - intros Hp. apply dict_get_apply_update.
        rewrite last_binding_set_other by discriminate. exact (He Hp). }
    simpl. rewrite Hno. simpl.
    do 2 eexists. split; [reflexivity|]. split; [exact E | right; eauto].
Qed.

(** The first statement of the checker is the lookup of the table. *)
Lemma check_table_availability_first_query {Store} (driver : Driver Store)
  (table_id booking_date booking_time booking_end_time exclude_booking_id : pyval)
  (w w' : world Store) (r : exn + availability) :
  check_table_availability driver table_id booking_date booking_time
    booking_end_time exclude_booking_id w = (r, w') ->
  exists rest,
    new_events w w'
    = (Select "restaurant_tables" [("id", table_id)] (Some 1),
       error_of (table_lookup driver table_id w)) :: rest.
Proof.
  unfold check_table_availability, read_table, read_bookings, return_result_on_error,
    table_lookup.
  unfold_monad. unfold RestaurantTable.get_table_name, Booking.get_table_name.
  destruct (exec_select driver "restaurant_tables" _ _ (store w)) as [[e|rows] s1];
    simpl.
  { intros H; injection H as <- <-. eexists. apply new_events_app. reflexivity. }
  destruct rows as [|[|c row] rows];
    try (intros H; injection H as <- <-; eexists; apply new_events_app; reflexivity).
  destruct (truthy (RestaurantTable.is_active (RestaurantTable.from_dict (c :: row))));
    simpl;
    try (intros H; injection H as <- <-; eexists; apply new_events_app; reflexivity).
  destruct (exec_select driver "bookings" _ _ s1) as [[e|rows'] s2]; simpl.
  all: destruct (combine booking_date booking_time) as [e1|new_start]; simpl.
  all: try destruct (combine booking_date booking_end_time) as [e2|new_end]; simpl.
  all: try (destruct (find_conflict booking_date new_start new_end _) as [e3|[b|]];
            simpl).
  all: intros H; injection H as <- <-; eexists; apply new_events_app; simpl;
    rewrite <- app_assoc; reflexivity.
Qed.

Lemma to_dict_end_time_given (b : Booking.t) :
  truthy (Booking.booking_end_time b) = true ->
  exists data, Booking.to_dict b = inr data /\ carries_as_given b data.
Proof.
  intros Hend.
  assert (Hpresent : Booking.booking_end_time b <> VNone)
    by (intros H0; rewrite H0 in Hend; discriminate).
  destruct (Booking.to_dict b) as [e|data] eqn:Hd.
  - exfalso. unfold Booking.to_dict in Hd.
    destruct (Booking.booking_end_time b); simpl in Hd; congruence.
  - exists data. split; [reflexivity|].
    pose proof (to_dict_fields b data Hd) as ((Ht & Hn & He) & _).
    unfold carries_as_given. auto.
Qed.

(** ** Malformed input *)

(** C4 as the specification states it fails on the example restaurant: a
    booking from 12:00 to 11:00 is refused by [create_booking] only after
    three statements have been executed, and by [update_booking] only after
    its [UPDATE] has been executed. *)
Lemma malformed_input_reaches_store :
  ~ create_rejects_before_store_access MemStore.driver
  /\ ~ update_rejects_before_store_access MemStore.driver.
Proof.
  assert (Hbad : malformed (request VNone (hm 12 0) (hm 11 0) 2)).
  { left. exists (hm 12 0), (hm 11 0). repeat split. vm_compute. discriminate. }
  split; intros H.
  - destruct (H _ (fresh_world restaurant) Hbad) as (w' & Hrun & Hnone).
    vm_compute in Hrun. injection Hrun as <-. vm_compute in Hnone. discriminate.
  - destruct (H _ (VInt 2) (fresh_world restaurant) Hbad) as (w' & Hrun & Hnone).
    vm_compute in Hrun. injection Hrun as <-. vm_compute in Hnone. discriminate.
Qed.

(** C4, as the code has it.  [create_booking] and [update_booking] validate
    neither the order of the times nor the guest count.  For a malformed
    booking with an end time given, on the reference store with the
    connection up:
    - [create_booking] first sends the queries of the checker, the lookup
      of the table before any other; when the checker reports the table
      unavailable nothing more is sent; when it reports it available,
      exactly one [INSERT] follows, carrying start time, end time and guest
      count as given, and the store raises on it; in both cases the result
      is [None] and the bookings are unchanged;
    - [update_booking] sends exactly one [UPDATE] filtered by the id,
      carrying the three values as given; the store raises on it whenever a
      row carries the id; the result is [False] and the bookings are
      unchanged. *)
Theorem malformed_booking_refused_by_store
  (b : Booking.t) (booking_id : pyval) (w : world MemStore.t) :
  malformed b ->
  truthy (Booking.booking_end_time b) = true ->
  live (store w) ->
  (exists r w1 w' rest,
      check_table_availability MemStore.driver (Booking.table_id b)
        (date_part (Booking.booking_date b)) (time_part (Booking.booking_time b))
        (time_part (Booking.booking_end_time b)) VNone w = (inr r, w1)
      /\ new_events w w1
         = (Select "restaurant_tables" [("id", Booking.table_id b)] (Some 1), None) :: rest
      /\ create_booking MemStore.driver b w = (inr VNone, w')
      /\ MemStore.bookings (store w') = MemStore.bookings (store w)
      /\ (available r = false -> new_events w w' = new_events w w1)
      /\ (available r = true ->
          exists data err,
            new_events w w'
            = (new_events w w1 ++ [(Insert "bookings" data, Some err)])%list
            /\ carries_as_given b data))
  /\ (exists w' data e,
         update_booking MemStore.driver booking_id b w = (inr false, w')
         /\ new_events w w' = [(Update "bookings" data [("id", booking_id)], e)]
         /\ carries_as_given b data
         /\ MemStore.bookings (store w') = MemStore.bookings (store w)
         /\ (MemStore.has_id (MemStore.bookings (store w)) booking_id = true ->
             exists err, e = Some err)).
Proof.
  intros Hbad Hend Hl.
  destruct (to_dict_end_time_given b Hend) as (data & Hd & Hcarry).
  pose proof (to_dict_fields b data Hd) as (_ & _ & _ & Hne).
  split.
  - destruct (check_table_availability_cases MemStore.driver (Booking.table_id b)
                (date_part (Booking.booking_date b)) (time_part (Booking.booking_time b))
                (time_part (Booking.booking_end_time b)) VNone w)
      as (r & w1 & Hrun & _).
    destruct (check_table_availability_effects MemStore.driver same_bookings
                same_bookings_trans select_same_bookings _ _ _ _ _ _ _ _ Hrun)
      as (_ & Hsame & evs & Htr & _).
    pose proof (new_events_app w w1 evs Htr) as Hevs.
    destruct (check_table_availability_first_query MemStore.driver _ _ _ _ _ _ _ _ Hrun)
      as (rest & Hfirst).
    assert (Hup : error_of (table_lookup MemStore.driver (Booking.table_id b) w) = None).
    { unfold table_lookup. cbn [exec_select MemStore.driver]. unfold MemStore.select.
      rewrite (live_tick _ Hl). unfold RestaurantTable.get_table_name.
      rewrite relation_tables. reflexivity. }
    rewrite Hup in Hfirst.
    exists r, w1.
    unfold create_booking. rewrite Hend. cbn [negb].
    unfold try_except at 1. unfold bind at 1. rewrite Hrun.
    destruct (available r) eqn:Hav; cbn [negb].
    + rewrite Hd.
      destruct (insert_refused b data (store w1) Hbad Hd) as (e & s' & Hins & Hs').
      destruct data as [|c data]; [congruence|].
      unfold_monad. cbn [exec_insert MemStore.driver]. unfold Booking.get_table_name.
      rewrite Hins. simpl.
      eexists. exists rest. split; [reflexivity|]. split; [exact Hfirst|].
      split; [reflexivity|]. split.
      { simpl. eapply same_bookings_trans; eauto. }
      split; [discriminate|]. intros _. exists (c :: data), e.
      split; [|exact Hcarry].
      rewrite Hevs. apply new_events_app. simpl. now rewrite Htr, app_assoc.
    + destruct (table_exists r), (table_active r), (conflicting_booking r);
        cbn [negb]; unfold_monad;
        (eexists; exists rest; split; [reflexivity|]; split; [exact Hfirst|];
         split; [reflexivity|]; split; [exact Hsame|];
         split; [intros _; rewrite Hevs; apply new_events_app; exact Htr
                |discriminate]).
  - unfold update_booking. rewrite Hd. unfold_monad.
    destruct (update_refused b data [("id", booking_id)] (VDateTime (clock w))
                (store w) Hbad Hd) as (r & s' & Hup & Hs' & Hr).
    destruct (dict_set data "updated_at" (VDateTime (clock w))) as [|c data'] eqn:Hset;
      [exfalso; exact (dict_set_not_empty _ _ _ Hset)|].
    assert (Hcarry' : carries_as_given b (c :: data')).
    { rewrite <- Hset. unfold carries_as_given.
      rewrite !dict_get_set_other by discriminate. exact Hcarry. }
    cbn [exec_update MemStore.driver]. unfold Booking.get_table_name. rewrite Hup.
    destruct Hr as [[-> Hnone]|[e ->]]; simpl.
    + eexists. exists (c :: data'), None. split; [reflexivity|].
      split; [apply new_events_app; reflexivity|]. split; [exact Hcarry'|].
      split; [exact Hs'|]. intros Hhas.
      rewrite (filter_id_none_no_id _ _ Hnone) in Hhas. discriminate.
    + eexists. exists (c :: data'), (Some e). split; [reflexivity|].
      split; [apply new_events_app; reflexivity|]. split; [exact Hcarry'|].
      split; [exact Hs'|]. intros _. eauto.
Qed.

Lemma malformed_booking_refused_by_store_witness :
  malformed (request VNone (hm 12 0) (hm 11 0) 2)
  /\ truthy (Booking.booking_end_time (request VNone (hm 12 0) (hm 11 0) 2)) = true
  /\ live (store (fresh_world restaurant))
  /\ (exists w' data,
         create_booking MemStore.driver (request VNone (hm 12 0) (hm 11 0) 2)
           (fresh_world restaurant) = (inr VNone, w')
         /\ trace w'
            = [ (Select "restaurant_tables" [("id", VInt 1)] (Some 1), None);
                (Select "bookings" [("table_id", VInt 1); ("booking_date", VDate today)]
                   None, None);
                (Insert "bookings" data, Some IntegrityError) ]
         /\ dict_get data "booking_time" = VTime (hm 12 0)
         /\ dict_get data "booking_end_time" = VTime (hm 11 0)
         /\ MemStore.bookings (store w') = MemStore.bookings restaurant)
  /\ (exists w' data,
         update_booking MemStore.driver (VInt 2) (request VNone (hm 12 0) (hm 11 0) 2)
           (fresh_world restaurant) = (inr false, w')
         /\ trace w' = [(Update "bookings" data [("id", VInt 2)], Some IntegrityError)]
         /\ dict_get data "booking_time" = VTime (hm 12 0)
         /\ dict_get data "booking_end_time" = VTime (hm 11 0)
         /\ MemStore.bookings (store w') = MemStore.bookings restaurant).
Proof.
  assert (Hbad : malformed (request VNone (hm 12 0) (hm 11 0) 2)).
  { left. exists (hm 12 0), (hm 11 0). repeat split. vm_compute. discriminate. }
  split; [exact Hbad|]. split; [reflexivity|]. split; [reflexivity|].
  destruct (malformed_booking_refused_by_store (request VNone (hm 12 0) (hm 11 0) 2)
              (VInt 2) (fresh_world restaurant) Hbad eq_refl eq_refl)
    as [(r & w1 & w' & rest & Hchk & Hfirst & Hc & Hsame1 & _ & Hins)
        (w2 & data2 & e2 & Hu & Hev2 & (Ht2 & He2 & _) & Hsame2 & Hraise)].
  split.
  - assert (Hav : available r = true)
      by (clear - Hchk; vm_compute in Hchk; injection Hchk as <- _; reflexivity).
    destruct (Hins Hav) as (data & err & Hev & (Ht & He & _)).
    exists w', data. split; [exact Hc|]. split.
    + change (trace w') with (new_events (fresh_world restaurant) w').
      assert (Hq : new_events (fresh_world restaurant) w1
                   = [ (Select "restaurant_tables" [("id", VInt 1)] (Some 1), None);
                       (Select "bookings"
                          [("table_id", VInt 1); ("booking_date", VDate today)] None,
                        None) ])
        by (clear - Hchk; vm_compute in Hchk; injection Hchk as _ <-; reflexivity).
      rewrite Hq in Hev. rewrite Hev. cbn [app]. do 2 f_equal.
      clear - Hc Hev. vm_compute in Hc. injection Hc as <-.
      vm_compute in Hev. congruence.
    + split; [exact Ht|]. split; [exact He | exact Hsame1].
  - destruct (Hraise eq_refl) as [err ->].
    exists w2, data2. split; [exact Hu|]. split.
    + change (trace w2) with (new_events (fresh_world restaurant) w2).
      rewrite Hev2.
      clear - Hu Hev2. vm_compute in Hu. injection Hu as <-.
      vm_compute in Hev2. congruence.
    + split; [exact Ht2|]. split; [exact He2 | exact Hsame2].
Defined.

(** ** Persistence failures *)

(** C5 as the specification states it fails on the example restaurant: the
    connection is lost after the two queries of the checker, the [INSERT]
    raises, and [create_booking] returns [None] instead of raising. *)
Lemma store_error_is_swallowed :
  ~ surfaces_store_errors
      (create_booking MemStore.driver (request VNone (hm 22 0) (hm 23 0) 2)).
Proof.
  intros H.
  destruct (create_booking MemStore.driver (request VNone (hm 22 0) (hm 23 0) 2)
              (fresh_world (restaurant_failing_after 2))) as [r w'] eqn:Hrun.
  specialize (H (fresh_world (restaurant_failing_after 2)) w' r
                (Insert "bookings"
                   (match Booking.to_dict (request VNone (hm 22 0) (hm 23 0) 2) with
                    | inr data => data
                    | inl _ => []
                    end))
                OperationalError Hrun).
  vm_compute in Hrun. injection Hrun as <- <-.
  destruct H as [e' He'].
  - vm_compute. right; right; left. reflexivity.
  - discriminate.
Qed.

(** A failed query for the bookings of the day reads as a day without
    bookings: the table is reported available although booking 1 holds it. *)
Lemma failed_bookings_query_reads_as_free :
  exists w',
    check_table_availability MemStore.driver (VInt 1) (VDate today) (VTime (hm 19 0))
      (VTime (hm 21 0)) VNone (fresh_world (restaurant_failing_after 1))
    = (inr (mk_availability true true true None), w')
    /\ stdout w' = [MsgReadBookingsError OperationalError].
Proof. eexists. split; vm_compute; reflexivity. Qed.

Section Failures.
Context {Store : Type} (driver : Driver Store).

(** C5, as the code has it.  No operation raises: a persistence failure is
    caught inside it.  When the [INSERT] of [create_booking], the [UPDATE]
    of [update_booking] or the [DELETE] of [delete_booking] raises, the
    operation prints the error and returns [None], [False], [False]; when
    the table lookup of [check_table_availability] raises, the result is
    the one of a table that does not exist. *)
Theorem store_errors_are_caught :
  (forall b w,
      exists v w',
        create_booking driver b w = (inr v, w')
        /\ forall data e,
            In (Insert "bookings" data, Some e) (new_events w w') ->
            v = VNone /\ In (MsgCreateBookingError e) (stdout w'))
  /\ (forall booking_id b w,
         exists v w',
           update_booking driver booking_id b w = (inr v, w')
           /\ forall c e,
               In (c, Some e) (new_events w w') ->
               v = false /\ In (MsgUpdateBookingError e) (stdout w'))
  /\ (forall booking_id w,
         exists v w',
           delete_booking driver booking_id w = (inr v, w')
           /\ forall c e,
               In (c, Some e) (new_events w w') ->
               v = false /\ In (MsgDeleteBookingError e) (stdout w'))
  /\ (forall table_id booking_date booking_time booking_end_time exclude_booking_id w,
         exists r w',
           check_table_availability driver table_id booking_date booking_time
             booking_end_time exclude_booking_id w = (inr r, w')
           /\ forall e,
               table_lookup driver table_id w = inl e ->
               table_exists r = false /\ available r = false).
Proof.
  split; [|split; [|split]].
  - intros b w. unfold create_booking.
    destruct (truthy (Booking.booking_end_time b)); cbn [negb].
    2:{ unfold_monad. do 2 eexists. split; [reflexivity|].
        simpl. intros data e Hin.
        rewrite (new_events_app w _ []) in Hin by (simpl; now rewrite app_nil_r).
        destruct Hin. }
    unfold try_except at 1. unfold bind at 1.
    destruct (check_table_availability_cases driver (Booking.table_id b)
                (date_part (Booking.booking_date b))
                (time_part (Booking.booking_time b))
                (time_part (Booking.booking_end_time b)) VNone w)
      as (av & w1 & Hrun & _).
    rewrite Hrun.
    destruct (check_table_availability_effects driver (fun _ _ => True)
                (fun _ _ _ _ _ => I) (fun _ _ _ _ => I) _ _ _ _ _ _ _ _ Hrun)
      as (_ & _ & evs & Htr & Hsel).
    assert (Hnoins : forall data e, ~ In (Insert "bookings" data, e) evs).
    { intros data e Hin. rewrite Forall_forall in Hsel. exact (Hsel _ Hin). }
    destruct (available av); cbn [negb].
    2:{ destruct (table_exists av), (table_active av), (conflicting_booking av);
          cbn [negb]; unfold_monad;
          (do 2 eexists; split; [reflexivity|]; simpl;
           intros data e Hin;
           rewrite (new_events_app w _ evs) in Hin by exact Htr;
           destruct (Hnoins _ _ Hin)). }
    destruct (Booking.to_dict b) as [e|data] eqn:Hd.
    { unfold_monad. do 2 eexists. split; [reflexivity|].
      simpl. intros data e0 Hin.
      rewrite (new_events_app w _ evs) in Hin by exact Htr.
      destruct (Hnoins _ _ Hin). }
    destruct data as [|c data].
    { unfold_monad. do 2 eexists. split; [reflexivity|].
      simpl. intros data e0 Hin.
      rewrite (new_events_app w _ evs) in Hin by exact Htr.
      destruct (Hnoins _ _ Hin). }
    unfold_monad.
    destruct (exec_insert driver Booking.get_table_name (c :: data) (store w1))
      as [[e|v] s'] eqn:Hins; simpl;
      (do 2 eexists; split; [reflexivity|]); simpl; intros data0 e0 Hin.
    + rewrite (new_events_app w _
                 (evs ++ [(Insert Booking.get_table_name (c :: data), Some e)]))
        in Hin by (rewrite Htr, <- app_assoc; reflexivity).
      apply in_app_or in Hin. destruct Hin as [Hin|[Hin|[]]].
      * destruct (Hnoins _ _ Hin).
      * inversion Hin; subst. split; [reflexivity|].
        apply in_or_app. right. now left.
    + rewrite (new_events_app w _
                 (evs ++ [(Insert Booking.get_table_name (c :: data), None)]))
        in Hin by (rewrite Htr, <- app_assoc; reflexivity).
      apply in_app_or in Hin. destruct Hin as [Hin|[Hin|[]]].
      * destruct (Hnoins _ _ Hin).
      * inversion Hin.
  - intros booking_id b w. unfold update_booking. unfold_monad.
    destruct (Booking.to_dict b) as [e|data].
    { do 2 eexists. split; [reflexivity|]. simpl. intros c e0 Hin.
      rewrite (new_events_app w _ []) in Hin by (simpl; now rewrite app_nil_r).
      destruct Hin. }
    destruct (dict_set data "updated_at" (VDateTime (clock w))) as [|c0 data'].
    { do 2 eexists. split; [reflexivity|]. simpl. intros c e0 Hin.
      rewrite (new_events_app w _ []) in Hin by (simpl; now rewrite app_nil_r).
      destruct Hin. }
    destruct (exec_update driver _ _ _ (store w)) as [[e|n] s']; simpl;
      (do 2 eexists; split; [reflexivity|]); simpl; intros c e0 Hin;
      erewrite new_events_app in Hin by (simpl; reflexivity);
      destruct Hin as [Hin|[]]; inversion Hin; subst.
    split; [reflexivity|]. apply in_or_app. right. now left.
  - intros booking_id w. unfold delete_booking. unfold_monad.
    destruct (exec_delete driver _ _ (store w)) as [[e|n] s']; simpl;
      (do 2 eexists; split; [reflexivity|]); simpl; intros c e0 Hin;
      erewrite new_events_app in Hin by (simpl; reflexivity);
      destruct Hin as [Hin|[]]; inversion Hin; subst.
    split; [reflexivity|]. apply in_or_app. right. now left.
  - intros table_id booking_date booking_time booking_end_time exclude_booking_id w.
    destruct (check_table_availability_cases driver table_id booking_date booking_time
                booking_end_time exclude_booking_id w)
      as (r & w' & Hrun & Hcases).
    exists r, w'. split; [exact Hrun|]. intros e Hlook.
    destruct (read_table_of_lookup driver table_id w) as [w1 Hrt].
    rewrite Hlook in Hrt.
    destruct Hcases as [(w1' & _ & ->)|[(t & w1' & Ht & _)|(t & w1' & bs & w2 & Ht & _)]];
      [simpl; auto | congruence | congruence].
Qed.

End Failures.

Lemma store_errors_are_caught_witness :
  exists w',
    create_booking MemStore.driver (request VNone (hm 22 0) (hm 23 0) 2)
      (fresh_world (restaurant_failing_after 2)) = (inr VNone, w')
    /\ In (MsgCreateBookingError OperationalError) (stdout w').
Proof.
  destruct (proj1 (store_errors_are_caught MemStore.driver)
              (request VNone (hm 22 0) (hm 23 0) 2)
              (fresh_world (restaurant_failing_after 2)))
    as (v & w' & Hrun & Hfail).
  destruct (Hfail (match Booking.to_dict (request VNone (hm 22 0) (hm 23 0) 2) with
                   | inr data => data
                   | inl _ => []
                   end) OperationalError) as [-> Hmsg].
  - vm_compute in Hrun. injection Hrun as _ <-. vm_compute. right; right; left. reflexivity.
  - exists w'. split; [exact Hrun | exact Hmsg].
Defined.

(** * Further properties of the models *)

(** X1. A table survives [to_dict] then [from_dict] in every field except
    [id], which [to_dict] leaves out. *)
Theorem table_row_roundtrip (t : RestaurantTable.t) :
  RestaurantTable.from_dict (RestaurantTable.to_dict t)
  = RestaurantTable.mk VNone (RestaurantTable.table_number t) (RestaurantTable.capacity t)
      (RestaurantTable.table_type t) (RestaurantTable.status t)
      (RestaurantTable.location t) (RestaurantTable.description t)
      (RestaurantTable.is_active t) (RestaurantTable.created_at t)
      (RestaurantTable.updated_at t).
Proof. destruct t. reflexivity. Qed.

(** X2. A user survives [to_dict] then [from_dict] in every field except [id];
    a field that holds [None] comes back as [None], not as the default of
    [from_dict]. *)
Theorem user_row_roundtrip (u : User.t) :
  User.from_dict (User.to_dict u)
  = User.mk VNone (User.email u) (User.password_hash u) (User.full_name u)
      (User.phone u) (User.role u) (User.is_active u) (User.created_at u)
      (User.updated_at u).
Proof. destruct u. reflexivity. Qed.

Lemma time_part_idempotent (v : pyval) : time_part (time_part v) = time_part v.
Proof. destruct v; reflexivity. Qed.

Lemma date_part_idempotent (v : pyval) : date_part (date_part v) = date_part v.
Proof. destruct v; reflexivity. Qed.

Lemma truthy_time_part (v : pyval) : truthy (time_part v) = truthy v.
Proof. destruct v; reflexivity. Qed.

Lemma truthy_date_part (v : pyval) : truthy (date_part v) = truthy v.
Proof. destruct v; reflexivity. Qed.

Lemma is_none_time_part (v : pyval) : is_none (time_part v) = is_none v.
Proof. destruct v; reflexivity. Qed.

(** X3. Whatever the types of the date and times of a booking, the row that
    [to_dict] makes of it is a fixed point: reading it back with [from_dict]
    and writing it again gives the same row, column for column. *)
Theorem to_dict_from_dict_to_dict (b : Booking.t) (row : dict) :
  Booking.to_dict b = inr row ->
  Booking.to_dict (Booking.from_dict row) = inr row.
Proof.
  destruct b as [i u t d s e g st n c up].
  unfold Booking.to_dict, Booking.default_end_time. cbn [Booking.booking_end_time
    Booking.booking_time Booking.booking_date Booking.user_id Booking.table_id
    Booking.number_of_guests Booking.status Booking.notes Booking.created_at
    Booking.updated_at].
  destruct (is_none e) eqn:En; cbn [negb].
  - destruct e; try discriminate.
    destruct (truthy s) eqn:Hs; cbn [andb].
    + destruct (truthy (date_part d) && truthy (time_part s)) eqn:Hdt.
      * destruct (combine (date_part d) (time_part s)) as [x|dt] eqn:Hc; [discriminate|].
        destruct (dt_add_hours dt 2) as [x|end_dt]; [discriminate|].
        intros H; inversion H; subst row; clear H.
        unfold Booking.from_dict, dict_get, dict_get_default. simpl.
        now rewrite time_part_idempotent, date_part_idempotent.
      * intros H; inversion H; subst row; clear H.
        unfold Booking.from_dict, dict_get, dict_get_default. simpl.
        rewrite truthy_time_part, Hs, date_part_idempotent, time_part_idempotent, Hdt.
        reflexivity.
    + intros H; inversion H; subst row; clear H.
      unfold Booking.from_dict, dict_get, dict_get_default. simpl. rewrite truthy_time_part, Hs.
      now rewrite date_part_idempotent, time_part_idempotent.
  - intros H; inversion H; subst row; clear H.
    unfold Booking.from_dict, dict_get, dict_get_default. simpl.
    rewrite is_none_time_part, En. simpl.
    now rewrite !time_part_idempotent, date_part_idempotent.
Qed.

(** X4. For a booking without an end time, the end time that [to_dict] writes
    in its row is the end of the interval that the availability checker
    gives the same booking on its date: saving a legacy booking does not
    change what it blocks. *)
Theorem default_end_time_matches_checker (b : Booking.t) (d : date)
  (existing_start existing_end : datetime) :
  date_part (Booking.booking_date b) = VDate d ->
  Booking.booking_end_time b = VNone ->
  existing_interval (VDate d) b = inr (existing_start, existing_end) ->
  exists row,
    Booking.to_dict b = inr row
    /\ dict_get row "booking_end_time" = VTime (dt_time existing_end).
Proof.
  intros Hd He. unfold existing_interval, Booking.to_dict, Booking.default_end_time.
  rewrite He, Hd. cbn [truthy is_none negb].
  destruct (time_part (Booking.booking_time b)) eqn:Hs; cbn [combine]; try discriminate.
  assert (Htruthy : truthy (Booking.booking_time b) = true)
    by (destruct (Booking.booking_time b); simpl in Hs; try discriminate; reflexivity).
  rewrite Htruthy. cbn [truthy andb].
  destruct (dt_add_hours (mk_datetime d t) 2) as [e|end_dt]; [discriminate|].
  cbn [combine]. intros H; inversion H; subst. eexists. split; reflexivity.
Qed.

Lemma default_end_time_matches_checker_witness :
  exists row,
    Booking.to_dict (Booking.from_dict late_legacy_row) = inr row
    /\ dict_get row "booking_end_time" = VTime (hm 1 0).
Proof.
  apply (default_end_time_matches_checker (Booking.from_dict late_legacy_row) today
           (mk_datetime today (hm 23 0)) (mk_datetime today (hm 1 0)));
    reflexivity.
Defined.

Lemma to_dict_from_dict_to_dict_witness :
  exists row,
    Booking.to_dict moved_booking = inr row
    /\ Booking.to_dict (Booking.from_dict row) = inr row.
Proof.
  eexists. split; [reflexivity|].
  apply (to_dict_from_dict_to_dict moved_booking). reflexivity.
Defined.

(** * Further properties of the booking operations *)

Section Operations.
Context {Store : Type} (driver : Driver Store).

(** X5. A booking without an end time is refused by [create_booking] before
    any statement reaches the store: the call prints one line and returns
    [None]. *)
Theorem create_booking_requires_end_time (b : Booking.t) (w : world Store) :
  truthy (Booking.booking_end_time b) = false ->
  create_booking driver b w
  = (inr VNone, mk_world (store w) (trace w) (stdout w ++ [MsgEndTimeRequired]) (clock w)).
Proof.
  intros H. unfold create_booking. rewrite H. reflexivity.
Qed.

(** A result that finds the table active, is not available and names no
    conflict comes from the handler of the checker: its error line is the
    last line printed. *)
Lemma check_table_availability_caught
  (table_id booking_date booking_time booking_end_time exclude_booking_id : pyval)
  (w w1 : world Store) (r : availability) :
  check_table_availability driver table_id booking_date booking_time
    booking_end_time exclude_booking_id w = (inr r, w1) ->
  table_active r = true -> available r = false -> conflicting_booking r = None ->
  exists lines e, stdout w1 = (stdout w ++ lines ++ [MsgAvailabilityError e])%list.
Proof.
  unfold check_table_availability, read_table, read_bookings, return_result_on_error.
  unfold_monad.
  destruct (exec_select driver RestaurantTable.get_table_name _ _ (store w))
    as [[e|rows] s1]; simpl.
  { intros H; injection H as <- <-; discriminate. }
  destruct rows as [|[|c row] rows];
    try (intros H; injection H as <- <-; discriminate).
  destruct (truthy (RestaurantTable.is_active (RestaurantTable.from_dict (c :: row))));
    simpl; try (intros H; injection H as <- <-; discriminate).
  destruct (exec_select driver Booking.get_table_name _ _ s1) as [[e|rows'] s2]; simpl.
  all: destruct (combine booking_date booking_time) as [e1|new_start]; simpl.
  all: try destruct (combine booking_date booking_end_time) as [e2|new_end]; simpl.
  all: try (destruct (find_conflict booking_date new_start new_end _) as [e3|[b|]];
            simpl).
  all: intros H; injection H as <- <-; simpl; try discriminate; intros _ _ _.
  all: first [ exists []; eexists; reflexivity
             | eexists [_]; eexists; rewrite <- app_assoc; reflexivity ].
Qed.

(** X6. When the checker does not report the table available, [create_booking]
    sends nothing more to the store, prints one line and returns [None].
    The line says that the table is missing when the result has
    [table_exists] false, that it is inactive when it exists with
    [table_active] false, and names the id of the conflicting booking when
    there is one.  Otherwise (the table is active and no conflict is named)
    the line is the generic one, and the checker has just printed the
    exception that it caught. *)
Theorem create_booking_gated (b : Booking.t) (w w1 : world Store) (r : availability) :
  truthy (Booking.booking_end_time b) = true ->
  check_table_availability driver (Booking.table_id b)
    (date_part (Booking.booking_date b)) (time_part (Booking.booking_time b))
    (time_part (Booking.booking_end_time b)) VNone w = (inr r, w1) ->
  available r = false ->
  exists m,
    create_booking driver b w
    = (inr VNone, mk_world (store w1) (trace w1) (stdout w1 ++ [m]) (clock w1))
    /\ (table_exists r = false -> m = MsgTableMissing)
    /\ (table_exists r = true -> table_active r = false -> m = MsgTableInactive)
    /\ (forall c, conflicting_booking r = Some c -> m = MsgConflict (Booking.id c))
    /\ (table_active r = true -> conflicting_booking r = None ->
        m = MsgUnavailable
        /\ exists lines e,
            stdout w1 = (stdout w ++ lines ++ [MsgAvailabilityError e])%list).
Proof.
  intros Hend Hrun Hav.
  pose proof (check_table_availability_caught _ _ _ _ _ _ _ _ Hrun) as Hcaught.
  assert (Hcoh : (table_active r = true -> table_exists r = true)
                 /\ (conflicting_booking r <> None ->
                     table_exists r = true /\ table_active r = true)).
  { destruct (check_table_availability_cases driver (Booking.table_id b)
                (date_part (Booking.booking_date b)) (time_part (Booking.booking_time b))
                (time_part (Booking.booking_end_time b)) VNone w)
      as (r0 & w0 & Hrun0 & Hc).
    rewrite Hrun in Hrun0. inversion Hrun0; subst r0 w0.
    destruct Hc as [(u & _ & ->)|[(t & u & _ & _ & ->)|(t & u & bs & u2 & _ & _ & _ & ->)]];
      simpl; try (split; [discriminate | congruence]).
    pose proof (verdict_coherent (date_part (Booking.booking_date b))
                  (time_part (Booking.booking_time b))
                  (time_part (Booking.booking_end_time b))
                  (active_bookings bs VNone)) as H.
    simpl in H. tauto. }
  destruct Hcoh as [Hact Hconf].
  unfold create_booking. rewrite Hend. cbn [negb].
  unfold try_except at 1. unfold bind at 1. rewrite Hrun, Hav. cbn [negb].
  destruct (table_exists r) eqn:Hex; cbn [negb].
  2:{ eexists. split; [reflexivity|]. split; [reflexivity|]. split; [discriminate|].
      split.
      - intros c Hc. destruct Hconf as [H _]; [congruence | discriminate].
      - intros Ha. specialize (Hact Ha). discriminate. }
  destruct (table_active r) eqn:Hta; cbn [negb].
  2:{ eexists. split; [reflexivity|]. split; [discriminate|]. split; [reflexivity|].
      split.
      - intros c Hc. destruct Hconf as [_ H]; [congruence | discriminate].
      - discriminate. }
  destruct (conflicting_booking r) as [c|] eqn:Hc.
  - eexists. split; [reflexivity|]. split; [discriminate|]. split; [discriminate|].
    split; [intros c' H; inversion H; reflexivity | discriminate].
  - eexists. split; [reflexivity|]. split; [discriminate|]. split; [discriminate|].
    split; [discriminate|]. intros _ _. split; [reflexivity|].
    exact (Hcaught eq_refl Hav eq_refl).
Qed.

(** X7. When the checker reports the table available and the store accepts the
    row, [create_booking] sends exactly one [INSERT] into [bookings], with
    the row of [to_dict], and returns the id that the store gave it. *)
Theorem create_booking_inserts_row (b : Booking.t) (w w1 : world Store)
  (r : availability) (data : dict) (new_id : pyval) (s' : Store) :
  truthy (Booking.booking_end_time b) = true ->
  check_table_availability driver (Booking.table_id b)
    (date_part (Booking.booking_date b)) (time_part (Booking.booking_time b))
    (time_part (Booking.booking_end_time b)) VNone w = (inr r, w1) ->
  available r = true ->
  Booking.to_dict b = inr data ->
  exec_insert driver "bookings" data (store w1) = (inr new_id, s') ->
  create_booking driver b w
  = (inr new_id,
     mk_world s' (trace w1 ++ [(Insert "bookings" data, None)]) (stdout w1) (clock w1)).
Proof.
  intros Hend Hrun Hav Hd Hins. unfold create_booking. rewrite Hend. cbn [negb].
  unfold try_except at 1. unfold bind at 1. rewrite Hrun, Hav. cbn [negb].
  rewrite Hd. pose proof (to_dict_fields b data Hd) as (_ & _ & _ & Hne).
  destruct data as [|c data]; [congruence|].
  unfold_monad. unfold Booking.get_table_name. rewrite Hins. reflexivity.
Qed.

(** X8. [update_booking] sends at most one statement, an [UPDATE] of
    [bookings] filtered by the id given, and the row it sends is the one of
    [to_dict] with [updated_at] set to the current time: whatever
    [updated_at] the booking object held is overwritten. *)
Theorem update_booking_statement (booking_id : pyval) (b : Booking.t) (w : world Store) :
  exists v w',
    update_booking driver booking_id b w = (inr v, w')
    /\ (new_events w w' = []
        \/ exists row e,
            Booking.to_dict b = inr row
            /\ new_events w w'
               = [(Update "bookings" (dict_set row "updated_at" (VDateTime (clock w)))
                     [("id", booking_id)], e)]
            /\ dict_get (dict_set row "updated_at" (VDateTime (clock w))) "updated_at"
               = VDateTime (clock w)).
Proof.
  unfold update_booking. unfold_monad.
  destruct (Booking.to_dict b) as [e|row].
  { do 2 eexists. split; [reflexivity|]. left.
    apply new_events_app. simpl. now rewrite app_nil_r. }
  destruct (dict_set row "updated_at" (VDateTime (clock w))) as [|c data'] eqn:E.
  { do 2 eexists. split; [reflexivity|]. left.
    apply new_events_app. simpl. now rewrite app_nil_r. }
  destruct (exec_update driver _ _ _ (store w)) as [[e|n] s']; simpl;
    (do 2 eexists; split; [reflexivity|]; right; exists row; eexists;
     split; [reflexivity|]; split;
     [rewrite E; apply new_events_app; reflexivity | apply dict_get_set_same]).
Qed.

(** X9. [delete_booking] is unconditional: whatever the booking, it sends
    exactly one statement, a [DELETE] from [bookings] filtered by the id
    given, and never queries tables or bookings first.  It returns [True]
    exactly when the store reports a deleted row. *)
Theorem delete_booking_statement (booking_id : pyval) (w : world Store) :
  exists v w' e,
    delete_booking driver booking_id w = (inr v, w')
    /\ new_events w w' = [(Delete "bookings" [("id", booking_id)], e)]
    /\ (v = true <->
        exists n s', exec_delete driver "bookings" [("id", booking_id)] (store w)
                     = (inr n, s') /\ n > 0).
Proof.
  unfold delete_booking. unfold_monad. unfold Booking.get_table_name.
  destruct (exec_delete driver "bookings" [("id", booking_id)] (store w))
    as [[e|n] s'] eqn:Hdel; simpl.
  - do 3 eexists. split; [reflexivity|]. split.
    + apply new_events_app. reflexivity.
    + split; [discriminate|]. intros (n & s0 & H & _). discriminate.
  - do 3 eexists. split; [reflexivity|]. split.
    + apply new_events_app. reflexivity.
    + split.
      * intros Hv. exists n, s'. split; [reflexivity|]. apply Z.gtb_lt in Hv. lia.
      * intros (n0 & s0 & H & Hpos). inversion H; subst. apply Z.gtb_lt. lia.
Qed.

End Operations.

(** * Further properties of the availability checker *)

Lemma dt_le_spec (a b : datetime) :
  dt_le a b = true
  <-> dt_date a < dt_date b \/ (dt_date a = dt_date b /\ dt_time a <= dt_time b).
Proof.
  unfold dt_le. rewrite orb_true_iff, andb_true_iff, Z.ltb_lt, Z.eqb_eq, Z.leb_le.
  tauto.
Qed.

Lemma dt_le_trans (a b c : datetime) :
  dt_le a b = true -> dt_le b c = true -> dt_le a c = true.
Proof. rewrite !dt_le_spec. lia. Qed.

Lemma overlaps_narrower (ns ne ns' ne' x y : datetime) :
  dt_le ns ns' = true -> dt_le ne' ne = true ->
  overlaps ns ne x y = false -> overlaps ns' ne' x y = false.
Proof.
  unfold overlaps. rewrite !dt_ge_is_le_flipped, !negb_false_iff, !orb_true_iff.
  intros Hs He [H|H]; [left | right]; eauto using dt_le_trans.
Qed.

Lemma find_conflict_none (d : pyval) (ns ne : datetime) (l : list Booking.t) :
  find_conflict d ns ne l = inr None <-> Forall (passed_over d ns ne) l.
Proof.
  induction l as [|b l IH]; simpl.
  - split; [constructor | reflexivity].
  - destruct (existing_interval d b) as [e|[x y]] eqn:Hi.
    + split; [discriminate|]. intros H. inversion H; subst.
      destruct H2 as (x & y & Hxy & _). congruence.
    + destruct (overlaps ns ne x y) eqn:Ho.
      * split; [discriminate|]. intros H. inversion H; subst.
        destruct H2 as (x' & y' & Hxy & Hno). rewrite Hi in Hxy. inversion Hxy; subst.
        congruence.
      * rewrite IH. split.
        -- intros H. constructor; [exists x, y; auto | exact H].
        -- intros H. now inversion H.
Qed.

(** The loop stops at the first booking that overlaps or cannot be given an
    interval; what follows it in the list is not examined. *)
Lemma find_conflict_app (d : pyval) (ns ne : datetime) (before rest : list Booking.t) :
  Forall (passed_over d ns ne) before ->
  find_conflict d ns ne (before ++ rest) = find_conflict d ns ne rest.
Proof.
  induction 1 as [|b before (x & y & Hi & Hno) _ IH]; simpl; [reflexivity|].
  now rewrite Hi, Hno.
Qed.

Lemma find_conflict_first (d : pyval) (ns ne : datetime) (l : list Booking.t)
  (b : Booking.t) :
  find_conflict d ns ne l = inr (Some b) ->
  exists before after existing_start existing_end,
    l = (before ++ b :: after)%list
    /\ Forall (passed_over d ns ne) before
    /\ existing_interval d b = inr (existing_start, existing_end)
    /\ overlaps ns ne existing_start existing_end = true.
Proof.
  induction l as [|b0 l IH]; simpl; [discriminate|].
  destruct (existing_interval d b0) as [e|[x y]] eqn:Hi; [discriminate|].
  destruct (overlaps ns ne x y) eqn:Ho.
  - intros H; inversion H; subst. exists [], l, x, y. repeat split; auto.
  - intros H. destruct (IH H) as (before & after & x' & y' & -> & Hb & Hi' & Ho').
    exists (b0 :: before), after, x', y'. repeat split; auto.
    constructor; [exists x, y; auto | exact Hb].
Qed.

Section CheckerMore.
Context {Store : Type} (driver : Driver Store).

(** X10. The checker only reads.  It sends one query for the table (by id, one
    row) and stops there unless the table is found active; then it sends one
    query for the bookings of that table and date, and nothing else. *)
Theorem check_table_availability_queries
  (table_id booking_date booking_time booking_end_time exclude_booking_id : pyval)
  (w : world Store) :
  exists r w',
    check_table_availability driver table_id booking_date booking_time
      booking_end_time exclude_booking_id w = (inr r, w')
    /\ clock w' = clock w
    /\ ((table_active r = false
         /\ exists e,
             new_events w w'
             = [(Select "restaurant_tables" [("id", table_id)] (Some 1), e)])
        \/ (table_active r = true
            /\ exists e,
                new_events w w'
                = [(Select "restaurant_tables" [("id", table_id)] (Some 1), None);
                   (Select "bookings"
                      [("table_id", table_id); ("booking_date", booking_date)] None,
                    e)])).
Proof.
  unfold check_table_availability, read_table, read_bookings, return_result_on_error.
  unfold_monad. unfold RestaurantTable.get_table_name, Booking.get_table_name.
  destruct (exec_select driver "restaurant_tables" _ _ (store w)) as [[e|rows] s1];
    simpl.
  { do 2 eexists. split; [reflexivity|]. split; [reflexivity|]. left.
    split; [reflexivity|]. eexists. apply new_events_app. reflexivity. }
  destruct rows as [|[|c row] rows];
    try (do 2 eexists; split; [reflexivity|]; split; [reflexivity|]; left;
         split; [reflexivity|]; eexists; apply new_events_app; reflexivity).
  destruct (truthy (RestaurantTable.is_active (RestaurantTable.from_dict (c :: row))));
    simpl;
    try (do 2 eexists; split; [reflexivity|]; split; [reflexivity|]; left;
         split; [reflexivity|]; eexists; apply new_events_app; reflexivity).
  destruct (exec_select driver "bookings" _ _ s1) as [[e|rows'] s2]; simpl.
  all: destruct (combine booking_date booking_time) as [e1|new_start]; simpl.
  all: try destruct (combine booking_date booking_end_time) as [e2|new_end]; simpl.
  all: try (destruct (find_conflict booking_date new_start new_end _) as [e3|[b|]];
            simpl).
  all: do 2 eexists; (split; [reflexivity|]); (split; [reflexivity|]); right;
    (split; [reflexivity|]); eexists; apply new_events_app; simpl;
    rewrite <- app_assoc; reflexivity.
Qed.

(** X11. Narrowing a request never makes it unavailable: if a window is reported
    available, every window inside it is reported available in the same
    world. *)
Theorem narrower_window_stays_available
  (table_id booking_date exclude_booking_id : pyval)
  (cand_start cand_end cand_start' cand_end' : time)
  (w w1 : world Store) (r : availability) :
  cand_start <= cand_start' -> cand_end' <= cand_end ->
  check_table_availability driver table_id booking_date (VTime cand_start)
    (VTime cand_end) exclude_booking_id w = (inr r, w1) ->
  available r = true ->
  exists r' w1',
    check_table_availability driver table_id booking_date (VTime cand_start')
      (VTime cand_end') exclude_booking_id w = (inr r', w1')
    /\ available r' = true.
Proof.
  intros Hs He Hrun Hav.
  destruct (check_table_availability_cases driver table_id booking_date
              (VTime cand_start) (VTime cand_end) exclude_booking_id w)
    as (r0 & w0 & Hrun0 & Hc).
  rewrite Hrun in Hrun0. inversion Hrun0; subst r0 w0; clear Hrun0.
  destruct Hc as [(u & _ & ->)|[(t & u & _ & _ & ->)|(t & u & bs & u2 & Ht & Hact & Hbs & ->)]];
    try discriminate.
  destruct (check_table_availability_cases driver table_id booking_date
              (VTime cand_start') (VTime cand_end') exclude_booking_id w)
    as (r' & w' & Hrun' & Hc').
  exists r', w'. split; [exact Hrun'|].
  destruct Hc' as [(u' & Ht' & _)|[(t' & u' & Ht' & Hact' & _)|(t' & u' & bs' & u2' & Ht' & _ & Hbs' & ->)]];
    rewrite Ht in Ht'; inversion Ht'; subst; try congruence.
  rewrite Hbs in Hbs'. inversion Hbs'; subst.
  unfold verdict in *.
  destruct booking_date as [| | | |d|t0|dt]; simpl in *; try discriminate.
  - destruct (find_conflict (VDate d) _ _ _) as [e|[b|]] eqn:E; try discriminate.
    apply find_conflict_none in E.
    assert (E' : Forall (passed_over (VDate d) (mk_datetime d cand_start')
                           (mk_datetime d cand_end'))
                   (active_bookings bs' exclude_booking_id)).
    { eapply Forall_impl; [|exact E]. intros b (x & y & Hi & Hno).
      exists x, y. split; [exact Hi|].
      eapply overlaps_narrower; [| |exact Hno]; apply dt_le_spec; simpl; lia. }
    apply find_conflict_none in E'. rewrite E'. reflexivity.
  - destruct (find_conflict (VDateTime dt) _ _ _) as [e|[b|]] eqn:E; try discriminate.
    apply find_conflict_none in E.
    assert (E' : Forall (passed_over (VDateTime dt) (mk_datetime (dt_date dt) cand_start')
                           (mk_datetime (dt_date dt) cand_end'))
                   (active_bookings bs' exclude_booking_id)).
    { eapply Forall_impl; [|exact E]. intros b (x & y & Hi & Hno).
      exists x, y. split; [exact Hi|].
      eapply overlaps_narrower; [| |exact Hno]; apply dt_le_spec; simpl; lia. }
    apply find_conflict_none in E'. rewrite E'. reflexivity.
Qed.

(** X12. The conflict reported is the first overlapping booking in the order the
    store returned the considered bookings: every considered booking before
    it was given an interval that does not overlap, and the bookings after
    it were not examined. *)
Theorem reported_conflict_is_first
  (table_id booking_date booking_time booking_end_time exclude_booking_id : pyval)
  (w w1 w2 w' : world Store) (t : RestaurantTable.t) (bs : list Booking.t)
  (r : availability) (b : Booking.t) :
  read_table driver table_id w = (inr (Some t), w1) ->
  read_bookings driver [("table_id", table_id); ("booking_date", booking_date)] w1
    = (inr bs, w2) ->
  check_table_availability driver table_id booking_date booking_time
    booking_end_time exclude_booking_id w = (inr r, w') ->
  conflicting_booking r = Some b ->
  exists before after new_start new_end existing_start existing_end,
    active_bookings bs exclude_booking_id = (before ++ b :: after)%list
    /\ combine booking_date booking_time = inr new_start
    /\ combine booking_date booking_end_time = inr new_end
    /\ Forall (passed_over booking_date new_start new_end) before
    /\ existing_interval booking_date b = inr (existing_start, existing_end)
    /\ overlaps new_start new_end existing_start existing_end = true.
Proof.
  intros Ht Hbs Hrun Hb.
  destruct (check_table_availability_cases driver table_id booking_date booking_time
              booking_end_time exclude_booking_id w)
    as (r0 & w0 & Hrun0 & Hc).
  rewrite Hrun in Hrun0. inversion Hrun0; subst r0 w0; clear Hrun0.
  destruct Hc as [(u & _ & ->)|[(t' & u & _ & _ & ->)|(t' & u & bs' & u2 & Ht' & _ & Hbs' & ->)]];
    try discriminate.
  rewrite Ht in Ht'. inversion Ht'; subst. rewrite Hbs in Hbs'. inversion Hbs'; subst.
  unfold verdict in Hb.
  destruct (combine booking_date booking_time) as [e|new_start]; [discriminate|].
  destruct (combine booking_date booking_end_time) as [e|new_end]; [discriminate|].
  destruct (find_conflict booking_date new_start new_end _) as [e|[b'|]] eqn:E;
    try discriminate.
  simpl in Hb. inversion Hb; subst b'.
  destruct (find_conflict_first _ _ _ _ _ E) as (before & after & x & y & Hl & Hp & Hi & Ho).
  exists before, after, new_start, new_end, x, y. auto 7.
Qed.

(** X13. One considered booking whose times cannot be made into an interval (a
    start time that is NULL, say) closes the table: if no considered booking
    before it overlaps the request, the result is unavailable and names no
    conflict, whatever the window asked for. *)
Theorem unreadable_booking_blocks_table
  (table_id booking_date exclude_booking_id : pyval) (cand_start cand_end : time)
  (w w1 w2 : world Store) (t : RestaurantTable.t) (bs before after : list Booking.t)
  (bad : Booking.t) (e : exn) (new_start new_end : datetime) :
  read_table driver table_id w = (inr (Some t), w1) ->
  truthy (RestaurantTable.is_active t) = true ->
  read_bookings driver [("table_id", table_id); ("booking_date", booking_date)] w1
    = (inr bs, w2) ->
  active_bookings bs exclude_booking_id = (before ++ bad :: after)%list ->
  combine booking_date (VTime cand_start) = inr new_start ->
  combine booking_date (VTime cand_end) = inr new_end ->
  Forall (passed_over booking_date new_start new_end) before ->
  existing_interval booking_date bad = inl e ->
  exists w',
    check_table_availability driver table_id booking_date (VTime cand_start)
      (VTime cand_end) exclude_booking_id w
    = (inr (mk_availability false true true None), w').
Proof.
  intros Ht Hact Hbs Hl Hns Hne Hbefore Hbad.
  destruct (check_table_availability_cases driver table_id booking_date
              (VTime cand_start) (VTime cand_end) exclude_booking_id w)
    as (r & w' & Hrun & Hc).
  exists w'. rewrite Hrun. f_equal. f_equal.
  destruct Hc as [(u & Ht' & _)|[(t' & u & Ht' & Hact' & _)|(t' & u & bs' & u2 & Ht' & _ & Hbs' & ->)]];
    rewrite Ht in Ht'; inversion Ht'; subst; try congruence.
  rewrite Hbs in Hbs'. inversion Hbs'; subst.
  unfold verdict. rewrite Hns, Hne, Hl, (find_conflict_app _ _ _ _ _ Hbefore).
  simpl. rewrite Hbad. reflexivity.
Qed.

End CheckerMore.

(** * The operations on the reference store *)

Lemma read_table_live (table_id : pyval) (w : world MemStore.t) :
  live (store w) ->
  exists w1,
    read_table MemStore.driver table_id w = (inr (stored_table (store w) table_id), w1)
    /\ store w1 = store w.
Proof.
  intros Hl. unfold read_table, stored_table. unfold_monad.
  cbn [exec_select MemStore.driver]. unfold MemStore.select.
  rewrite (live_tick _ Hl). unfold RestaurantTable.get_table_name.
  rewrite relation_tables.
  destruct (filter _ (MemStore.restaurant_tables (store w))) as [|[|c row] rows]; simpl;
    eexists; split; reflexivity.
Qed.

Lemma read_bookings_live (table_id booking_date : pyval) (w : world MemStore.t) :
  live (store w) ->
  exists w1,
    read_bookings MemStore.driver [("table_id", table_id); ("booking_date", booking_date)] w
    = (inr (stored_bookings (store w) table_id booking_date), w1)
    /\ store w1 = store w.
Proof.
  intros Hl. unfold read_bookings, stored_bookings. unfold_monad.
  cbn [exec_select MemStore.driver]. unfold MemStore.select.
  rewrite (live_tick _ Hl). unfold Booking.get_table_name. rewrite relation_bookings.
  eexists; split; reflexivity.
Qed.

Lemma select_live_same (table : string) (where_ : dict) (limit : option Z)
  (s : MemStore.t) :
  live s -> snd (exec_select MemStore.driver table where_ limit s) = s.
Proof.
  intros Hl. simpl. unfold MemStore.select. rewrite (live_tick _ Hl).
  destruct (MemStore.relation s table); reflexivity.
Qed.

(** With a connection that stays up, the checker answers what the
    relations of the store say, and leaves the store as it is. *)
Lemma check_table_availability_live
  (table_id booking_date booking_time booking_end_time exclude_booking_id : pyval)
  (w : world MemStore.t) :
  live (store w) ->
  exists w1,
    check_table_availability MemStore.driver table_id booking_date booking_time
      booking_end_time exclude_booking_id w
    = (inr (stored_verdict (store w) table_id booking_date booking_time
              booking_end_time exclude_booking_id), w1)
    /\ store w1 = store w.
Proof.
  intros Hl.
  destruct (check_table_availability_cases MemStore.driver table_id booking_date
              booking_time booking_end_time exclude_booking_id w)
    as (r & w1 & Hrun & Hc).
  exists w1. split.
  - rewrite Hrun. f_equal. f_equal.
    destruct (read_table_live table_id w Hl) as (u & Hu & Hsu).
    unfold stored_verdict.
    destruct Hc as [(u' & Ht & ->)|[(t & u' & Ht & Hact & ->)|(t & u' & bs & u2 & Ht & Hact & Hbs & ->)]];
      rewrite Hu in Ht; inversion Ht as [[Heq Hw]]; try rewrite Heq; try rewrite Hact;
      try reflexivity.
    subst u'.
    assert (Hlu : live (store u)) by (rewrite Hsu; exact Hl).
    destruct (read_bookings_live table_id booking_date u Hlu) as (u3 & Hu3 & _).
    rewrite Hu3 in Hbs. inversion Hbs. rewrite Hsu. reflexivity.
  - destruct (check_table_availability_effects MemStore.driver
                (fun a b => live a -> b = a)
                (fun a b c Hab Hbc Ha =>
                   eq_trans (Hbc (eq_ind_r live Ha (Hab Ha))) (Hab Ha))
                (fun t f l s Hs => select_live_same t f l s Hs)
                _ _ _ _ _ _ _ _ Hrun) as (_ & Hsame & _).
    exact (Hsame Hl).
Qed.

Lemma create_booking_live (b : Booking.t) (w : world MemStore.t) :
  live (store w) ->
  exists v w',
    create_booking MemStore.driver b w = (inr v, w')
    /\ live (store w')
    /\ MemStore.restaurant_tables (store w') = MemStore.restaurant_tables (store w)
    /\ match accepted_row (store w) b with
       | Some data =>
           v = VInt (MemStore.next_booking_id (store w))
           /\ MemStore.bookings (store w')
              = (MemStore.bookings (store w)
                   ++ [("id", VInt (MemStore.next_booking_id (store w))) :: data])%list
       | None => v = VNone /\ MemStore.bookings (store w') = MemStore.bookings (store w)
       end.
Proof.
  intros Hl. unfold create_booking, accepted_row.
  destruct (truthy (Booking.booking_end_time b)); cbn [negb andb].
  2:{ unfold_monad. do 2 eexists. split; [reflexivity|]. simpl. auto. }
  unfold try_except at 1. unfold bind at 1.
  destruct (check_table_availability_live (Booking.table_id b)
              (date_part (Booking.booking_date b)) (time_part (Booking.booking_time b))
              (time_part (Booking.booking_end_time b)) VNone w Hl) as (w1 & Hrun & Hs1).
  rewrite Hrun.
  set (r := stored_verdict _ _ _ _ _ _).
  destruct (available r); cbn [negb].
  2:{ destruct (table_exists r), (table_active r), (conflicting_booking r);
        cbn [negb]; unfold_monad;
        (do 2 eexists; split; [reflexivity|]; simpl; rewrite Hs1; auto). }
  destruct (Booking.to_dict b) as [e|data] eqn:Hd.
  { unfold_monad. do 2 eexists. split; [reflexivity|]. simpl. rewrite Hs1. auto. }
  pose proof (to_dict_fields b data Hd) as (_ & _ & Hid & Hne).
  destruct data as [|c data]; [congruence|].
  unfold_monad. cbn [exec_insert MemStore.driver]. unfold MemStore.insert.
  rewrite Hs1, (live_tick _ Hl). unfold Booking.get_table_name.
  simpl String.eqb. cbv iota. rewrite Hid.
  destruct (MemStore.booking_row_ok (store w) (c :: data)
            && negb (MemStore.has_id (MemStore.bookings (store w))
                       (VInt (MemStore.next_booking_id (store w))))); simpl;
    (do 2 eexists; split; [reflexivity|]; simpl; auto).
Qed.

Lemma ForallOrdPairs_snoc {A} (R : A -> A -> Prop) (l : list A) (x : A) :
  ForallOrdPairs R l -> Forall (fun y => R y x) l -> ForallOrdPairs R (l ++ [x]).
Proof.
  induction 1 as [|a l Ha Hl IH]; intros Hx; simpl.
  - constructor; constructor.
  - inversion Hx; subst. constructor.
    + apply Forall_app. split; [exact Ha | constructor; [assumption | constructor]].
    + apply IH. assumption.
Qed.

Lemma dict_get_cons_other (k0 k : string) (v : pyval) (d : dict) :
  k0 <> k -> dict_get ((k0, v) :: d) k = dict_get d k.
Proof.
  intros Hne. unfold dict_get, dict_get_default. simpl.
  destruct (String.eqb k0 k) eqn:E; [apply String.eqb_eq in E; contradiction | reflexivity].
Qed.

Lemma dict_get_default_cons_other (k0 k : string) (v default : pyval) (d : dict) :
  k0 <> k -> dict_get_default ((k0, v) :: d) k default = dict_get_default d k default.
Proof.
  intros Hne. unfold dict_get_default. simpl.
  destruct (String.eqb k0 k) eqn:E; [apply String.eqb_eq in E; contradiction | reflexivity].
Qed.

(** The columns of the row of [to_dict] that say where and when the
    booking is, and its status. *)
Lemma to_dict_columns (b : Booking.t) (data : dict) :
  Booking.to_dict b = inr data ->
  dict_lookup data "table_id" = Some (Booking.table_id b)
  /\ dict_lookup data "booking_date" = Some (date_part (Booking.booking_date b))
  /\ dict_lookup data "booking_time" = Some (time_part (Booking.booking_time b))
  /\ dict_lookup data "status" = Some (Booking.status b).
Proof.
  unfold Booking.to_dict.
  destruct (is_none (Booking.booking_end_time b)); simpl.
  - destruct (Booking.default_end_time b) as [e|[v|]]; intros H; inversion H; subst;
      simpl; auto.
  - intros H; inversion H; subst; simpl; auto.
Qed.

Lemma get_of_lookup (d : dict) (k : string) (v : pyval) :
  dict_lookup d k = Some v -> dict_get d k = v.
Proof. intros H. unfold dict_get, dict_get_default. now rewrite H. Qed.

Lemma get_default_of_lookup (d : dict) (k : string) (v default : pyval) :
  dict_lookup d k = Some v -> dict_get_default d k default = v.
Proof. intros H. unfold dict_get_default. now rewrite H. Qed.

Lemma booking_row_ok_window (s : MemStore.t) (row : dict) :
  MemStore.booking_row_ok s row = true ->
  exists d start stop, row_window row d start stop /\ stop > start.
Proof.
  intros H. pose proof (booking_row_ok_inv s row H) as [(start & stop & Hs & He & Hlt) _].
  unfold MemStore.booking_row_ok in H. rewrite !andb_true_iff in H.
  destruct H as [[[[[_ _] Hd] _] _] _].
  destruct (dict_get row "booking_date") eqn:E; try discriminate.
  exists d, start, stop. unfold row_window. auto.
Qed.

Lemma row_window_interval (row : dict) (d : date) (start stop : time) :
  row_window row d start stop ->
  existing_interval (VDate d) (Booking.from_dict row)
  = inr (mk_datetime d start, mk_datetime d stop).
Proof.
  intros (_ & Hs & He). unfold existing_interval, Booking.from_dict.
  cbn [Booking.booking_time Booking.booking_end_time]. rewrite Hs, He. reflexivity.
Qed.

Lemma accepted_row_inv (s : MemStore.t) (b : Booking.t) (data : dict) :
  accepted_row s b = Some data ->
  available (stored_verdict s (Booking.table_id b) (date_part (Booking.booking_date b))
               (time_part (Booking.booking_time b))
               (time_part (Booking.booking_end_time b)) VNone) = true
  /\ Booking.to_dict b = inr data
  /\ MemStore.booking_row_ok s data = true
  /\ MemStore.has_id (MemStore.bookings s) (VInt (MemStore.next_booking_id s)) = false.
Proof.
  unfold accepted_row.
  destruct (truthy (Booking.booking_end_time b)); [|discriminate]. cbn [andb].
  destruct (available _); [|discriminate].
  destruct (Booking.to_dict b) as [e|data0]; [discriminate|].
  destruct (MemStore.booking_row_ok s data0) eqn:Hok; [|discriminate]. cbn [andb].
  destruct (MemStore.has_id _ _); [discriminate|].
  intros H; inversion H; subst. auto.
Qed.

Lemma stored_verdict_available (s : MemStore.t) (tid d ts te ex : pyval) :
  available (stored_verdict s tid d ts te ex) = true ->
  exists t new_start new_end,
    stored_table s tid = Some t
    /\ truthy (RestaurantTable.is_active t) = true
    /\ combine d ts = inr new_start
    /\ combine d te = inr new_end
    /\ Forall (passed_over d new_start new_end)
         (active_bookings (stored_bookings s tid d) ex).
Proof.
  unfold stored_verdict.
  destruct (stored_table s tid) as [t|]; [|discriminate].
  destruct (truthy (RestaurantTable.is_active t)) eqn:Hact; [|discriminate].
  unfold verdict.
  destruct (combine d ts) as [e|ns]; [discriminate|].
  destruct (combine d te) as [e|ne]; [discriminate|].
  destruct (find_conflict d ns ne _) as [e|[b|]] eqn:E; try discriminate.
  intros _. exists t, ns, ne. repeat split; auto. now apply find_conflict_none.
Qed.

(** A row of the store on the table and date of a request, with a status
    that counts, is among the bookings that the checker considers. *)
Lemma stored_row_considered (s : MemStore.t) (row : dict) (tid d : pyval) :
  In row (MemStore.bookings s) ->
  sql_eq (dict_get row "table_id") tid = true ->
  sql_eq (dict_get row "booking_date") d = true ->
  row_active row ->
  In (Booking.from_dict row) (active_bookings (stored_bookings s tid d) VNone).
Proof.
  intros Hin Ht Hd Hact. unfold active_bookings, stored_bookings.
  apply filter_In. split.
  - apply in_map. apply filter_In. split; [exact Hin|].
    unfold MemStore.row_matches. simpl. now rewrite Ht, Hd.
  - unfold is_considered. unfold row_active in Hact. now rewrite Hact.
Qed.

Lemma sql_eq_refl_date (d : date) : sql_eq (VDate d) (VDate d) = true.
Proof. simpl. apply Z.eqb_refl. Qed.

(** X14. On a store whose connection stays up, [create_booking] keeps the
    bookings free of double bookings: if no two active bookings of the store
    overlap on a table and date before the call, none do after it, whether
    the booking was accepted or not. *)
Theorem create_booking_keeps_no_double_booking (b : Booking.t) (w : world MemStore.t) :
  live (store w) ->
  no_double_booking (store w) ->
  no_double_booking (store (snd (create_booking MemStore.driver b w))).
Proof.
  intros Hl Hinv.
  destruct (create_booking_live b w Hl) as (v & w' & Hrun & _ & _ & Hacc).
  rewrite Hrun. cbn [snd]. unfold no_double_booking in *.
  destruct (accepted_row (store w) b) as [data|] eqn:Ha.
  2:{ destruct Hacc as [_ ->]. exact Hinv. }
  destruct Hacc as [_ ->].
  apply accepted_row_inv in Ha. destruct Ha as (Hav & Hd & Hok & _).
  apply ForallOrdPairs_snoc; [exact Hinv|].
  apply Forall_forall. intros row Hin (Hact & _ & Htab & d & s1 & e1 & s2 & e2 & Hw1 & Hw2 & Hov).
  set (new_id := VInt (MemStore.next_booking_id (store w))) in *.
  destruct (to_dict_columns b data Hd) as (Ctab & Cdate & Ctime & _).
  pose proof (to_dict_fields b data Hd) as ((_ & _ & Cend) & _).
  destruct Hw2 as (Hd2 & Hs2 & He2).
  rewrite dict_get_cons_other in Hd2, Hs2, He2, Htab by discriminate.
  rewrite (get_of_lookup _ _ _ Ctab) in Htab.
  rewrite (get_of_lookup _ _ _ Cdate) in Hd2.
  rewrite (get_of_lookup _ _ _ Ctime) in Hs2.
  assert (Hpresent : Booking.booking_end_time b <> VNone).
  { intros H0. pose proof Hav as Hav'. apply stored_verdict_available in Hav'.
    destruct Hav' as (_ & _ & ne & _ & _ & _ & Hne & _).
    rewrite H0 in Hne. destruct (date_part (Booking.booking_date b)); discriminate. }
  rewrite (Cend Hpresent) in He2.
  apply stored_verdict_available in Hav.
  destruct Hav as (_ & ns & ne & _ & _ & Hns & Hne & Hpass).
  rewrite Hd2, Hs2 in Hns. rewrite Hd2, He2 in Hne.
  simpl in Hns, Hne. inversion Hns; inversion Hne; subst ns ne.
  rewrite Forall_forall in Hpass.
  assert (Hrow : In (Booking.from_dict row)
                   (active_bookings
                      (stored_bookings (store w) (Booking.table_id b)
                         (date_part (Booking.booking_date b))) VNone)).
  { apply stored_row_considered; auto.
    destruct Hw1 as (Hd1 & _). rewrite Hd1, Hd2. apply sql_eq_refl_date. }
  destruct (Hpass _ Hrow) as (x & y & Hi & Hno).
  rewrite Hd2, (row_window_interval row d s1 e1 Hw1) in Hi. inversion Hi; subst x y.
  assert (Hclash : intervals_overlap s2 e2 s1 e1)
    by (unfold intervals_overlap in *; lia).
  apply (overlaps_same_day d) in Hclash. congruence.
Qed.

Lemma sql_eq_right_refl (a b : pyval) : sql_eq a b = true -> sql_eq b b = true.
Proof.
  destruct a, b; simpl; try discriminate; intros _;
    rewrite ?Z.eqb_refl, ?String.eqb_refl, ?Bool.eqb_reflx; reflexivity.
Qed.

Lemma has_id_right_refl (rows : list dict) (v : pyval) :
  MemStore.has_id rows v = true -> sql_eq v v = true.
Proof.
  unfold MemStore.has_id. intros H. apply existsb_exists in H.
  destruct H as (r & _ & H). eapply sql_eq_right_refl; eauto.
Qed.

Lemma has_id_false_filter (rows : list dict) (v : pyval) :
  MemStore.has_id rows v = false ->
  filter (MemStore.row_matches [("id", v)]) rows = [].
Proof.
  unfold MemStore.has_id. induction rows as [|r rows IH]; simpl; [reflexivity|].
  intros H. apply orb_false_iff in H. destruct H as [Hr Hrows].
  unfold MemStore.row_matches at 1. simpl. rewrite Hr. simpl. auto.
Qed.

Lemma booking_row_ok_table (s : MemStore.t) (row : dict) :
  MemStore.booking_row_ok s row = true ->
  sql_eq (dict_get row "table_id") (dict_get row "table_id") = true.
Proof.
  unfold MemStore.booking_row_ok. rewrite !andb_true_iff.
  intros [[[[[_ Ht] _] _] _] _]. eapply has_id_right_refl; eauto.
Qed.

(** What [create_booking] leaves behind when it returns an id. *)
Lemma create_booking_accepted (b : Booking.t) (w w' : world MemStore.t) (v : pyval) :
  live (store w) ->
  create_booking MemStore.driver b w = (inr v, w') ->
  v <> VNone ->
  exists data,
    accepted_row (store w) b = Some data
    /\ v = VInt (MemStore.next_booking_id (store w))
    /\ live (store w')
    /\ MemStore.restaurant_tables (store w') = MemStore.restaurant_tables (store w)
    /\ MemStore.bookings (store w')
       = (MemStore.bookings (store w) ++ [("id", v) :: data])%list.
Proof.
  intros Hl Hrun Hv.
  destruct (create_booking_live b w Hl) as (v0 & w0 & Hrun0 & Hl' & Htab & Hacc).
  rewrite Hrun in Hrun0. inversion Hrun0; subst v0 w0.
  destruct (accepted_row (store w) b) as [data|].
  - destruct Hacc as [-> Hb]. exists data. auto.
  - destruct Hacc as [-> _]. congruence.
Qed.

(** X15. On a store whose connection stays up: once [create_booking] has
    returned an id for a pending or confirmed booking, asking the checker
    for the same table, date and window reports it unavailable and names the
    booking just created. *)
Theorem created_booking_blocks_its_window (b : Booking.t) (w w' : world MemStore.t)
  (v : pyval) :
  live (store w) ->
  create_booking MemStore.driver b w = (inr v, w') ->
  v <> VNone ->
  py_in (Booking.status b) [VStr "pending"; VStr "confirmed"] = true ->
  exists r w'' c,
    check_table_availability MemStore.driver (Booking.table_id b)
      (date_part (Booking.booking_date b)) (time_part (Booking.booking_time b))
      (time_part (Booking.booking_end_time b)) VNone w' = (inr r, w'')
    /\ available r = false
    /\ conflicting_booking r = Some c
    /\ Booking.id c = v.
Proof.
  intros Hl Hrun Hv Hst.
  destruct (create_booking_accepted b w w' v Hl Hrun Hv)
    as (data & Ha & Hvid & Hl' & Htab & Hb).
  apply accepted_row_inv in Ha. destruct Ha as (Hav & Hd & Hok & _).
  destruct (check_table_availability_live (Booking.table_id b)
              (date_part (Booking.booking_date b)) (time_part (Booking.booking_time b))
              (time_part (Booking.booking_end_time b)) VNone w' Hl') as (w'' & Hchk & _).
  exists (stored_verdict (store w') (Booking.table_id b)
            (date_part (Booking.booking_date b)) (time_part (Booking.booking_time b))
            (time_part (Booking.booking_end_time b)) VNone), w'',
    (Booking.from_dict (("id", v) :: data)).
  split; [exact Hchk|].
  destruct (to_dict_columns b data Hd) as (Ctab & Cdate & Ctime & Cst).
  pose proof (to_dict_fields b data Hd) as ((_ & _ & Cend) & _).
  destruct (booking_row_ok_window _ _ Hok) as (d & s & e & (Hd2 & Hs2 & He2) & Hlt).
  pose proof (booking_row_ok_table _ _ Hok) as Htid.
  rewrite (get_of_lookup _ _ _ Ctab) in Htid.
  rewrite (get_of_lookup _ _ _ Cdate) in Hd2.
  rewrite (get_of_lookup _ _ _ Ctime) in Hs2.
  apply stored_verdict_available in Hav.
  destruct Hav as (t & ns & ne & Htbl & Hact & Hns & Hne & Hpass).
  assert (Hpresent : Booking.booking_end_time b <> VNone).
  { intros H0. rewrite H0 in Hne.
    destruct (date_part (Booking.booking_date b)); discriminate. }
  rewrite (Cend Hpresent) in He2.
  assert (Hnew : row_window (("id", v) :: data) d s e).
  { unfold row_window. rewrite !dict_get_cons_other by discriminate.
    rewrite (get_of_lookup _ _ _ Cdate), (get_of_lookup _ _ _ Ctime), (Cend Hpresent).
    auto. }
  assert (Hfetch :
            active_bookings
              (stored_bookings (store w') (Booking.table_id b)
                 (date_part (Booking.booking_date b))) VNone
            = (active_bookings
                 (stored_bookings (store w) (Booking.table_id b)
                    (date_part (Booking.booking_date b))) VNone
                 ++ [Booking.from_dict (("id", v) :: data)])%list).
  { unfold active_bookings, stored_bookings. rewrite Hb, filter_app, map_app, filter_app.
    f_equal.
    assert (Hm : MemStore.row_matches
                   [("table_id", Booking.table_id b);
                    ("booking_date", date_part (Booking.booking_date b))]
                   (("id", v) :: data) = true).
    { unfold MemStore.row_matches. cbn [forallb fst snd].
      rewrite !dict_get_cons_other by discriminate.
      rewrite (get_of_lookup _ _ _ Ctab), (get_of_lookup _ _ _ Cdate), Htid, Hd2.
      rewrite sql_eq_refl_date. reflexivity. }
    assert (Hc : is_considered VNone (Booking.from_dict (("id", v) :: data)) = true).
    { unfold is_considered, Booking.from_dict. cbn [Booking.status Booking.id].
      rewrite dict_get_default_cons_other by discriminate.
      rewrite (get_default_of_lookup _ _ _ _ Cst), Hst. reflexivity. }
    cbn [filter]. rewrite Hm. cbn [map filter]. rewrite Hc. reflexivity. }
  unfold stored_verdict.
  assert (Htbl' : stored_table (store w') (Booking.table_id b) = Some t)
    by (unfold stored_table in *; rewrite Htab; exact Htbl).
  rewrite Htbl', Hact. unfold verdict. rewrite Hns, Hne, Hfetch.
  rewrite (find_conflict_app _ _ _ _ _ Hpass). simpl.
  rewrite Hd2 in *. rewrite (row_window_interval _ d s e Hnew).
  rewrite Hs2 in Hns. rewrite He2 in Hne. simpl in Hns, Hne.
  inversion Hns; inversion Hne; subst ns ne.
  assert (Hov : overlaps (mk_datetime d s) (mk_datetime d e) (mk_datetime d s)
                  (mk_datetime d e) = true)
    by (apply overlaps_same_day; unfold intervals_overlap; lia).
  rewrite Hov. simpl. repeat split; reflexivity.
Qed.

(** The row that the reference store holds for a booking just created. *)
Lemma created_row_found (b : Booking.t) (w w' : world MemStore.t) (v : pyval) :
  live (store w) ->
  create_booking MemStore.driver b w = (inr v, w') ->
  v <> VNone ->
  exists data w'',
    Booking.to_dict b = inr data
    /\ truthy (Booking.booking_end_time b) = true
    /\ PostgreSQLDriver.read_by_id MemStore.driver "bookings" v w'
       = (inr (Some (("id", v) :: data)), w'').
Proof.
  intros Hl Hrun Hv.
  destruct (create_booking_accepted b w w' v Hl Hrun Hv)
    as (data & Ha & Hvid & Hl' & _ & Hb).
  assert (Hend : truthy (Booking.booking_end_time b) = true).
  { unfold accepted_row in Ha.
    destruct (truthy (Booking.booking_end_time b)); [reflexivity | discriminate]. }
  apply accepted_row_inv in Ha. destruct Ha as (_ & Hd & _ & Hfresh).
  exists data. eexists. split; [exact Hd|]. split; [exact Hend|].
  unfold_monad. cbn [exec_select MemStore.driver]. unfold MemStore.select.
  rewrite (live_tick _ Hl'), relation_bookings, Hb, filter_app.
  rewrite <- Hvid in Hfresh. rewrite (has_id_false_filter _ _ Hfresh).
  simpl. unfold MemStore.row_matches. simpl.
  unfold dict_get, dict_get_default. simpl. rewrite Hvid. simpl. rewrite Z.eqb_refl.
  simpl. reflexivity.
Qed.

(** X16. On a store whose connection stays up: the id that [create_booking]
    returns is the id under which the booking can be read back, and the
    booking read holds that id and the user, table, date, start time, end
    time (of a datetime, its date or its time of day), guest count and
    status that were given.  Nothing is said of the order of the columns in
    the row. *)
Theorem created_booking_is_read_back (b : Booking.t) (w w' : world MemStore.t)
  (v : pyval) :
  live (store w) ->
  create_booking MemStore.driver b w = (inr v, w') ->
  v <> VNone ->
  exists row w'',
    PostgreSQLDriver.read_by_id MemStore.driver "bookings" v w' = (inr (Some row), w'')
    /\ Booking.id (Booking.from_dict row) = v
    /\ Booking.user_id (Booking.from_dict row) = Booking.user_id b
    /\ Booking.table_id (Booking.from_dict row) = Booking.table_id b
    /\ Booking.booking_date (Booking.from_dict row) = date_part (Booking.booking_date b)
    /\ Booking.booking_time (Booking.from_dict row) = time_part (Booking.booking_time b)
    /\ Booking.booking_end_time (Booking.from_dict row)
       = time_part (Booking.booking_end_time b)
    /\ Booking.number_of_guests (Booking.from_dict row) = Booking.number_of_guests b
    /\ Booking.status (Booking.from_dict row) = Booking.status b.
Proof.
  intros Hl Hrun Hv.
  destruct (created_row_found b w w' v Hl Hrun Hv) as (data & w'' & Hd & Hend & Hread).
  exists (("id", v) :: data), w''. split; [exact Hread|].
  unfold Booking.to_dict in Hd.
  destruct (Booking.booking_end_time b) eqn:He; simpl in Hend; try discriminate;
    simpl in Hd; inversion Hd; subst data; repeat split; reflexivity.
Qed.

Lemma filter_filter_negb {A} (f : A -> bool) (l : list A) :
  filter f (filter (fun x => negb (f x)) l) = [].
Proof.
  induction l as [|x l IH]; simpl; [reflexivity|].
  destruct (f x) eqn:E; simpl; [exact IH | now rewrite E].
Qed.

Lemma filter_negb_no_hit {A} (f : A -> bool) (l : list A) :
  filter f l = [] -> filter (fun x => negb (f x)) l = l.
Proof.
  induction l as [|x l IH]; simpl; [reflexivity|].
  destruct (f x); [discriminate|]. simpl. intros H. now rewrite IH.
Qed.

Lemma delete_booking_live (booking_id : pyval) (w : world MemStore.t) :
  live (store w) ->
  exists v w',
    delete_booking MemStore.driver booking_id w = (inr v, w')
    /\ live (store w')
    /\ MemStore.bookings (store w')
       = filter (fun r => negb (MemStore.row_matches [("id", booking_id)] r))
           (MemStore.bookings (store w)).
Proof.
  intros Hl. unfold delete_booking. unfold_monad. cbn [exec_delete MemStore.driver].
  unfold MemStore.delete, Booking.get_table_name. rewrite (live_tick _ Hl).
  simpl String.eqb. cbv iota. do 2 eexists. split; [reflexivity|].
  split; [exact Hl | reflexivity].
Qed.

(** X17. Deleting twice on a store whose connection stays up: whether or not
    the first [delete_booking] removed a row, a second call with the same id
    returns [False] and leaves the bookings as the first call left them. *)
Theorem delete_booking_twice (booking_id : pyval) (w : world MemStore.t) :
  live (store w) ->
  exists v1 w1 w2,
    delete_booking MemStore.driver booking_id w = (inr v1, w1)
    /\ delete_booking MemStore.driver booking_id w1 = (inr false, w2)
    /\ MemStore.bookings (store w2) = MemStore.bookings (store w1).
Proof.
  intros Hl.
  destruct (delete_booking_live booking_id w Hl) as (v1 & w1 & H1 & Hl1 & Hb).
  exists v1, w1. rewrite H1.
  unfold delete_booking. unfold_monad. cbn [exec_delete MemStore.driver].
  unfold MemStore.delete, Booking.get_table_name. rewrite (live_tick _ Hl1).
  simpl String.eqb. cbv iota.
  assert (Hnone : filter (MemStore.row_matches [("id", booking_id)])
                    (MemStore.bookings (store w1)) = [])
    by (rewrite Hb; apply filter_filter_negb).
  rewrite Hnone. eexists. split; [reflexivity|]. split; [reflexivity|].
  cbn [store MemStore.with_bookings MemStore.bookings].
  apply filter_negb_no_hit. exact Hnone.
Qed.

(** X18. An id that no row of [bookings] carries: [update_booking] returns
    [False] and changes no booking. *)
Theorem update_booking_unknown_id (booking_id : pyval) (b : Booking.t)
  (w : world MemStore.t) :
  MemStore.has_id (MemStore.bookings (store w)) booking_id = false ->
  exists w',
    update_booking MemStore.driver booking_id b w = (inr false, w')
    /\ MemStore.bookings (store w') = MemStore.bookings (store w).
Proof.
  intros Hno. unfold update_booking. unfold_monad.
  destruct (Booking.to_dict b) as [e|data]; [eexists; split; reflexivity|].
  destruct (dict_set data "updated_at" (VDateTime (clock w))) as [|c data'];
    [eexists; split; reflexivity|].
  cbn [exec_update MemStore.driver]. unfold MemStore.update, Booking.get_table_name.
  destruct (MemStore.tick (store w)) as [s1|] eqn:T; [|eexists; split; reflexivity].
  pose proof (tick_same_bookings _ _ T) as Hsame. unfold same_bookings in Hsame.
  simpl String.eqb. cbv iota.
  rewrite <- Hsame in Hno. pose proof (has_id_false_filter _ _ Hno) as Hf.
  rewrite Hf. simpl. eexists. split; [reflexivity|]. simpl.
  rewrite map_if_no_hit by exact Hf. exact Hsame.
Qed.

Lemma to_dict_no_id (b : Booking.t) (row : dict) :
  Booking.to_dict b = inr row -> last_binding row "id" = None.
Proof.
  unfold Booking.to_dict.
  destruct (is_none (Booking.booking_end_time b)); simpl.
  - destruct (Booking.default_end_time b) as [e|[v|]]; intros H; inversion H; subst;
      reflexivity.
  - intros H; inversion H; subst; reflexivity.
Qed.

Lemma filter_map_fixed {A} (p : A -> bool) (f : A -> A) (l : list A) :
  (forall x, p (f x) = p x) -> (forall x, p x = true -> f x = x) ->
  filter p (map f l) = filter p l.
Proof.
  intros Hp Hf. induction l as [|x l IH]; simpl; [reflexivity|].
  rewrite Hp, IH. destruct (p x) eqn:E; [now rewrite (Hf x E) | reflexivity].
Qed.

(** X19. [update_booking] with an integer id never adds, removes or renumbers
    bookings, and changes no row that carries another id: the ids held by
    the store after the call are the ids held before it, and the rows with
    another id are the same rows, both up to the order of the rows. *)
Theorem update_booking_touches_only_its_row (booking_id : Z) (b : Booking.t)
  (w : world MemStore.t) :
  Permutation
    (map (fun row => dict_get row "id") (MemStore.bookings (store w)))
    (map (fun row => dict_get row "id")
       (MemStore.bookings
          (store (snd (update_booking MemStore.driver (VInt booking_id) b w)))))
  /\ Permutation
       (filter (fun row => negb (sql_eq (dict_get row "id") (VInt booking_id)))
          (MemStore.bookings (store w)))
       (filter (fun row => negb (sql_eq (dict_get row "id") (VInt booking_id)))
          (MemStore.bookings
             (store (snd (update_booking MemStore.driver (VInt booking_id) b w))))).
Proof.
  unfold update_booking. unfold_monad.
  destruct (Booking.to_dict b) as [e|row] eqn:Hd; [split; apply Permutation_refl|].
  destruct (dict_set row "updated_at" (VDateTime (clock w))) as [|c data'] eqn:E;
    [split; apply Permutation_refl|].
  cbn [exec_update MemStore.driver]. unfold MemStore.update, Booking.get_table_name.
  destruct (MemStore.tick (store w)) as [s1|] eqn:T; [|split; apply Permutation_refl].
  pose proof (tick_same_bookings _ _ T) as Hb. unfold same_bookings in Hb.
  simpl String.eqb. cbv iota.
  destruct (forallb (MemStore.booking_row_ok s1) _); cbn [snd fst store];
    [|rewrite Hb; split; apply Permutation_refl].
  cbn [MemStore.with_bookings MemStore.bookings]. rewrite Hb.
  assert (Hid : forall r,
             dict_get (if MemStore.row_matches [("id", VInt booking_id)] r
                       then MemStore.apply_update (c :: data') r else r) "id"
             = dict_get r "id").
  { intros r. destruct (MemStore.row_matches _ r); [|reflexivity].
    unfold dict_get, dict_get_default. rewrite dict_lookup_apply_update.
    rewrite <- E, last_binding_set_other by discriminate.
    now rewrite (to_dict_no_id b row Hd). }
  split.
  - rewrite map_map. rewrite (map_ext _ _ Hid). apply Permutation_refl.
  - rewrite filter_map_fixed; [apply Permutation_refl| |].
    + intros r. now rewrite Hid.
    + intros r Hr. apply negb_true_iff in Hr.
      unfold MemStore.row_matches. simpl. now rewrite Hr.
Qed.

(** X20. On a store whose connection stays up: after [delete_booking], no
    availability check, for any table, date or window, names a booking with
    the deleted id as a conflict. *)
Theorem deleted_booking_never_conflicts (booking_id : pyval)
  (table_id booking_date booking_time booking_end_time exclude_booking_id : pyval)
  (w w1 w2 : world MemStore.t) (v : bool) (r : availability) (c : Booking.t) :
  live (store w) ->
  delete_booking MemStore.driver booking_id w = (inr v, w1) ->
  check_table_availability MemStore.driver table_id booking_date booking_time
    booking_end_time exclude_booking_id w1 = (inr r, w2) ->
  conflicting_booking r = Some c ->
  sql_eq (Booking.id c) booking_id = false.
Proof.
  intros Hl Hdel Hchk Hc.
  destruct (delete_booking_live booking_id w Hl) as (v0 & w0 & Hdel0 & Hl1 & Hb).
  rewrite Hdel in Hdel0. inversion Hdel0; subst v0 w0.
  destruct (check_table_availability_live table_id booking_date booking_time
              booking_end_time exclude_booking_id w1 Hl1) as (w2' & Hchk' & _).
  rewrite Hchk in Hchk'. inversion Hchk'; subst r.
  unfold stored_verdict in Hc.
  destruct (stored_table (store w1) table_id) as [t|]; [|discriminate].
  destruct (truthy (RestaurantTable.is_active t)); [|discriminate].
  apply verdict_conflict_considered in Hc. destruct Hc as [Hin _].
  unfold stored_bookings in Hin. apply in_map_iff in Hin.
  destruct Hin as (row & <- & Hrow). apply filter_In in Hrow. destruct Hrow as [Hrow _].
  rewrite Hb in Hrow. apply filter_In in Hrow. destruct Hrow as [_ Hm].
  apply negb_true_iff in Hm. unfold MemStore.row_matches in Hm. simpl in Hm.
  rewrite andb_true_r in Hm. exact Hm.
Qed.

Lemma sql_eq_sym (a b : pyval) : sql_eq a b = sql_eq b a.
Proof.
  destruct a, b; simpl; try reflexivity;
    rewrite ?(Z.eqb_sym z), ?(Z.eqb_sym d), ?(Z.eqb_sym t),
      ?(Z.eqb_sym (dt_date dt)), ?(Z.eqb_sym (dt_time dt)), ?(String.eqb_sym s);
    try reflexivity.
  destruct b0, b; reflexivity.
Qed.

Lemma sql_eq_date (v : pyval) (d : date) : sql_eq v (VDate d) = true -> v = VDate d.
Proof.
  destruct v; simpl; try discriminate. intros H. apply Z.eqb_eq in H. now subst.
Qed.

(** X21. Re-checking a stored booking against itself.  On a store whose
    connection stays up, whose bookings all hold a date, a start and an end
    time, and where no two active bookings overlap: the window of an active
    stored booking, asked for with that booking excluded, is available as
    long as its table is active. *)
Theorem stored_booking_window_free_when_excluded
  (w : world MemStore.t) (row : dict) (n : Z) (d : date) (start stop : time)
  (t : RestaurantTable.t) :
  live (store w) ->
  no_double_booking (store w) ->
  Forall (fun r => exists d0 s0 e0, row_window r d0 s0 e0) (MemStore.bookings (store w)) ->
  In row (MemStore.bookings (store w)) ->
  row_active row ->
  dict_get row "id" = VInt n ->
  row_window row d start stop ->
  stored_table (store w) (dict_get row "table_id") = Some t ->
  truthy (RestaurantTable.is_active t) = true ->
  exists w',
    check_table_availability MemStore.driver (dict_get row "table_id") (VDate d)
      (VTime start) (VTime stop) (VInt n) w
    = (inr (mk_availability true true true None), w').
Proof.
  intros Hl Hinv Hall Hin Hact Hid Hwin Htbl Hon.
  destruct (check_table_availability_live (dict_get row "table_id") (VDate d)
              (VTime start) (VTime stop) (VInt n) w Hl) as (w' & Hchk & _).
  exists w'. rewrite Hchk. f_equal. f_equal.
  unfold stored_verdict. rewrite Htbl, Hon. unfold verdict. cbn [combine].
  assert (Hpass : Forall (passed_over (VDate d) (mk_datetime d start) (mk_datetime d stop))
                    (active_bookings
                       (stored_bookings (store w) (dict_get row "table_id") (VDate d))
                       (VInt n))).
  { apply Forall_forall. intros c Hc.
    unfold active_bookings in Hc. apply filter_In in Hc. destruct Hc as [Hc Hcons].
    unfold stored_bookings in Hc. apply in_map_iff in Hc.
    destruct Hc as (r' & <- & Hr'). apply filter_In in Hr'. destruct Hr' as [Hr'in Hm].
    unfold MemStore.row_matches in Hm. simpl in Hm.
    rewrite andb_true_r in Hm. apply andb_true_iff in Hm. destruct Hm as [Htab Hdate].
    apply sql_eq_date in Hdate.
    unfold is_considered in Hcons. apply andb_true_iff in Hcons.
    destruct Hcons as [Hst Hother]. cbn [is_none orb] in Hother.
    apply negb_true_iff in Hother.
    unfold Booking.from_dict in Hother. cbn [Booking.id] in Hother.
    rewrite Forall_forall in Hall.
    destruct (Hall r' Hr'in) as (d0 & s0 & e0 & Hw0).
    assert (d0 = d) by (destruct Hw0 as (Hd0 & _); congruence). subst d0.
    exists (mk_datetime d s0), (mk_datetime d e0).
    split; [exact (row_window_interval r' d s0 e0 Hw0)|].
    destruct (overlaps (mk_datetime d start) (mk_datetime d stop) (mk_datetime d s0)
                (mk_datetime d e0)) eqn:Hov; [|reflexivity].
    exfalso. apply overlaps_same_day in Hov.
    destruct (ForallOrdPairs_In Hinv r' row Hr'in Hin) as [Heq|[Hno|Hno]].
    - subst r'. rewrite Hid in Hother. simpl in Hother.
      rewrite Z.eqb_refl in Hother. discriminate.
    - apply Hno. repeat split; auto.
      exists d, s0, e0, start, stop. repeat split; try apply Hw0; try apply Hwin.
      unfold intervals_overlap in *. lia.
    - apply Hno. repeat split; auto.
      + rewrite sql_eq_sym. exact Htab.
      + exists d, start, stop, s0, e0. repeat split; try apply Hw0; try apply Hwin.
        exact Hov. }
  apply find_conflict_none in Hpass. rewrite Hpass. reflexivity.
Qed.

(** X22. [get_all_bookings] on the reference store: with the connection up it
    returns every stored booking, in store order, after one unfiltered
    query; with the connection lost it prints the error and returns the
    empty list, as it would for a store without bookings. *)
Theorem get_all_bookings_on_store (w : world MemStore.t) :
  (live (store w) ->
   exists w',
     get_all_bookings MemStore.driver w
     = (inr (map Booking.from_dict (MemStore.bookings (store w))), w')
     /\ new_events w w' = [(Select "bookings" [] None, None)])
  /\ (MemStore.statements_left (store w) = Some O ->
      exists w',
        get_all_bookings MemStore.driver w = (inr [], w')
        /\ stdout w' = (stdout w ++ [MsgReadBookingsError OperationalError])%list).
Proof.
  unfold get_all_bookings, read_bookings. unfold_monad.
  cbn [exec_select MemStore.driver]. unfold MemStore.select, Booking.get_table_name.
  split.
  - intros Hl. rewrite (live_tick _ Hl), relation_bookings.
    eexists. split.
    + assert (Hall : forall l : list dict, filter (MemStore.row_matches []) l = l)
        by (induction l as [|x l IH]; simpl; [reflexivity | now rewrite IH]).
      rewrite Hall. reflexivity.
    + apply new_events_app. reflexivity.
  - intros H0. unfold MemStore.tick. rewrite H0. eexists. split; reflexivity.
Qed.

Section UpdateDefaults.
Context {Store : Type} (driver : Driver Store).

(** X23. Unlike [create_booking], [update_booking] accepts a booking without an
    end time: for a start time before 22:00 on a plain date it sends the
    [UPDATE] with the end time set to the start time plus two hours. *)
Theorem update_booking_fills_missing_end_time (booking_id : pyval) (b : Booking.t)
  (d : date) (start : time) (w : world Store) :
  Booking.booking_end_time b = VNone ->
  Booking.booking_date b = VDate d ->
  Booking.booking_time b = VTime start ->
  d < MAXORDINAL -> time_ok start -> start < 22 * MICROS_PER_HOUR ->
  exists v w' data e,
    update_booking driver booking_id b w = (inr v, w')
    /\ new_events w w' = [(Update "bookings" data [("id", booking_id)], e)]
    /\ dict_get data "booking_time" = VTime start
    /\ dict_get data "booking_end_time" = VTime (start + 2 * MICROS_PER_HOUR).
Proof.
  intros He Hd Hs Hmax Hok Hlt.
  assert (Hrow : exists row,
             Booking.to_dict b = inr row
             /\ dict_get row "booking_time" = VTime start
             /\ dict_get row "booking_end_time" = VTime (start + 2 * MICROS_PER_HOUR)).
  { unfold Booking.to_dict, Booking.default_end_time.
    rewrite He, Hd, Hs. cbn [is_none negb truthy time_part date_part andb combine].
    rewrite (dt_add_two_hours d start Hmax Hok).
    apply Z.ltb_lt in Hlt. rewrite Hlt. eexists. split; [reflexivity|].
    split; reflexivity. }
  destruct Hrow as (row & Hto & Hst & Hen).
  unfold update_booking. rewrite Hto. unfold_monad.
  destruct (dict_set row "updated_at" (VDateTime (clock w))) as [|c data'] eqn:E;
    [exfalso; exact (dict_set_not_empty _ _ _ E)|].
  assert (Hst' : dict_get (c :: data') "booking_time" = VTime start)
    by (rewrite <- E, dict_get_set_other by discriminate; exact Hst).
  assert (Hen' : dict_get (c :: data') "booking_end_time"
                 = VTime (start + 2 * MICROS_PER_HOUR))
    by (rewrite <- E, dict_get_set_other by discriminate; exact Hen).
  destruct (exec_update driver _ _ _ (store w)) as [[e|n] s']; simpl;
    (do 4 eexists; split; [reflexivity|]; split;
     [apply new_events_app; reflexivity | split; [exact Hst' | exact Hen']]).
Qed.

End UpdateDefaults.

(** * The further properties on the example restaurant *)

Lemma restaurant_no_double_booking : no_double_booking restaurant.
Proof.
  unfold no_double_booking. simpl.
  repeat constructor;
    intros (Ha1 & Ha2 & _ & d & s1 & e1 & s2 & e2 & (_ & Hs1 & He1) & (_ & Hs2 & He2) & Hov);
    try (vm_compute in Ha1; discriminate); try (vm_compute in Ha2; discriminate);
    vm_compute in Hs1, He1, Hs2, He2;
    inversion Hs1; inversion He1; inversion Hs2; inversion He2; subst;
    unfold intervals_overlap in Hov; lia.
Qed.

Lemma restaurant_rows_have_windows :
  Forall (fun r => exists d0 s0 e0, row_window r d0 s0 e0) (MemStore.bookings restaurant).
Proof. repeat constructor; do 3 eexists; repeat split; reflexivity. Qed.

Lemma create_booking_requires_end_time_witness :
  create_booking MemStore.driver open_ended (fresh_world restaurant)
  = (inr VNone,
     mk_world restaurant [] [MsgEndTimeRequired] (clock (fresh_world restaurant))).
Proof.
  apply (create_booking_requires_end_time MemStore.driver open_ended
           (fresh_world restaurant)).
  reflexivity.
Defined.

Lemma create_booking_gated_witness :
  (exists w',
      create_booking MemStore.driver dinner (fresh_world restaurant) = (inr VNone, w')
      /\ stdout w' = [MsgConflict (VInt 1)]
      /\ store w' = restaurant)
  /\ (exists w' e,
         create_booking MemStore.driver dinner (fresh_world broken_restaurant)
         = (inr VNone, w')
         /\ stdout w' = [MsgAvailabilityError e; MsgUnavailable]).
Proof.
  split.
  - destruct (create_booking_gated MemStore.driver dinner (fresh_world restaurant)
                (snd (check_table_availability MemStore.driver (VInt 1) (VDate today)
                        (VTime (hm 19 0)) (VTime (hm 21 0)) VNone
                        (fresh_world restaurant)))
                (mk_availability false true true
                   (Some (Booking.from_dict
                            (booking_row 1 1 1 today (hm 19 0) (VTime (hm 21 0))
                               "confirmed"))))
                eq_refl eq_refl eq_refl)
      as (m & Hrun & _ & _ & Hc & _).
    rewrite (Hc _ eq_refl) in Hrun.
    eexists. split; [exact Hrun|]. split; reflexivity.
  - destruct (create_booking_gated MemStore.driver dinner (fresh_world broken_restaurant)
                (snd (check_table_availability MemStore.driver (VInt 1) (VDate today)
                        (VTime (hm 19 0)) (VTime (hm 21 0)) VNone
                        (fresh_world broken_restaurant)))
                (mk_availability false true true None)
                eq_refl eq_refl eq_refl)
      as (m & Hrun & _ & _ & _ & Hg).
    destruct (Hg eq_refl eq_refl) as [-> _].
    do 2 eexists. split; [exact Hrun|]. reflexivity.
Defined.

Lemma create_booking_inserts_row_witness :
  exists w' data,
    Booking.to_dict late_request = inr data
    /\ create_booking MemStore.driver late_request (fresh_world restaurant)
       = (inr (VInt 4), w')
    /\ nth_error (trace w') 2 = Some (Insert "bookings" data, None).
Proof.
  do 2 eexists. split; [reflexivity|]. split.
  - eapply (create_booking_inserts_row MemStore.driver late_request
              (fresh_world restaurant)).
    + reflexivity.
    + vm_compute. reflexivity.
    + reflexivity.
    + reflexivity.
    + vm_compute. reflexivity.
  - vm_compute. reflexivity.
Defined.

Lemma narrower_window_stays_available_witness :
  exists r' w1',
    check_table_availability MemStore.driver (VInt 1) (VDate today) (VTime (hm 22 30))
      (VTime (hm 23 0)) VNone (fresh_world restaurant) = (inr r', w1')
    /\ available r' = true.
Proof.
  eapply (narrower_window_stays_available MemStore.driver (VInt 1) (VDate today) VNone
            (hm 22 0) (hm 23 30) (hm 22 30) (hm 23 0) (fresh_world restaurant)).
  - vm_compute. discriminate.
  - vm_compute. discriminate.
  - vm_compute. reflexivity.
  - reflexivity.
Defined.

Lemma reported_conflict_is_first_witness :
  exists before after new_start new_end existing_start existing_end,
    active_bookings bookings_today VNone
    = (before
         ++ Booking.from_dict
              (booking_row 1 1 1 today (hm 19 0) (VTime (hm 21 0)) "confirmed")
         :: after)%list
    /\ combine (VDate today) (VTime (hm 20 0)) = inr new_start
    /\ combine (VDate today) (VTime (hm 21 30)) = inr new_end
    /\ Forall (passed_over (VDate today) new_start new_end) before
    /\ existing_interval (VDate today)
         (Booking.from_dict
            (booking_row 1 1 1 today (hm 19 0) (VTime (hm 21 0)) "confirmed"))
       = inr (existing_start, existing_end)
    /\ overlaps new_start new_end existing_start existing_end = true.
Proof.
  eapply (reported_conflict_is_first MemStore.driver (VInt 1) (VDate today)
            (VTime (hm 20 0)) (VTime (hm 21 30)) VNone (fresh_world restaurant)).
  - vm_compute. reflexivity.
  - vm_compute. reflexivity.
  - vm_compute. reflexivity.
  - reflexivity.
Defined.

Lemma unreadable_booking_blocks_table_witness :
  exists w',
    check_table_availability MemStore.driver (VInt 1) (VDate today) (VTime (hm 9 0))
      (VTime (hm 10 0)) VNone (fresh_world broken_restaurant)
    = (inr (mk_availability false true true None), w').
Proof.
  eapply (unreadable_booking_blocks_table MemStore.driver (VInt 1) (VDate today) VNone
            (hm 9 0) (hm 10 0) (fresh_world broken_restaurant) _ _ _ _
            [] [] (Booking.from_dict unreadable_row) TypeError).
  - vm_compute. reflexivity.
  - reflexivity.
  - vm_compute. reflexivity.
  - reflexivity.
  - reflexivity.
  - reflexivity.
  - constructor.
  - reflexivity.
Defined.

Lemma create_booking_keeps_no_double_booking_witness :
  no_double_booking
    (store (snd (create_booking MemStore.driver late_request (fresh_world restaurant)))).
Proof.
  apply (create_booking_keeps_no_double_booking late_request (fresh_world restaurant)).
  - reflexivity.
  - exact restaurant_no_double_booking.
Defined.

Lemma created_booking_blocks_its_window_witness :
  exists r w'' c,
    check_table_availability MemStore.driver (VInt 1) (VDate today) (VTime (hm 22 0))
      (VTime (hm 23 0)) VNone
      (snd (create_booking MemStore.driver late_request (fresh_world restaurant)))
    = (inr r, w'')
    /\ available r = false
    /\ conflicting_booking r = Some c
    /\ Booking.id c = VInt 4.
Proof.
  apply (created_booking_blocks_its_window late_request (fresh_world restaurant)
           (snd (create_booking MemStore.driver late_request (fresh_world restaurant)))
           (VInt 4)).
  - reflexivity.
  - vm_compute. reflexivity.
  - discriminate.
  - reflexivity.
Defined.

Lemma created_booking_is_read_back_witness :
  exists row w'',
    PostgreSQLDriver.read_by_id MemStore.driver "bookings" (VInt 4)
      (snd (create_booking MemStore.driver late_request (fresh_world restaurant)))
    = (inr (Some row), w'')
    /\ Booking.id (Booking.from_dict row) = VInt 4
    /\ Booking.table_id (Booking.from_dict row) = VInt 1
    /\ Booking.booking_date (Booking.from_dict row) = VDate today
    /\ Booking.booking_time (Booking.from_dict row) = VTime (hm 22 0)
    /\ Booking.booking_end_time (Booking.from_dict row) = VTime (hm 23 0).
Proof.
  destruct (created_booking_is_read_back late_request (fresh_world restaurant)
              (snd (create_booking MemStore.driver late_request (fresh_world restaurant)))
              (VInt 4) eq_refl eq_refl)
    as (row & w'' & Hread & Hid & _ & Htab & Hdate & Hstart & Hstop & _).
  - discriminate.
  - exists row, w''. repeat split; assumption.
Defined.

Lemma delete_booking_twice_witness :
  exists w1 w2,
    delete_booking MemStore.driver (VInt 1) (fresh_world restaurant) = (inr true, w1)
    /\ delete_booking MemStore.driver (VInt 1) w1 = (inr false, w2)
    /\ MemStore.bookings (store w2) = MemStore.bookings (store w1).
Proof.
  destruct (delete_booking_twice (VInt 1) (fresh_world restaurant) eq_refl)
    as (v1 & w1 & w2 & H1 & H2 & Hsame).
  assert (Hv : v1 = true) by (vm_compute in H1; injection H1 as <- _; reflexivity).
  subst v1. exists w1, w2. auto.
Defined.

Lemma update_booking_unknown_id_witness :
  exists w',
    update_booking MemStore.driver (VInt 99) moved_booking (fresh_world restaurant)
    = (inr false, w')
    /\ MemStore.bookings (store w') = MemStore.bookings restaurant.
Proof.
  apply (update_booking_unknown_id (VInt 99) moved_booking (fresh_world restaurant)).
  reflexivity.
Defined.

Lemma deleted_booking_never_conflicts_witness :
  sql_eq (Booking.id
            (Booking.from_dict
               (booking_row 2 1 1 today (hm 21 0) (VTime (hm 22 0)) "confirmed")))
    (VInt 1) = false.
Proof.
  eapply (deleted_booking_never_conflicts (VInt 1) (VInt 1) (VDate today)
            (VTime (hm 20 0)) (VTime (hm 22 0)) VNone (fresh_world restaurant)).
  - reflexivity.
  - vm_compute. reflexivity.
  - vm_compute. reflexivity.
  - reflexivity.
Defined.

Lemma stored_booking_window_free_when_excluded_witness :
  exists w',
    check_table_availability MemStore.driver (VInt 1) (VDate today) (VTime (hm 19 0))
      (VTime (hm 21 0)) (VInt 1) (fresh_world restaurant)
    = (inr (mk_availability true true true None), w').
Proof.
  apply (stored_booking_window_free_when_excluded (fresh_world restaurant)
           (booking_row 1 1 1 today (hm 19 0) (VTime (hm 21 0)) "confirmed")
           1 today (hm 19 0) (hm 21 0) table_1).
  - reflexivity.
  - exact restaurant_no_double_booking.
  - exact restaurant_rows_have_windows.
  - left. reflexivity.
  - reflexivity.
  - reflexivity.
  - repeat split; reflexivity.
  - reflexivity.
  - reflexivity.
Defined.

Lemma update_booking_fills_missing_end_time_witness :
  exists v w' data e,
    update_booking MemStore.driver (VInt 2) open_ended (fresh_world restaurant)
    = (inr v, w')
    /\ new_events (fresh_world restaurant) w'
       = [(Update "bookings" data [("id", VInt 2)], e)]
    /\ dict_get data "booking_time" = VTime (hm 18 0)
    /\ dict_get data "booking_end_time" = VTime (hm 18 0 + 2 * MICROS_PER_HOUR).
Proof.
  apply (update_booking_fills_missing_end_time MemStore.driver (VInt 2) open_ended
           today (hm 18 0) (fresh_world restaurant)); try reflexivity.
  vm_compute. split; [discriminate | reflexivity].
Defined.

Lemma get_all_bookings_on_store_witness :
  (exists w',
      get_all_bookings MemStore.driver (fresh_world restaurant)
      = (inr bookings_today, w'))
  /\ (exists w',
         get_all_bookings MemStore.driver (fresh_world (restaurant_failing_after 0))
         = (inr [], w')
         /\ stdout w' = [MsgReadBookingsError OperationalError]).
Proof.
  split.
  - destruct (proj1 (get_all_bookings_on_store (fresh_world restaurant)) eq_refl)
      as (w' & Hrun & _).
    exists w'. exact Hrun.
  - exact (proj2 (get_all_bookings_on_store (fresh_world (restaurant_failing_after 0)))
             eq_refl).
Defined.
